(** * Resume screening: the structured extractor and the session store

    A shallow embedding of [backend/app.py] (the two AI-assisted extractors
    [parse_resume_with_ai] and [parse_job_description_with_ai], the check
    [allowed_file], the route [upload_files] and the title that
    [export_session] puts in the name of a download) and of
    [backend/database.py] (the class [ScreeningDatabase]), followed by the
    properties of the extraction-rank-persist pipeline that rest on them.

    Conventions.
    - A Python [str] is a [string], one [ascii] per character: the model
      covers the code points below 256.
    - A Python value of unknown type (what [json.loads] returns, what a
      dataclass field or a dict slot holds) is a [pyval].
    - A call that may raise is a computation in [except]; [try ... except
      Exception] is a match on its outcome.
    - The SQLite file is a [db]: the two tables in rowid order and the two
      AUTOINCREMENT counters.  Every method of [ScreeningDatabase] opens its
      own connection, so a method is one transaction on the committed state. *)

From Stdlib Require Import ZArith List String Ascii Bool Lia Arith.
From Stdlib Require Import Permutation Sorted.
From Stdlib Require Import Floats.SpecFloat.
Import ListNotations.

Set Warnings "-register-all".

Open Scope string_scope.
Open Scope list_scope.
Open Scope Z_scope.

(* ================================================================== *)
(** * Exceptions *)

Inductive exn : Type :=
| APIError            (* anything raised by the completion request *)
| AttributeError
| IndexError
| TypeError
| ValueError
| OverflowError
| JSONDecodeError
| IntegrityError      (* sqlite3: NOT NULL constraint failed *)
| ProgrammingError    (* sqlite3: parameter of unsupported type *)
| DatabaseFull.       (* sqlite3: AUTOINCREMENT counter exhausted *)

Inductive except (A : Type) : Type :=
| Ok (a : A)
| Raise (e : exn).

Arguments Ok {A} a.
Arguments Raise {A} e.

Definition bind {A B : Type} (m : except A) (k : A -> except B) : except B :=
  match m with
  | Ok a => k a
  | Raise e => Raise e
  end.

Notation "x <- m ;; k" := (bind m (fun x => k))
  (at level 61, m at next level, right associativity).

Notation "' pat <- m ;; k" := (bind m (fun x => match x with pat => k end))
  (at level 61, pat pattern, m at next level, right associativity).

Definition raises {A : Type} (m : except A) : Prop :=
  exists e, m = Raise e.

Fixpoint mapM {A B : Type} (f : A -> except B) (l : list A) : except (list B) :=
  match l with
  | [] => Ok []
  | a :: l' => b <- f a ;; bs <- mapM f l' ;; Ok (b :: bs)
  end.

(* ================================================================== *)
(** * Python strings *)

Module PyStr.

Definition chr (n : nat) : string := String (ascii_of_nat n) EmptyString.

(** [str.isspace] on the code points below 256. *)
Definition is_space (c : ascii) : bool :=
  let n := nat_of_ascii c in
  (((9 <=? n) && (n <=? 13)) || ((28 <=? n) && (n <=? 32))
   || (n =? 133) || (n =? 160))%nat.

Fixpoint lstrip (s : string) : string :=
  match s with
  | EmptyString => EmptyString
  | String c s' => if is_space c then lstrip s' else s
  end.

Fixpoint rstrip (s : string) : string :=
  match s with
  | EmptyString => EmptyString
  | String c s' =>
      match rstrip s' with
      | EmptyString => if is_space c then EmptyString else String c EmptyString
      | r => String c r
      end
  end.

(** [s.strip()] *)
Definition strip (s : string) : string := rstrip (lstrip s).

(** [sub in s] *)
Fixpoint contains (sub s : string) : bool :=
  prefix sub s ||
  match s with
  | EmptyString => false
  | String _ s' => contains sub s'
  end.

(** [s[:n]] for [0 <= n] *)
Fixpoint take (n : nat) (s : string) : string :=
  match n, s with
  | S n', String c s' => String c (take n' s')
  | _, _ => EmptyString
  end.

(** The scan of [s.replace(old, new)] for a non-empty [old]: left to right,
    occurrences do not overlap.  [skip] counts the characters of the current
    occurrence still to be dropped. *)
Fixpoint replace_scan (old new : string) (skip : nat) (s : string) : string :=
  match s with
  | EmptyString => EmptyString
  | String c s' =>
      match skip with
      | S k => replace_scan old new k s'
      | O =>
          if prefix old s
          then new ++ replace_scan old new (String.length old - 1) s'
          else String c (replace_scan old new O s')
      end
  end.

Fixpoint intersperse (new s : string) : string :=
  match s with
  | EmptyString => new
  | String c s' => new ++ String c (intersperse new s')
  end.

(** [s.replace(old, new)] *)
Definition replace (old new s : string) : string :=
  match old with
  | EmptyString => intersperse new s
  | _ => replace_scan old new O s
  end.

(** The scan of [s.split(sep)] for a non-empty [sep]: the piece being read
    and the pieces after it. *)
Fixpoint split_scan (sep : string) (skip : nat) (s : string) : string * list string :=
  match s with
  | EmptyString => (EmptyString, [])
  | String c s' =>
      match skip with
      | S k => split_scan sep k s'
      | O =>
          if prefix sep s
          then let '(p, ps) := split_scan sep (String.length sep - 1) s' in
               (EmptyString, p :: ps)
          else let '(p, ps) := split_scan sep O s' in
               (String c p, ps)
      end
  end.

(** [s.split(sep)]; an empty separator is a [ValueError]. *)
Definition split (sep s : string) : except (list string) :=
  match sep with
  | EmptyString => Raise ValueError
  | _ => let '(p, ps) := split_scan sep O s in Ok (p :: ps)
  end.

(** [l[i]] for [0 <= i] *)
Definition item {A : Type} (l : list A) (i : nat) : except A :=
  match nth_error l i with
  | Some a => Ok a
  | None => Raise IndexError
  end.

End PyStr.

(* ================================================================== *)
(** * Python values *)

(** What [json.loads] can return and what a dict slot or a dataclass field
    can hold.  A [dict] keeps its items in insertion order, one per key. *)
Inductive pyval : Type :=
| PNone
| PBool (b : bool)
| PInt (z : Z)
| PFloat (f : spec_float)
| PStr (s : string)
| PList (l : list pyval)
| PDict (d : list (string * pyval)).

Definition pydict : Type := list (string * pyval).

Fixpoint lookup (k : string) (d : pydict) : option pyval :=
  match d with
  | [] => None
  | (k', v) :: d' => if String.eqb k k' then Some v else lookup k d'
  end.

(** [d.get(k, default)] on a dict *)
Definition dict_get (d : pydict) (k : string) (default : pyval) : pyval :=
  match lookup k d with
  | Some v => v
  | None => default
  end.

(** [d.get(k)]: the default is [None] *)
Definition dict_get_none (d : pydict) (k : string) : pyval :=
  dict_get d k PNone.

(** [data.get(k, default)] on a value of unknown type: only a dict has the
    method. *)
Definition data_get (data : pyval) (k : string) (default : pyval) : except pyval :=
  match data with
  | PDict d => Ok (dict_get d k default)
  | _ => Raise AttributeError
  end.

(** ** [int(x)] *)

Definition digit_of (c : ascii) : option Z :=
  let n := nat_of_ascii c in
  if ((48 <=? n) && (n <=? 57))%nat then Some (Z.of_nat n - 48) else None.

(** Decimal digits, single underscores allowed between two digits. *)
Fixpoint digits_val (acc : Z) (after_digit : bool) (s : string) : option Z :=
  match s with
  | EmptyString => if after_digit then Some acc else None
  | String c s' =>
      match digit_of c with
      | Some d => digits_val (10 * acc + d) true s'
      | None =>
          if Ascii.eqb c "_" && after_digit then digits_val acc false s' else None
      end
  end.

(** [int(s)] for a str: surrounding whitespace, an optional sign, base 10.
    (The cap on the number of digits of recent interpreters is not part of
    the model.) *)
Definition int_of_str (s : string) : except Z :=
  let body := PyStr.strip s in
  let '(neg, ds) :=
    match body with
    | String "-" r => (true, r)
    | String "+" r => (false, r)
    | _ => (false, body)
    end in
  match digits_val 0 false ds with
  | Some z => Ok (if neg then - z else z)
  | None => Raise ValueError
  end.

(** [int(f)] for a float: truncation toward zero. *)
Definition int_of_float (f : spec_float) : except Z :=
  match f with
  | S754_zero _ => Ok 0
  | S754_infinity _ => Raise OverflowError
  | S754_nan => Raise ValueError
  | S754_finite s m e =>
      let a := if 0 <=? e then Z.pos m * 2 ^ e else Z.pos m / 2 ^ (- e) in
      Ok (if s then - a else a)
  end.

Definition py_int (v : pyval) : except Z :=
  match v with
  | PNone => Raise TypeError
  | PBool b => Ok (if b then 1 else 0)
  | PInt z => Ok z
  | PFloat f => int_of_float f
  | PStr s => int_of_str s
  | PList _ => Raise TypeError
  | PDict _ => Raise TypeError
  end.

(** ** The [json] module

    [json.dumps] and [json.loads] belong to the interpreter's library, not to
    the repository: the development is parametric in them. *)
Class JsonCodec : Type := {
  json_dumps : pyval -> except string;
  json_loads : string -> except pyval
}.

(* ================================================================== *)
(** * The structured extractor ([backend/app.py]) *)

(** ** The records *)

(** Modelled from the spec: the class [Resume] of the module
    [resume_screening_agent], which is not part of the sources: the
    CandidateRecord of the specification, with the fields that the
    constructor calls of [app.py] name.  A field holds the value that
    [app.py] passes for it, a [pyval]: [app.py] checks no type before the
    call.  The specification gives the fields types (texts, lists of texts,
    lists of entries); what the class does with a value of another type is
    not in the sources, and the model keeps it as passed.  The statement
    about wrongly typed values (C2) does not rest on that: it is made where
    [app.py] itself decides, or for values of the fields' types. *)
Module Resume.
Record t : Type := mk {
  id : string;
  name : pyval;
  email : pyval;
  phone : pyval;
  skills : pyval;
  experience : pyval;
  education : pyval;
  summary : pyval
}.
End Resume.

(** Modelled from the spec: the class [JobDescription] of the same module,
    the JobRecord of the specification, under the same reading.  The years
    of experience are the integer that [int()] returned. *)
Module JobDescription.
Record t : Type := mk {
  title : pyval;
  company : pyval;
  required_skills : pyval;
  preferred_skills : pyval;
  experience_years : Z;
  responsibilities : pyval;
  qualifications : pyval;
  description : pyval
}.
End JobDescription.

(** ** The agent

    [agent.client.chat.completions.create(model, messages, temperature,
    max_tokens)] followed by [response.choices[0].message.content]: the call
    raises, or the content is [None], or it is a str.  The temperature is the
    constant 0.1 of both call sites. *)
Record chat_request : Type := {
  req_model : string;
  req_system : string;
  req_user : string;
  req_max_tokens : Z
}.

Record Agent : Type := {
  model : string;
  create : chat_request -> except (option string)
}.

(** ** The prompts *)

Definition nl : string := PyStr.chr 10.
Definition dquote : ascii := ascii_of_nat 34.
Definition q (s : string) : string := PyStr.chr 34 ++ s ++ PyStr.chr 34.
Definition kv (k v : string) : string := q k ++ ": " ++ q v.
Definition unlines (ls : list string) : string := String.concat nl ls.

Definition resume_prompt (text : string) : string :=
  unlines
    [ "Extract the following information from this resume and return ONLY valid JSON:";
      EmptyString;
      "RESUME TEXT:";
      text;
      EmptyString;
      "Return JSON in this exact format:";
      "{";
      "    " ++ kv "name" "Full Name" ++ ",";
      "    " ++ kv "email" "email@example.com" ++ ",";
      "    " ++ kv "phone" "+1-234-567-8900" ++ ",";
      "    " ++ q "skills" ++ ": [" ++ q "skill1" ++ ", " ++ q "skill2" ++ ", ...],";
      "    " ++ q "experience" ++ ": [";
      "        {";
      "            " ++ kv "title" "Job Title" ++ ",";
      "            " ++ kv "company" "Company Name" ++ ",";
      "            " ++ kv "duration" "2020-2023" ++ ",";
      "            " ++ kv "description" "Brief description";
      "        }";
      "    ],";
      "    " ++ q "education" ++ ": [";
      "        {";
      "            " ++ kv "degree" "Degree Name" ++ ",";
      "            " ++ kv "field" "Field of Study" ++ ",";
      "            " ++ kv "institution" "University Name" ++ ",";
      "            " ++ kv "year" "2020";
      "        }";
      "    ],";
      "    " ++ kv "summary" "Brief professional summary";
      "}";
      EmptyString;
      "Extract what you can. Use " ++ q "N/A"
        ++ " for missing information. Return ONLY valid JSON, no markdown." ]%string.

Definition job_prompt (text : string) : string :=
  let strs (k a b : string) : string :=
    ("    " ++ q k ++ ": [" ++ q a ++ ", " ++ q b ++ ", ...],")%string in
  unlines
    [ "Extract the following information from this job description and return ONLY valid JSON:";
      EmptyString;
      "JOB DESCRIPTION TEXT:";
      text;
      EmptyString;
      "Return JSON in this exact format:";
      "{";
      "    " ++ kv "title" "Job Title" ++ ",";
      "    " ++ kv "company" "Company Name" ++ ",";
      strs "required_skills" "skill1" "skill2";
      strs "preferred_skills" "skill1" "skill2";
      "    " ++ q "experience_years" ++ ": 5,";
      strs "responsibilities" "responsibility1" "responsibility2";
      strs "qualifications" "qualification1" "qualification2";
      "    " ++ kv "description" "Full job description text";
      "}";
      EmptyString;
      "Extract what you can. Use reasonable defaults for missing information. Return ONLY valid JSON, no markdown." ]%string.

Definition resume_system : string :=
  "You are a resume parsing expert. Extract information and return only valid JSON.".

Definition job_system : string :=
  "You are a job description parser. Extract information and return only valid JSON.".

(** ** Reading the response *)

(** [response.choices[0].message.content.strip()] *)
Definition content_strip (content : option string) : except string :=
  match content with
  | Some s => Ok (PyStr.strip s)
  | None => Raise AttributeError
  end.

(** The text between the first fence and the next one, when there is a
    fence: the tagged fence first, the plain one otherwise. *)
Definition unfence (result_text : string) : except string :=
  if PyStr.contains "```json" result_text then
    ps <- PyStr.split "```json" result_text ;;
    p <- PyStr.item ps 1 ;;
    rs <- PyStr.split "```" p ;;
    r <- PyStr.item rs 0 ;;
    Ok (PyStr.strip r)
  else if PyStr.contains "```" result_text then
    ps <- PyStr.split "```" result_text ;;
    p <- PyStr.item ps 1 ;;
    rs <- PyStr.split "```" p ;;
    r <- PyStr.item rs 0 ;;
    Ok (PyStr.strip r)
  else Ok result_text.

Section Extractor.

Context {codec : JsonCodec}.

(** The request and the decoding: the statements of the [try] block up to
    [data = json.loads(result_text)]. *)
Definition ask (agent : Agent) (system user : string) (max_tokens : Z)
  : except pyval :=
  content <- create agent {| req_model := model agent;
                             req_system := system;
                             req_user := user;
                             req_max_tokens := max_tokens |} ;;
  result_text <- content_strip content ;;
  result_text <- unfence result_text ;;
  json_loads result_text.

(** The [Resume(...)] of the [try] block. *)
Definition resume_of_data (data : pyval) (text filename : string)
  : except Resume.t :=
  let id := PyStr.replace "." "_" filename in
  name <- data_get data "name" (PStr "Candidate") ;;
  email <- data_get data "email" (PStr EmptyString) ;;
  phone <- data_get data "phone" (PStr EmptyString) ;;
  skills <- data_get data "skills" (PList []) ;;
  experience <- data_get data "experience" (PList []) ;;
  education <- data_get data "education" (PList []) ;;
  summary <- data_get data "summary" (PStr (PyStr.take 300 text)) ;;
  Ok (Resume.mk id name email phone skills experience education summary).

(** The [Resume(...)] of the [except] block.  The summary is
    [text[:300] if len(text) > 300 else text]. *)
Definition resume_fallback (text filename : string) : Resume.t :=
  Resume.mk
    (PyStr.replace "." "_" filename)
    (PStr (PyStr.replace ".txt" EmptyString
            (PyStr.replace ".docx" EmptyString
              (PyStr.replace ".pdf" EmptyString
                (PyStr.replace "_" " " filename)))))
    (PStr EmptyString)
    (PStr EmptyString)
    (PList [])
    (PList [])
    (PList [])
    (PStr (if (300 <? String.length text)%nat then PyStr.take 300 text else text)).

Definition resume_try (text filename : string) (agent : Agent) : except Resume.t :=
  data <- ask agent resume_system (resume_prompt text) 1500 ;;
  resume_of_data data text filename.

Definition parse_resume_with_ai (text filename : string) (agent : Agent) : Resume.t :=
  match resume_try text filename agent with
  | Ok r => r
  | Raise _ => resume_fallback text filename
  end.

(** The [JobDescription(...)] of the [try] block. *)
Definition job_of_data (data : pyval) (text : string) : except JobDescription.t :=
  title <- data_get data "title" (PStr "Position") ;;
  company <- data_get data "company" (PStr "Company") ;;
  required_skills <- data_get data "required_skills" (PList []) ;;
  preferred_skills <- data_get data "preferred_skills" (PList []) ;;
  years <- data_get data "experience_years" (PInt 0) ;;
  experience_years <- py_int years ;;
  responsibilities <- data_get data "responsibilities" (PList []) ;;
  qualifications <- data_get data "qualifications" (PList []) ;;
  description <- data_get data "description" (PStr text) ;;
  Ok (JobDescription.mk title company required_skills preferred_skills
        experience_years responsibilities qualifications description).

Definition job_fallback (text : string) : JobDescription.t :=
  JobDescription.mk (PStr "Position") (PStr "Company") (PList []) (PList [])
    0 (PList []) (PList []) (PStr text).

Definition job_try (text : string) (agent : Agent) : except JobDescription.t :=
  data <- ask agent job_system (job_prompt text) 2000 ;;
  job_of_data data text.

Definition parse_job_description_with_ai (text : string) (agent : Agent)
  : JobDescription.t :=
  match job_try text agent with
  | Ok j => j
  | Raise _ => job_fallback text
  end.

End Extractor.

(* ================================================================== *)
(** * A JSON codec to run the embedding on

    An instance of [JsonCodec] on the fragment of JSON without fractional
    numbers: [null], booleans, integers, strings, arrays and objects, with the
    text layout of [json.dumps] (separators [", "] and [": "], every
    character outside [' '..'~'] escaped) and the grammar of [json.loads].
    It is there to evaluate the extractors and the store on concrete texts;
    a float on the way out and a fraction or an exponent on the way in are
    outside the fragment and are answered by an exception.  The theorems on
    the extractor and on the store hold for every codec; this one serves
    their instances at concrete inputs. *)
Module MiniJson.

Definition hex_digit (n : nat) : string :=
  PyStr.chr (if (n <? 10)%nat then 48 + n else 87 + n).

Definition escape_char (c : ascii) : string :=
  let n := nat_of_ascii c in
  if (n =? 34)%nat then "\" ++ PyStr.chr 34
  else if (n =? 92)%nat then "\\"
  else if (n =? 10)%nat then "\n"
  else if (n =? 13)%nat then "\r"
  else if (n =? 9)%nat then "\t"
  else if (n =? 8)%nat then "\b"
  else if (n =? 12)%nat then "\f"
  else if ((n <? 32) || (126 <? n))%nat
       then "\u00" ++ hex_digit (n / 16) ++ hex_digit (n mod 16)
  else String c EmptyString.

Fixpoint escape (s : string) : string :=
  match s with
  | EmptyString => EmptyString
  | String c s' => escape_char c ++ escape s'
  end.

(** A string literal. *)
Definition quoted (s : string) : string := q (escape s).

Fixpoint pos_digits (fuel : nat) (n : Z) (acc : string) : string :=
  match fuel with
  | O => acc
  | S f =>
      let acc' := String (ascii_of_nat (48 + Z.to_nat (n mod 10))) acc in
      if n <? 10 then acc' else pos_digits f (n / 10) acc'
  end.

Definition str_of_int (z : Z) : string :=
  let a := Z.abs z in
  let ds := pos_digits (S (Z.to_nat (Z.log2 a))) a EmptyString in
  if z <? 0 then "-" ++ ds else ds.

Definition join (sep : string) (ls : list string) : string := String.concat sep ls.

Fixpoint dumps (v : pyval) : except string :=
  match v with
  | PNone => Ok "null"
  | PBool b => Ok (if b then "true" else "false")
  | PInt z => Ok (str_of_int z)
  | PFloat _ => Raise ValueError
  | PStr s => Ok (quoted s)
  | PList l =>
      ps <- (fix go (l : list pyval) : except (list string) :=
               match l with
               | [] => Ok []
               | x :: l' => p <- dumps x ;; ps <- go l' ;; Ok (p :: ps)
               end) l ;;
      Ok ("[" ++ join ", " ps ++ "]")%string
  | PDict d =>
      ps <- (fix go (d : list (string * pyval)) : except (list string) :=
               match d with
               | [] => Ok []
               | (k, x) :: d' =>
                   p <- dumps x ;; ps <- go d' ;;
                   Ok ((quoted k ++ ": " ++ p)%string :: ps)
               end) d ;;
      Ok ("{" ++ join ", " ps ++ "}")%string
  end.

(** [d[k] = v] *)
Fixpoint dict_set (d : pydict) (k : string) (v : pyval) : pydict :=
  match d with
  | [] => [(k, v)]
  | (k', v') :: d' =>
      if String.eqb k k' then (k, v) :: d' else (k', v') :: dict_set d' k v
  end.

Definition is_ws (c : ascii) : bool :=
  let n := nat_of_ascii c in
  ((n =? 32) || (n =? 9) || (n =? 10) || (n =? 13))%nat.

Fixpoint skip_ws (s : string) : string :=
  match s with
  | String c s' => if is_ws c then skip_ws s' else s
  | EmptyString => EmptyString
  end.

Definition expect (lit : string) (s : string) : option string :=
  if prefix lit s
  then Some (substring (String.length lit) (String.length s - String.length lit) s)
  else None.

Definition hex_val (c : ascii) : option nat :=
  let n := nat_of_ascii c in
  if ((48 <=? n) && (n <=? 57))%nat then Some (n - 48)%nat
  else if ((97 <=? n) && (n <=? 102))%nat then Some (n - 87)%nat
  else if ((65 <=? n) && (n <=? 70))%nat then Some (n - 55)%nat
  else None.

(** The characters of a string literal after its opening quote. *)
Fixpoint str_body (s : string) : option (string * string) :=
  match s with
  | EmptyString => None
  | String c s' =>
      let n := nat_of_ascii c in
      if (n =? 34)%nat then Some (EmptyString, s')
      else if (n <? 32)%nat then None
      else if (n =? 92)%nat then
        match s' with
        | String e r =>
            let plain (x : nat) :=
              match str_body r with
              | Some (b, rest) => Some (String (ascii_of_nat x) b, rest)
              | None => None
              end in
            match e with
            | "n"%char => plain 10%nat
            | "r"%char => plain 13%nat
            | "t"%char => plain 9%nat
            | "b"%char => plain 8%nat
            | "f"%char => plain 12%nat
            | "/"%char => plain 47%nat
            | "\"%char => plain 92%nat
            | "u"%char =>
                match r with
                | String h1 (String h2 (String h3 (String h4 r'))) =>
                    match hex_val h1, hex_val h2, hex_val h3, hex_val h4 with
                    | Some O, Some O, Some a, Some b =>
                        match str_body r' with
                        | Some (t, rest) =>
                            Some (String (ascii_of_nat (16 * a + b)) t, rest)
                        | None => None
                        end
                    | _, _, _, _ => None
                    end
                | _ => None
                end
            | _ => if (nat_of_ascii e =? 34)%nat then plain 34%nat else None
            end
        | EmptyString => None
        end
      else
        match str_body s' with
        | Some (b, rest) => Some (String c b, rest)
        | None => None
        end
  end.

Fixpoint digits (acc : Z) (s : string) : Z * string :=
  match s with
  | String c s' =>
      match digit_of c with
      | Some d => digits (10 * acc + d) s'
      | None => (acc, s)
      end
  | EmptyString => (acc, s)
  end.

(** An integer literal: an optional minus sign, then a single zero or a
    nonzero digit followed by digits; not continued by a fraction or an
    exponent. *)
Definition int_lit (s : string) : option (Z * string) :=
  let '(neg, r) := match s with String "-" r => (true, r) | _ => (false, s) end in
  match r with
  | String c r' =>
      match digit_of c with
      | Some d =>
          let '(z, rest) := if d =? 0 then (0, r') else digits d r' in
          match rest with
          | String "." _ | String "e" _ | String "E" _ => None
          | _ => Some (if neg then - z else z, rest)
          end
      | None => None
      end
  | EmptyString => None
  end.

Fixpoint value (fuel : nat) (s : string) : option (pyval * string) :=
  match fuel with
  | O => None
  | S f =>
      match skip_ws s with
      | String "n" _ as t =>
          match expect "null" t with Some r => Some (PNone, r) | None => None end
      | String "t" _ as t =>
          match expect "true" t with Some r => Some (PBool true, r) | None => None end
      | String "f" _ as t =>
          match expect "false" t with Some r => Some (PBool false, r) | None => None end
      | String "[" r =>
          match skip_ws r with
          | String "]" r' => Some (PList [], r')
          | _ =>
              match elements f r with
              | Some (l, r') => Some (PList l, r')
              | None => None
              end
          end
      | String "{" r =>
          match skip_ws r with
          | String "}" r' => Some (PDict [], r')
          | _ =>
              match members f r [] with
              | Some (d, r') => Some (PDict d, r')
              | None => None
              end
          end
      | String c r as t =>
          if (nat_of_ascii c =? 34)%nat then
            match str_body r with
            | Some (b, r') => Some (PStr b, r')
            | None => None
            end
          else
            match int_lit t with
            | Some (z, r') => Some (PInt z, r')
            | None => None
            end
      | EmptyString => None
      end
  end
with elements (fuel : nat) (s : string) : option (list pyval * string) :=
  match fuel with
  | O => None
  | S f =>
      match value f s with
      | Some (v, r) =>
          match skip_ws r with
          | String "]" r' => Some ([v], r')
          | String "," r' =>
              match elements f r' with
              | Some (l, r'') => Some (v :: l, r'')
              | None => None
              end
          | _ => None
          end
      | None => None
      end
  end
with members (fuel : nat) (s : string) (acc : pydict) : option (pydict * string) :=
  match fuel with
  | O => None
  | S f =>
      match skip_ws s with
      | String c r =>
          if (nat_of_ascii c =? 34)%nat then
            match str_body r with
            | Some (k, r1) =>
                match skip_ws r1 with
                | String ":" r2 =>
                    match value f r2 with
                    | Some (v, r3) =>
                        let acc' := dict_set acc k v in
                        match skip_ws r3 with
                        | String "}" r4 => Some (acc', r4)
                        | String "," r4 => members f r4 acc'
                        | _ => None
                        end
                    | None => None
                    end
                | _ => None
                end
            | None => None
            end
          else None
      | EmptyString => None
      end
  end.

Definition loads (s : string) : except pyval :=
  match value (S (String.length s)) s with
  | Some (v, r) =>
      match skip_ws r with
      | EmptyString => Ok v
      | _ => Raise JSONDecodeError
      end
  | None => Raise JSONDecodeError
  end.

End MiniJson.

Definition mini_json : JsonCodec :=
  {| json_dumps := MiniJson.dumps; json_loads := MiniJson.loads |}.

(* ================================================================== *)
(** * The session store ([backend/database.py]) *)

(** ** SQLite values and parameter binding *)

Inductive sqlval : Type :=
| SNull
| SInteger (z : Z)
| SReal (f : spec_float)
| SText (s : string).

Definition min_int64 : Z := - 2 ^ 63.
Definition max_int64 : Z := 2 ^ 63 - 1.

Definition int64b (z : Z) : bool := (min_int64 <=? z) && (z <=? max_int64).

(** The integers SQLite stores: the range of a 64-bit signed word. *)
Definition int64 (z : Z) : Prop := int64b z = true.

(** Binding a Python int to a [?]: outside the 64-bit range the [sqlite3]
    module raises [OverflowError]. *)
Definition bind_int (z : Z) : except Z :=
  if int64b z then Ok z else Raise OverflowError.

(** Binding a Python value to a [?]: [None], numbers and str are
    supported, a list or a dict is not.  SQLite stores a NaN as [NULL]. *)
Definition sql_bind (v : pyval) : except sqlval :=
  match v with
  | PNone => Ok SNull
  | PBool b => Ok (SInteger (if b then 1 else 0))
  | PInt z => z' <- bind_int z ;; Ok (SInteger z')
  | PFloat S754_nan => Ok SNull
  | PFloat f => Ok (SReal f)
  | PStr s => Ok (SText s)
  | PList _ => Raise ProgrammingError
  | PDict _ => Raise ProgrammingError
  end.

(** A [NOT NULL] column. *)
Definition not_null (v : sqlval) : except sqlval :=
  match v with
  | SNull => Raise IntegrityError
  | _ => Ok v
  end.

(** ** The tables

    A row of [sessions].  [timestamp] is the reading of the clock at the
    insert ([DEFAULT CURRENT_TIMESTAMP]), in seconds; [is_hidden] is the
    integer 0 or 1.  The columns that only carry data hold the value as it
    was bound: the conversion SQLite applies to fit a value to the declared
    type of such a column (a number to text in a TEXT column, an integer to
    a float in a REAL column) is left out.  The statements that equate such
    a column with the value passed to [save_session] are made for the values
    that SQLite keeps as they are bound: a text or [None] in a TEXT column,
    a float or [None] in a REAL column. *)
Module SessionRow.
Record t : Type := mk {
  id : Z;
  job_title : sqlval;
  company : sqlval;
  timestamp : Z;
  is_hidden : Z;
  total_candidates : Z
}.
End SessionRow.

(** A row of [results]: [ResultRow.t string] as stored, with [strengths] and
    [weaknesses] as text; [ResultRow.t pyval] as the read methods return it
    (the dict of the row with the two entries replaced by their decoding). *)
Module ResultRow.
Record t (S : Type) : Type := mk {
  id : Z;
  session_id : Z;
  resume_id : sqlval;
  candidate_name : sqlval;
  overall_score : sqlval;
  skills_match_score : sqlval;
  experience_score : sqlval;
  education_score : sqlval;
  reasoning : sqlval;
  strengths : S;
  weaknesses : S;
  recommendation : sqlval;
  rank : Z
}.
Arguments mk {S}.
Arguments id {S}.
Arguments session_id {S}.
Arguments resume_id {S}.
Arguments candidate_name {S}.
Arguments overall_score {S}.
Arguments skills_match_score {S}.
Arguments experience_score {S}.
Arguments education_score {S}.
Arguments reasoning {S}.
Arguments strengths {S}.
Arguments weaknesses {S}.
Arguments recommendation {S}.
Arguments rank {S}.
End ResultRow.

(** The committed content of the database file: both tables in rowid order
    and, for each, the largest rowid ever given ([sqlite_sequence]). *)
Record db : Type := mkdb {
  sessions : list SessionRow.t;
  results : list (ResultRow.t string);
  seq_sessions : Z;
  seq_results : Z
}.

(** [init_database] on a new file. *)
Definition init_database : db := mkdb [] [] 0 0.

(** ** Transactions

    A method opens a connection, runs its statements and commits.  When a
    statement raises, the method is left before [conn.commit()]: the
    connection is dropped with its transaction open and the file keeps the
    content it had. *)
Definition txn (A : Type) : Type := db -> except (A * db).

Definition commit {A : Type} (t : txn A) (d : db) : except A * db :=
  match t d with
  | Ok (a, d') => (Ok a, d')
  | Raise e => (Raise e, d)
  end.

(** ** SQL helpers *)

Definition max_id (ids : list Z) : Z := fold_right Z.max 0 ids.

(** [INTEGER PRIMARY KEY AUTOINCREMENT]: one more than the largest rowid the
    table ever held. *)
Definition next_rowid (seq : Z) (ids : list Z) : except Z :=
  let top := Z.max seq (max_id ids) in
  if top <? max_int64 then Ok (top + 1) else Raise DatabaseFull.

(** [ORDER BY]: insertion sort, rows of equal key stay in table order. *)
Fixpoint insert_by {A : Type} (le : A -> A -> bool) (x : A) (l : list A) : list A :=
  match l with
  | [] => [x]
  | y :: l' => if le x y then x :: l else y :: insert_by le x l'
  end.

Fixpoint sort_by {A : Type} (le : A -> A -> bool) (l : list A) : list A :=
  match l with
  | [] => []
  | x :: l' => insert_by le x (sort_by le l')
  end.

Definition by_timestamp_desc (a b : SessionRow.t) : bool :=
  SessionRow.timestamp b <=? SessionRow.timestamp a.

Definition by_rank {S : Type} (a b : ResultRow.t S) : bool :=
  ResultRow.rank a <=? ResultRow.rank b.

(** [LIMIT n]: a negative [n] is no limit. *)
Definition sql_limit {A : Type} (n : Z) (l : list A) : list A :=
  if n <? 0 then l else firstn (Z.to_nat n) l.

(** [SELECT * FROM results WHERE session_id = ? ORDER BY rank] *)
Definition select_results (session_id : Z) (d : db) : list (ResultRow.t string) :=
  sort_by by_rank
    (filter (fun r => ResultRow.session_id r =? session_id) (results d)).

Section Store.

Context {codec : JsonCodec}.

(** ** [save_session] *)

(** [INSERT INTO sessions (job_title, company, total_candidates)] and
    [cursor.lastrowid]. *)
Definition insert_session (now : Z) (job_title company : pyval) (total : Z)
  : txn Z :=
  fun d =>
    jt <- sql_bind job_title ;;
    co <- sql_bind company ;;
    n <- bind_int total ;;
    jt <- not_null jt ;;
    id <- next_rowid (seq_sessions d) (map SessionRow.id (sessions d)) ;;
    Ok (id, mkdb (sessions d ++ [SessionRow.mk id jt co now 0 n])
                 (results d) id (seq_results d)).

(** The row of one turn of the loop, its rowid left open: the tuple of
    parameters is built (the two [json.dumps]), bound, and checked against
    the [NOT NULL] of [candidate_name]. *)
Definition result_row (session_id rank : Z) (result : pydict)
  : except (Z -> ResultRow.t string) :=
  strengths <- json_dumps (dict_get result "strengths" (PList [])) ;;
  weaknesses <- json_dumps (dict_get result "weaknesses" (PList [])) ;;
  sid <- bind_int session_id ;;
  resume_id <- sql_bind (dict_get_none result "resume_id") ;;
  candidate_name <- sql_bind (dict_get_none result "candidate_name") ;;
  overall_score <- sql_bind (dict_get_none result "overall_score") ;;
  skills_match_score <- sql_bind (dict_get_none result "skills_match_score") ;;
  experience_score <- sql_bind (dict_get_none result "experience_score") ;;
  education_score <- sql_bind (dict_get_none result "education_score") ;;
  reasoning <- sql_bind (dict_get_none result "reasoning") ;;
  recommendation <- sql_bind (dict_get_none result "recommendation") ;;
  rk <- bind_int rank ;;
  candidate_name <- not_null candidate_name ;;
  Ok (fun id =>
        ResultRow.mk id sid resume_id candidate_name overall_score
          skills_match_score experience_score education_score
          reasoning strengths weaknesses recommendation rk).

(** [INSERT INTO results (...)] *)
Definition insert_result (session_id rank : Z) (result : pydict) : txn unit :=
  fun d =>
    row <- result_row session_id rank result ;;
    id <- next_rowid (seq_results d) (map ResultRow.id (results d)) ;;
    Ok (tt, mkdb (sessions d) (results d ++ [row id]) (seq_sessions d) id).

(** [for rank, result in enumerate(results, 1)] *)
Fixpoint insert_results (session_id rank : Z) (results : list pydict) : txn unit :=
  fun d =>
    match results with
    | [] => Ok (tt, d)
    | result :: rest =>
        '(_, d') <- insert_result session_id rank result d ;;
        insert_results session_id (rank + 1) rest d'
    end.

Definition save_session_txn (now : Z) (job_title company : pyval)
  (results : list pydict) : txn Z :=
  fun d =>
    '(session_id, d1) <-
      insert_session now job_title company (Z.of_nat (List.length results)) d ;;
    '(_, d2) <- insert_results session_id 1 results d1 ;;
    Ok (session_id, d2).

(** [now] is what the clock reads when the session row is inserted. *)
Definition save_session (now : Z) (job_title company : pyval)
  (results : list pydict) (d : db) : except Z * db :=
  commit (save_session_txn now job_title company results) d.

(** ** The readers *)

(** [get_all_sessions(include_hidden)]: the dicts of the rows. *)
Definition get_all_sessions (include_hidden : bool) (d : db) : list SessionRow.t :=
  if include_hidden
  then sort_by by_timestamp_desc (sessions d)
  else sort_by by_timestamp_desc
         (filter (fun s => SessionRow.is_hidden s =? 0) (sessions d)).

(** [result['strengths'] = json.loads(result['strengths'])], and the same
    for the weaknesses. *)
Definition decode_row (r : ResultRow.t string) : except (ResultRow.t pyval) :=
  strengths <- json_loads (ResultRow.strengths r) ;;
  weaknesses <- json_loads (ResultRow.weaknesses r) ;;
  Ok (ResultRow.mk (ResultRow.id r) (ResultRow.session_id r)
        (ResultRow.resume_id r) (ResultRow.candidate_name r)
        (ResultRow.overall_score r) (ResultRow.skills_match_score r)
        (ResultRow.experience_score r) (ResultRow.education_score r)
        (ResultRow.reasoning r) strengths weaknesses
        (ResultRow.recommendation r) (ResultRow.rank r)).

(** [dict(cursor.fetchone())]: without a row [fetchone] gives [None], and
    [dict(None)] raises [TypeError]. *)
Definition fetchone_dict (rows : list SessionRow.t) : except SessionRow.t :=
  match rows with
  | s :: _ => Ok s
  | [] => Raise TypeError
  end.

Definition get_session_results (session_id : Z) (d : db)
  : except (SessionRow.t * list (ResultRow.t pyval)) :=
  sid <- bind_int session_id ;;
  session <- fetchone_dict (filter (fun s => SessionRow.id s =? sid) (sessions d)) ;;
  results <- mapM decode_row (select_results sid d) ;;
  Ok (session, results).

Definition get_top_candidates (session_id top_n : Z) (d : db)
  : except (list (ResultRow.t pyval)) :=
  sid <- bind_int session_id ;;
  n <- bind_int top_n ;;
  mapM decode_row (sql_limit n (select_results sid d)).

(** ** The flag and the deletions *)

Definition set_hidden (flag : Z) (sid : Z) (s : SessionRow.t) : SessionRow.t :=
  if SessionRow.id s =? sid
  then SessionRow.mk (SessionRow.id s) (SessionRow.job_title s)
         (SessionRow.company s) (SessionRow.timestamp s) flag
         (SessionRow.total_candidates s)
  else s.

Definition update_hidden (flag : Z) (session_id : Z) : txn unit :=
  fun d =>
    sid <- bind_int session_id ;;
    Ok (tt, mkdb (map (set_hidden flag sid) (sessions d)) (results d)
                 (seq_sessions d) (seq_results d)).

Definition hide_session (session_id : Z) (d : db) : except unit * db :=
  commit (update_hidden 1 session_id) d.

Definition unhide_session (session_id : Z) (d : db) : except unit * db :=
  commit (update_hidden 0 session_id) d.

Definition delete_session_txn (session_id : Z) : txn unit :=
  fun d =>
    sid <- bind_int session_id ;;
    let rs := filter (fun r => negb (ResultRow.session_id r =? sid)) (results d) in
    let ss := filter (fun s => negb (SessionRow.id s =? sid)) (sessions d) in
    Ok (tt, mkdb ss rs (seq_sessions d) (seq_results d)).

Definition delete_session (session_id : Z) (d : db) : except unit * db :=
  commit (delete_session_txn session_id) d.

Definition clear_all_history (d : db) : except unit * db :=
  commit (fun d => Ok (tt, mkdb [] [] (seq_sessions d) (seq_results d))) d.

(** ** Sequences of operations *)

Inductive op : Type :=
| Save (now : Z) (job_title company : pyval) (results : list pydict)
| Hide (session_id : Z)
| Unhide (session_id : Z)
| Delete (session_id : Z)
| Clear.

(** The content of the file after one more call. *)
Definition step (d : db) (o : op) : db :=
  match o with
  | Save now job_title company results =>
      snd (save_session now job_title company results d)
  | Hide session_id => snd (hide_session session_id d)
  | Unhide session_id => snd (unhide_session session_id d)
  | Delete session_id => snd (delete_session session_id d)
  | Clear => snd (clear_all_history d)
  end.

Definition run (ops : list op) : db := fold_left step ops init_database.

End Store.

(* ================================================================== *)
(** * Vocabulary of the properties *)

(** An agent whose completion request has a fixed outcome. *)
Definition agent_with (outcome : except (option string)) : Agent :=
  {| model := "llama"; create := fun _ => outcome |}.

Definition agent_replying (reply : string) : Agent :=
  agent_with (Ok (Some reply)).

Definition is_dict (v : pyval) : bool :=
  match v with
  | PDict _ => true
  | _ => false
  end.

Definition is_list (v : pyval) : bool :=
  match v with
  | PList _ => true
  | _ => false
  end.

(** The name the fallback record derives from the filename. *)
Definition name_of_filename (filename : string) : string :=
  PyStr.replace ".txt" EmptyString
    (PyStr.replace ".docx" EmptyString
      (PyStr.replace ".pdf" EmptyString
        (PyStr.replace "_" " " filename))).

Fixpoint map_chars (f : ascii -> ascii) (s : string) : string :=
  match s with
  | EmptyString => EmptyString
  | String c s' => String (f c) (map_chars f s')
  end.

Definition dot_to_underscore (c : ascii) : ascii :=
  if Ascii.eqb c "." then "_"%char else c.

Definition underscore_to_space (c : ascii) : ascii :=
  if Ascii.eqb c "_" then " "%char else c.

Fixpoint has_char (a : ascii) (s : string) : bool :=
  match s with
  | EmptyString => false
  | String c s' => Ascii.eqb c a || has_char a s'
  end.

(** A list of strings. *)
Definition string_list (v : pyval) : Prop := exists l, v = PList (map PStr l).

(** The session [sid] has a row. *)
Definition has_session (d : db) (sid : Z) : Prop :=
  exists s, In s (sessions d) /\ SessionRow.id s = sid.

(** The result rows of session [sid], in table order. *)
Definition results_of (d : db) (sid : Z) : list (ResultRow.t string) :=
  filter (fun r => ResultRow.session_id r =? sid) (results d).

Definition no_orphans (d : db) : Prop :=
  forall r, In r (results d) -> has_session d (ResultRow.session_id r).

Fixpoint ranks_from (k : Z) (n : nat) : list Z :=
  match n with
  | O => []
  | S n' => k :: ranks_from (k + 1) n'
  end.

(** A session row whose result rows are as many as it says, ranked 1, 2, ...
    in table order. *)
Definition session_complete (d : db) (s : SessionRow.t) : Prop :=
  let rows := results_of d (SessionRow.id s) in
  SessionRow.total_candidates s = Z.of_nat (List.length rows) /\
  map ResultRow.rank rows = ranks_from 1 (List.length rows).

Definition all_complete (d : db) : Prop :=
  forall s, In s (sessions d) -> session_complete d s.

(** The ids of the session rows are SQLite integers. *)
Definition ids_in_range (d : db) : Prop :=
  forall s, In s (sessions d) -> int64 (SessionRow.id s).

(** What holds of the file between any two calls. *)
Definition store_inv (d : db) : Prop :=
  no_orphans d /\ all_complete d /\ ids_in_range d.

(** Ranks that never decrease along the list. *)
Inductive nondecreasing : list Z -> Prop :=
| nd_nil : nondecreasing []
| nd_one (a : Z) : nondecreasing [a]
| nd_cons (a b : Z) (l : list Z) :
    a <= b -> nondecreasing (b :: l) -> nondecreasing (a :: b :: l).


Section Vocabulary.

Context {codec : JsonCodec}.

(** The codec gives [v] back from its encoding. *)
Definition roundtrips (v : pyval) : Prop :=
  forall s, json_dumps v = Ok s -> json_loads s = Ok v.

(** [row] is what [save_session] stores for [result]. *)
Definition stored_from (result : pydict) (row : ResultRow.t string) : Prop :=
  exists mk,
    result_row (ResultRow.session_id row) (ResultRow.rank row) result = Ok mk /\
    row = mk (ResultRow.id row).

(** The value can be bound to a [?]. *)
Definition binds (v : pyval) : Prop := exists x, sql_bind v = Ok x.

(** The value can be bound and is stored as something else than [NULL]. *)
Definition binds_not_null (v : pyval) : Prop :=
  exists x, sql_bind v = Ok x /\ x <> SNull.

(** A score that [save_session] can store: its strengths and weaknesses can
    be encoded, its other entries can be bound, it has a name. *)
Definition storable (r : pydict) : Prop :=
  (exists s, json_dumps (dict_get r "strengths" (PList [])) = Ok s) /\
  (exists s, json_dumps (dict_get r "weaknesses" (PList [])) = Ok s) /\
  binds (dict_get_none r "resume_id") /\
  binds_not_null (dict_get_none r "candidate_name") /\
  binds (dict_get_none r "overall_score") /\
  binds (dict_get_none r "skills_match_score") /\
  binds (dict_get_none r "experience_score") /\
  binds (dict_get_none r "education_score") /\
  binds (dict_get_none r "reasoning") /\
  binds (dict_get_none r "recommendation").

(** The rowid counters leave room for one session and [n] results. *)
Definition room (d : db) (n : nat) : Prop :=
  Z.max (seq_sessions d) (max_id (map SessionRow.id (sessions d))) < max_int64 /\
  Z.max (seq_results d) (max_id (map ResultRow.id (results d))) + Z.of_nat n
    <= max_int64.

(** [out] is [row] with the two texts decoded. *)
Definition decoded_from (row : ResultRow.t string) (out : ResultRow.t pyval) : Prop :=
  json_loads (ResultRow.strengths row) = Ok (ResultRow.strengths out) /\
  json_loads (ResultRow.weaknesses row) = Ok (ResultRow.weaknesses out) /\
  ResultRow.rank out = ResultRow.rank row /\
  ResultRow.session_id out = ResultRow.session_id row /\
  ResultRow.id out = ResultRow.id row.

End Vocabulary.

(** ** Sample data *)

Definition ann : pydict :=
  [ ("resume_id", PStr "ann_pdf"); ("candidate_name", PStr "Ann");
    ("overall_score", PInt 90);
    ("strengths", PList [PStr "python"; PStr "sql"]);
    ("weaknesses", PList []) ].

(** A score without the [strengths] entry. *)
Definition bob : pydict :=
  [ ("resume_id", PStr "bob_pdf"); ("candidate_name", PStr "Bob");
    ("overall_score", PInt 70);
    ("weaknesses", PList [PStr "no sql"]) ].

(** A score without a name: the insert of its row fails. *)
Definition nameless : pydict := [ ("resume_id", PStr "x_pdf") ].

Definition sample_ops : list op :=
  [ Save 100 (PStr "Engineer") (PStr "Acme") [ann; bob];
    Save 200 (PStr "Analyst") PNone [bob];
    Hide 1 ].

Fixpoint repeat_str (s : string) (n : nat) : string :=
  match n with
  | O => EmptyString
  | S n' => s ++ repeat_str s n'
  end.

(** A text of 400 characters. *)
Definition long_text : string := repeat_str "resume  " 50.

(* ================================================================== *)
(** * The rest of [backend/app.py] and [backend/database.py] *)

(** ** The checks on names ([backend/app.py]) *)

(** [c.lower()] on the code points below 256: the letters A to Z and the
    accented capitals, the multiplication sign apart. *)
Definition lower_char (c : ascii) : ascii :=
  let n := nat_of_ascii c in
  if (((65 <=? n) && (n <=? 90))
      || ((192 <=? n) && (n <=? 222) && negb (n =? 215)))%nat
  then ascii_of_nat (n + 32)
  else c.

(** [s.lower()] *)
Definition lower (s : string) : string := map_chars lower_char s.

(** [s.rsplit(sep, 1)] for a separator of one character: the text before the
    last separator and the text after it, or the text alone. *)
Fixpoint rsplit1 (sep : ascii) (s : string) : list string :=
  match s with
  | EmptyString => [EmptyString]
  | String c s' =>
      match rsplit1 sep s' with
      | before :: after :: _ => [String c before; after]
      | _ => if Ascii.eqb c sep then [EmptyString; s'] else [String c s']
      end
  end.

(** [app.config['ALLOWED_EXTENSIONS']] *)
Definition ALLOWED_EXTENSIONS : list string := ["pdf"; "docx"; "doc"; "txt"].

(** [allowed_file(filename)]: the [and] evaluates the subscript only when
    the name has a dot. *)
Definition allowed_file (filename : string) : except bool :=
  if PyStr.contains "." filename
  then ext <- PyStr.item (rsplit1 "." filename) 1 ;;
       Ok (existsb (String.eqb (lower ext)) ALLOWED_EXTENSIONS)
  else Ok false.

(** [c.isalnum()] on the code points below 256: digits, letters, and the
    superscripts, ordinals and fractions of Latin-1. *)
Definition isalnum (c : ascii) : bool :=
  let n := nat_of_ascii c in
  let between (a b : nat) : bool := ((a <=? n) && (n <=? b))%nat in
  (between 48 57 || between 65 90 || between 97 122
   || (n =? 170) || between 178 179 || (n =? 181)
   || between 185 186 || between 188 190
   || between 192 214 || between 216 246 || between 248 255)%nat.

Fixpoint filter_chars (keep : ascii -> bool) (s : string) : string :=
  match s with
  | EmptyString => EmptyString
  | String c s' =>
      if keep c then String c (filter_chars keep s') else filter_chars keep s'
  end.

(** [c.isalnum() or c in ['_', '-']] *)
Definition title_char (c : ascii) : bool :=
  isalnum c || existsb (Ascii.eqb c) ["_"%char; "-"%char].

Definition backslash : string := PyStr.chr 92.

(** The job title as [export_session] puts it in the name of the download:
    spaces, slashes and backslashes become underscores, then only
    alphanumerics, underscores and hyphens are kept. *)
Definition export_job_title (job_title : string) : string :=
  filter_chars title_char
    (PyStr.replace backslash "_"
      (PyStr.replace "/" "_"
        (PyStr.replace " " "_" job_title))).

(** ** The path of the database file ([backend/database.py], [backend/app.py]) *)

(** [a.endswith('/')] *)
Definition ends_with_slash (a : string) : bool :=
  match get (String.length a - 1) a with
  | Some c => Ascii.eqb c "/"
  | None => false
  end.

(** [os.path.join(a, b)] of [posixpath]: an absolute [b] replaces [a], and a
    slash is put between the two unless [a] is empty or ends with one. *)
Definition path_join (a b : string) : string :=
  if prefix "/" b then b
  else if (String.length a =? 0)%nat || ends_with_slash a then (a ++ b)%string
  else (a ++ "/" ++ b)%string.

Definition default_db_path : string := "screening_history.db".

(** [ScreeningDatabase.__init__]: the path the object keeps.  [vercel] is
    [os.environ.get('VERCEL')] and [here] the directory of the module,
    [os.path.dirname(os.path.abspath(__file__))]. *)
Definition screening_db_path (db_path : string) (vercel : option string)
  (here : string) : string :=
  if String.eqb db_path default_db_path then
    match vercel with
    | Some (String _ _) => "/tmp/screening_history.db"
    | _ => path_join here default_db_path
    end
  else db_path.

(** The path of the store that [app.py] opens:
    [ScreeningDatabase(db_path=os.path.join(<directory of app.py>,
    'screening_history.db'))].  [app.py] and [database.py] are in the same
    directory. *)
Definition app_db_path (vercel : option string) (here : string) : string :=
  screening_db_path (path_join here "screening_history.db") vercel here.

(** ** The upload route ([upload_files] of [backend/app.py]) *)

(** An uploaded file of the request (werkzeug's [FileStorage]): the name the
    client gave and the content. *)
Module FileStorage.
Record t : Type := mk {
  filename : string;
  stream : string
}.
End FileStorage.

(** Modelled from the spec: the dataclass [ResumeScore] of the module
    [resume_screening_agent], the ScoreRecord of the specification, with the
    fields that [view_session] passes to its constructor and that
    [save_session] reads from its dict.  A plain dataclass: the fields hold
    what the scorer put there. *)
Module ResumeScore.
Record t : Type := mk {
  resume_id : pyval;
  candidate_name : pyval;
  overall_score : pyval;
  skills_match_score : pyval;
  experience_score : pyval;
  education_score : pyval;
  reasoning : pyval;
  strengths : pyval;
  weaknesses : pyval;
  recommendation : pyval
}.
End ResumeScore.

(** [dataclasses.asdict(score)] *)
Definition asdict (score : ResumeScore.t) : pydict :=
  [ ("resume_id", ResumeScore.resume_id score);
    ("candidate_name", ResumeScore.candidate_name score);
    ("overall_score", ResumeScore.overall_score score);
    ("skills_match_score", ResumeScore.skills_match_score score);
    ("experience_score", ResumeScore.experience_score score);
    ("education_score", ResumeScore.education_score score);
    ("reasoning", ResumeScore.reasoning score);
    ("strengths", ResumeScore.strengths score);
    ("weaknesses", ResumeScore.weaknesses score);
    ("recommendation", ResumeScore.recommendation score) ].

(** What the route reads of the request: [request.form.get(
    'job_description_text')], [request.files['job_description']] and
    [request.files.getlist('resumes')], each absent when the key is. *)
Record request : Type := {
  form_job_description_text : option string;
  files_job_description : option FileStorage.t;
  files_resumes : option (list FileStorage.t)
}.

(** An exception inside the route: one of a collaborator, of a kind [E]
    left open, or one of the code embedded here. *)
Inductive failure (E : Type) : Type :=
| Collaborator (e : E)
| Python (e : exn).

Arguments Collaborator {E} e.
Arguments Python {E} e.

(** The text of the [error] of the index page: a literal, [str(e)], or
    [f'An error occurred: {str(e)}']. *)
Inductive message (E : Type) : Type :=
| Text (s : string)
| StrOf (f : failure E)
| Occurred (f : failure E).

Arguments Text {E} s.
Arguments StrOf {E} f.
Arguments Occurred {E} f.

(** The response: the template and its context.  The rendering itself is
    Flask's and is not part of the model. *)
Inductive page (E : Type) : Type :=
| Index (error : message E)
| Results (results : list ResumeScore.t) (job_title : pyval) (session_id : Z).

Arguments Index {E} error.
Arguments Results {E} results job_title session_id.

(** Modelled from the spec: the object [ResumeScreeningAgent()] of the
    module [resume_screening_agent], the scoring collaborator: the client
    and model that the extractors use, and [rank_resumes]. *)
Record ScreeningAgent (E : Type) : Type := {
  chat : Agent;
  rank_resumes : list Resume.t -> JobDescription.t -> list ResumeScore.t + E
}.

Arguments chat {E} s.
Arguments rank_resumes {E} s _ _.

(** Modelled from the spec: the collaborators of the route, on a state [W]
    of their own (the upload folder, the environment), raising exceptions
    of a kind [E] left open.  [parse_file] is [FileParser.parse_file], the
    document-to-text collaborator of the specification, from a path to a
    text; [new_agent] is the constructor [ResumeScreeningAgent()].  The
    others are library calls: [secure_filename] is werkzeug's, [save] is
    [FileStorage.save], [path_exists] and [remove] are [os.path.exists] and
    [os.remove], [UPLOAD_FOLDER] is [app.config['UPLOAD_FOLDER']], [clock]
    is the reading that [save_session] gets from SQLite, and [value_error]
    tells the instances of [ValueError]. *)
Class Host (W E : Type) : Type := {
  secure_filename : string -> string;
  UPLOAD_FOLDER : string;
  save : FileStorage.t -> string -> W -> (unit + E) * W;
  parse_file : string -> W -> (string + E) * W;
  path_exists : string -> W -> bool;
  remove : string -> W -> (unit + E) * W;
  new_agent : W -> (ScreeningAgent E + E) * W;
  clock : W -> Z;
  value_error : E -> bool
}.

(** A step of the route: it goes on with a value, returns a page, or
    raises. *)
Inductive result (E A : Type) : Type :=
| Next (a : A)
| Return (p : page E)
| Throw (f : failure E).

Arguments Next {E A} a.
Arguments Return {E A} p.
Arguments Throw {E A} f.

Definition route (W E A : Type) : Type := W * db -> result E A * (W * db).

Definition ret {W E A : Type} (a : A) : route W E A := fun st => (Next a, st).

Definition early {W E A : Type} (p : page E) : route W E A :=
  fun st => (Return p, st).

Definition rbind {W E A B : Type} (m : route W E A) (k : A -> route W E B)
  : route W E B :=
  fun st =>
    match m st with
    | (Next a, st') => k a st'
    | (Return p, st') => (Return p, st')
    | (Throw f, st') => (Throw f, st')
    end.

Notation "x <~ m ;; k" := (rbind m (fun x => k))
  (at level 61, m at next level, right associativity).

(** A call to a collaborator. *)
Definition on_world {W E A : Type} (op : W -> (A + E) * W) : route W E A :=
  fun st =>
    match op (fst st) with
    | (inl a, w') => (Next a, (w', snd st))
    | (inr e, w') => (Throw (Collaborator e), (w', snd st))
    end.

(** A call that touches no state. *)
Definition of_except {W E A : Type} (m : except A) : route W E A :=
  fun st =>
    match m with
    | Ok a => (Next a, st)
    | Raise e => (Throw (Python e), st)
    end.

Definition of_sum {W E A : Type} (m : A + E) : route W E A :=
  fun st =>
    match m with
    | inl a => (Next a, st)
    | inr e => (Throw (Collaborator e), st)
    end.

(** An instance of [ValueError]. *)
Definition is_value_error (e : exn) : bool :=
  match e with
  | ValueError | JSONDecodeError => true
  | _ => false
  end.

Section Route.

Context {codec : JsonCodec} {W E : Type} {host : Host W E}.

(** [db.save_session(...)] on the store of the application. *)
Definition db_save_session (job_title company : pyval) (results : list pydict)
  : route W E Z :=
  fun st =>
    match save_session (clock (fst st)) job_title company results (snd st) with
    | (Ok session_id, d') => (Next session_id, (fst st, d'))
    | (Raise e, d') => (Throw (Python e), (fst st, d'))
    end.

(** The first block of [upload_files]: the [job_text], [None] when neither
    a pasted text nor a named file came. *)
Definition read_job_text (r : request) : route W E (option string) :=
  let job_description_text :=
    PyStr.strip (match form_job_description_text r with
                 | Some s => s
                 | None => EmptyString
                 end) in
  match job_description_text with
  | String _ _ => ret (Some job_description_text)
  | EmptyString =>
      match files_job_description r with
      | Some job_file =>
          if negb (String.eqb (FileStorage.filename job_file) EmptyString) then
            allowed <~ of_except (allowed_file (FileStorage.filename job_file)) ;;
            if negb allowed then
              early (Index (Text
                "Job description file type not supported. Use PDF, DOCX, or TXT"))
            else
              let job_filename := secure_filename (FileStorage.filename job_file) in
              let job_path := path_join UPLOAD_FOLDER job_filename in
              _ <~ on_world (save job_file job_path) ;;
              job_text <~ on_world (parse_file job_path) ;;
              _ <~ on_world (remove job_path) ;;
              ret (Some job_text)
          else ret None
      | None => ret None
      end
  end.

(** [for resume_file in resume_files: if not allowed_file(...): return ...] *)
Fixpoint check_resumes (resume_files : list FileStorage.t) : route W E unit :=
  match resume_files with
  | [] => ret tt
  | resume_file :: rest =>
      allowed <~ of_except (allowed_file (FileStorage.filename resume_file)) ;;
      if negb allowed then
        early (Index (Text ("Resume file type not supported: "
                            ++ FileStorage.filename resume_file
                            ++ ". Use PDF, DOCX, or TXT")%string))
      else check_resumes rest
  end.

(** The loop that saves and parses the resumes. *)
Fixpoint parse_resumes (agent : ScreeningAgent E)
  (resume_files : list FileStorage.t) : route W E (list Resume.t) :=
  match resume_files with
  | [] => ret []
  | resume_file :: rest =>
      let resume_filename := secure_filename (FileStorage.filename resume_file) in
      let resume_path := path_join UPLOAD_FOLDER resume_filename in
      _ <~ on_world (save resume_file resume_path) ;;
      resume_text <~ on_world (parse_file resume_path) ;;
      let resume := parse_resume_with_ai resume_text resume_filename (chat agent) in
      resumes <~ parse_resumes agent rest ;;
      ret (resume :: resumes)
  end.

(** The loop that removes the uploaded files. *)
Fixpoint clean_up (resume_files : list FileStorage.t) : route W E unit :=
  match resume_files with
  | [] => ret tt
  | resume_file :: rest =>
      let resume_filename := secure_filename (FileStorage.filename resume_file) in
      let resume_path := path_join UPLOAD_FOLDER resume_filename in
      _ <~ (fun st =>
              if path_exists resume_path (fst st)
              then on_world (remove resume_path) st
              else ret tt st) ;;
      clean_up rest
  end.

(** The [try] block of [upload_files]. *)
Definition upload_try (r : request) : route W E (page E) :=
  job_text <~ read_job_text r ;;
  match job_text with
  | Some (String c t) =>
      let job_text := String c t in
      match files_resumes r with
      | None => early (Index (Text "Please upload resume files"))
      | Some resume_files =>
          if match resume_files with
             | [] => true
             | first :: _ => String.eqb (FileStorage.filename first) EmptyString
             end
          then early (Index (Text "Please select at least one resume file"))
          else
            _ <~ check_resumes resume_files ;;
            agent <~ on_world new_agent ;;
            let job_description :=
              parse_job_description_with_ai job_text (chat agent) in
            resumes <~ parse_resumes agent resume_files ;;
            ranked_results <~ of_sum (rank_resumes agent resumes job_description) ;;
            let results_data := map asdict ranked_results in
            session_id <~ db_save_session (JobDescription.title job_description)
                            (JobDescription.company job_description)
                            results_data ;;
            _ <~ clean_up resume_files ;;
            ret (Results ranked_results (JobDescription.title job_description)
                   session_id)
      end
  | _ =>
      early (Index (Text
        "Please provide a job description (either paste text or upload a file)"))
  end.

(** The two [except] clauses. *)
Definition caught (f : failure E) : page E :=
  if match f with
     | Collaborator e => value_error e
     | Python e => is_value_error e
     end
  then Index (StrOf f)
  else Index (Occurred f).

Definition upload_files (r : request) (st : W * db) : page E * (W * db) :=
  match upload_try r st with
  | (Next p, st') => (p, st')
  | (Return p, st') => (p, st')
  | (Throw f, st') => (caught f, st')
  end.

End Route.

(* ================================================================== *)
(** * Vocabulary of the further properties *)

(** Session ids grow along the table and stay below the counter. *)
Definition ids_ascending (d : db) : Prop :=
  StronglySorted Z.lt (map SessionRow.id (sessions d)) /\
  (forall s, In s (sessions d) -> SessionRow.id s <= seq_sessions d).

(** Most recent first. *)
Definition newer_first (a b : SessionRow.t) : Prop :=
  SessionRow.timestamp b <= SessionRow.timestamp a.

Definition visible (s : SessionRow.t) : bool := SessionRow.is_hidden s =? 0.





(** The values that a column keeps as they are bound: a text or [None] in a
    TEXT column, a float or [None] in a REAL column. *)
Definition plain_text (v : pyval) : Prop := v = PNone \/ exists s, v = PStr s.


(** What the column then holds: the text, the float ([NULL] for a NaN), or
    [NULL] for [None]. *)
Definition column_of (v : pyval) : sqlval :=
  match v with
  | PStr s => SText s
  | PFloat S754_nan => SNull
  | PFloat f => SReal f
  | _ => SNull
  end.


Section RouteVocabulary.

Context {codec : JsonCodec} {W E : Type} {host : Host W E}.

(** The id that the route gives to the candidate of an uploaded file. *)
Definition candidate_id (resume_file : FileStorage.t) : string :=
  PyStr.replace "." "_" (secure_filename (FileStorage.filename resume_file)).

(** The stripped text of the form field. *)
Definition pasted_text (r : request) : string :=
  PyStr.strip (match form_job_description_text r with
               | Some s => s
               | None => EmptyString
               end).

(** The file went from [d] to [d'] by the one [save_session] of a run of the
    route on [r]: [ResumeScreeningAgent()] gave an agent, it extracted the
    job from a text and one candidate per uploaded file, its scorer
    returned [rs], and [save_session] committed them under [sid] with the
    title [jt]. *)
Definition committed (r : request) (d d' : db) (rs : list ResumeScore.t)
  (jt : pyval) (sid : Z) : Prop :=
  exists (agent : ScreeningAgent E) (job_text : string)
         (files : list FileStorage.t) (resumes : list Resume.t) (now : Z),
    let job := parse_job_description_with_ai job_text (chat agent) in
    (exists w w', new_agent w = (inl agent, w')) /\
    files_resumes r = Some files /\
    map Resume.id resumes = map candidate_id files /\
    rank_resumes agent resumes job = inl rs /\
    jt = JobDescription.title job /\
    save_session now jt (JobDescription.company job) (map asdict rs) d
      = (Ok sid, d').

(** A step that leaves the store alone, returns no page but an index page
    with a literal text, and raises nothing of the store. *)
Definition quiet {A : Type} (m : route W E A) : Prop :=
  forall st, snd (snd (m st)) = snd st /\
             (forall p, fst (m st) = Return p -> exists s, p = Index (Text s)).

(** A step that leaves the store alone, returns no page, and raises only
    what a collaborator raises. *)
Definition outside {A : Type} (m : route W E A) : Prop :=
  forall st, snd (snd (m st)) = snd st /\
             (forall p, fst (m st) <> Return p) /\
             (forall f, fst (m st) = Throw f -> exists e, f = Collaborator e).


End RouteVocabulary.

(** ** Sample data of the route *)

(** The float 80.0. *)
Definition eighty : spec_float := S754_finite false 5629499534213120 (- 46).

(** A scorer that gives every candidate the same score, and an agent whose
    completion requests fail. *)
Definition sample_score (r : Resume.t) : ResumeScore.t :=
  ResumeScore.mk (PStr (Resume.id r)) (Resume.name r) (PFloat eighty)
    (PFloat eighty) (PFloat eighty) (PFloat eighty) (PStr "ok")
    (PList [PStr "python"]) (PList []) (PStr "Interview").

Definition sample_agent : ScreeningAgent unit :=
  {| chat := agent_with (Raise APIError);
     rank_resumes := fun resumes _ => inl (map sample_score resumes) |}.

(** A host whose state is the list of the paths in the upload folder. *)
Definition sample_host : Host (list string) unit :=
  {| secure_filename := fun name => name;
     UPLOAD_FOLDER := "/srv/uploads";
     save := fun _ path w => (inl tt, path :: w);
     parse_file := fun _ w => (inl "Python developer", w);
     path_exists := fun path w => existsb (String.eqb path) w;
     remove := fun path w =>
       (inl tt, filter (fun p => negb (String.eqb p path)) w);
     new_agent := fun w => (inl sample_agent, w);
     clock := fun _ => 500;
     value_error := fun _ => false |}.


Definition sample_request : request :=
  {| form_job_description_text := Some " Backend engineer ";
     files_job_description := Some (FileStorage.mk "job.exe" "MZ");
     files_resumes := Some [FileStorage.mk "ann_lee.pdf" "%PDF";
                            FileStorage.mk "bob.docx" "PK"] |}.


(* ================================================================== *)
(** * Examples *)

Example strip_ex :
  PyStr.strip ("  a b" ++ PyStr.chr 10) = "a b".
Proof. reflexivity. Qed.

Example replace_ex1 : PyStr.replace "." "_" "john_doe.pdf" = "john_doe_pdf".
Proof. reflexivity. Qed.

Example replace_ex2 : PyStr.replace "aa" "b" "aaaaa" = "bba".
Proof. reflexivity. Qed.

Example replace_ex3 : PyStr.replace ".pdf" EmptyString "cv.pdf.pdf" = "cv".
Proof. reflexivity. Qed.

Example split_ex1 : PyStr.split "```" "x```y```z" = Ok ["x"; "y"; "z"].
Proof. reflexivity. Qed.

Example split_ex2 :
  PyStr.split "ab" "abab" = Ok [EmptyString; EmptyString; EmptyString].
Proof. reflexivity. Qed.

Example take_ex : PyStr.take 3 "resume" = "res" /\ PyStr.take 3 "cv" = "cv".
Proof. split; reflexivity. Qed.

Example int_of_str_ex :
  int_of_str " 12 " = Ok 12 /\ int_of_str "-1_000" = Ok (-1000) /\
  int_of_str "five" = Raise ValueError /\ int_of_str "1__0" = Raise ValueError /\
  int_of_str "5+" = Raise ValueError /\ int_of_str EmptyString = Raise ValueError.
Proof. repeat split; reflexivity. Qed.

(** 5.5 is 11 * 2^-1. *)
Example int_of_float_ex :
  int_of_float (S754_finite false 11 (-1)) = Ok 5 /\
  int_of_float (S754_finite true 11 (-1)) = Ok (-5).
Proof. split; reflexivity. Qed.

Example unfence_ex :
  unfence ("```json" ++ nl ++ "{}" ++ nl ++ "```") = Ok "{}" /\
  unfence ("Here: ```" ++ nl ++ "[1]" ++ nl ++ "``` done") = Ok "[1]" /\
  unfence "{}" = Ok "{}".
Proof. repeat split; reflexivity. Qed.

Example name_of_filename_ex :
  name_of_filename "john_doe.pdf" = "john doe" /\
  name_of_filename "jane_roe.doc" = "jane roe.doc".
Proof. split; reflexivity. Qed.

Example mini_json_ex :
  MiniJson.loads ("{" ++ q "a" ++ ": [1, " ++ q "x\ny" ++ ", null]}")
    = Ok (PDict [("a", PList [PInt 1; PStr ("x" ++ nl ++ "y"); PNone])]) /\
  MiniJson.dumps (PList [PStr "sql"; PInt (-3); PBool true])
    = Ok ("[" ++ q "sql" ++ ", -3, true]")%string /\
  MiniJson.loads "[1,]" = Raise JSONDecodeError.
Proof. repeat split; reflexivity. Qed.

(* ================================================================== *)
(** * Properties of the string operations *)

Lemma append_assoc (a b c : string) : ((a ++ b) ++ c = a ++ (b ++ c))%string.
Proof. induction a; simpl; [reflexivity | rewrite IHa; reflexivity]. Qed.

Lemma length_append (a b : string) :
  String.length (a ++ b) = (String.length a + String.length b)%nat.
Proof. induction a; simpl; [reflexivity | rewrite IHa; reflexivity]. Qed.

Lemma take_all (n : nat) (s : string) :
  (String.length s <= n)%nat -> PyStr.take n s = s.
Proof.
  revert n; induction s as [|c s IH]; intros [|n] H; simpl in *;
    try reflexivity; try lia.
  f_equal. apply IH. lia.
Qed.

Lemma prefix_empty (s : string) : prefix EmptyString s = true.
Proof. destruct s; reflexivity. Qed.

Lemma prefix_single (a c : ascii) (s : string) :
  prefix (String a EmptyString) (String c s) = Ascii.eqb c a.
Proof.
  simpl. destruct (ascii_dec a c) as [->|N].
  - rewrite prefix_empty, Ascii.eqb_refl. reflexivity.
  - symmetry. apply Ascii.eqb_neq. congruence.
Qed.

(** Replacing one character by one character is a map over the string. *)
Lemma replace_char (a b : ascii) (s : string) :
  PyStr.replace (String a EmptyString) (String b EmptyString) s
  = map_chars (fun c => if Ascii.eqb c a then b else c) s.
Proof.
  unfold PyStr.replace.
  induction s as [|c s IH]; [reflexivity|].
  cbn [PyStr.replace_scan]. rewrite prefix_single.
  cbn [map_chars String.length Nat.sub].
  destruct (Ascii.eqb c a); simpl; rewrite IH; reflexivity.
Qed.

Lemma append_nil_r (s : string) : (s ++ EmptyString)%string = s.
Proof. induction s; simpl; [reflexivity | rewrite IHs; reflexivity]. Qed.

Lemma map_chars_app (f : ascii -> ascii) (a b : string) :
  map_chars f (a ++ b) = (map_chars f a ++ map_chars f b)%string.
Proof. induction a; simpl; [reflexivity | rewrite IHa; reflexivity]. Qed.

Lemma has_dot_map (s : string) :
  has_char "." (map_chars underscore_to_space s) = has_char "." s.
Proof.
  induction s as [|c s IH]; [reflexivity|]. simpl. rewrite IH. f_equal.
  unfold underscore_to_space.
  destruct (Ascii.eqb_spec c "_") as [->|N]; reflexivity.
Qed.

(** A pattern is not found before the first occurrence of its first
    character. *)
Lemma replace_past (a : ascii) (old' new base t : string) :
  has_char a base = false ->
  PyStr.replace (String a old') new (base ++ t)
  = (base ++ PyStr.replace (String a old') new t)%string.
Proof.
  unfold PyStr.replace. induction base as [|c base IH]; intros H; [reflexivity|].
  simpl in H. apply orb_false_iff in H as [Hc H].
  cbn [append PyStr.replace_scan prefix].
  destruct (ascii_dec a c) as [->|N].
  - rewrite Ascii.eqb_refl in Hc. discriminate.
  - rewrite (IH H). reflexivity.
Qed.

Lemma name_of_filename_strips (base ext : string) :
  has_char "." base = false ->
  In ext [".pdf"; ".docx"; ".txt"] ->
  name_of_filename (base ++ ext) = map_chars underscore_to_space base.
Proof.
  intros H E. unfold name_of_filename.
  assert (R : PyStr.replace "_" " " (base ++ ext)
              = (map_chars underscore_to_space base ++ ext)%string).
  { change "_" with (String "_"%char EmptyString) at 1.
    change " " with (String " "%char EmptyString) at 1.
    rewrite replace_char, map_chars_app. f_equal.
    destruct E as [<-|[<-|[<-|[]]]]; reflexivity. }
  rewrite R. rewrite <- has_dot_map in H.
  set (b := map_chars underscore_to_space base) in *.
  rewrite (replace_past "." "pdf" EmptyString b ext H).
  destruct E as [<-|[<-|[<-|[]]]].
  - change (PyStr.replace ".pdf" EmptyString ".pdf") with EmptyString.
    rewrite append_nil_r.
    rewrite <- (append_nil_r b) at 1.
    rewrite (replace_past "." "docx" EmptyString b EmptyString H).
    change (PyStr.replace ".docx" EmptyString EmptyString) with EmptyString.
    rewrite (replace_past "." "txt" EmptyString b EmptyString H).
    apply append_nil_r.
  - change (PyStr.replace ".pdf" EmptyString ".docx") with ".docx".
    rewrite (replace_past "." "docx" EmptyString b ".docx" H).
    change (PyStr.replace ".docx" EmptyString ".docx") with EmptyString.
    rewrite (replace_past "." "txt" EmptyString b EmptyString H).
    apply append_nil_r.
  - change (PyStr.replace ".pdf" EmptyString ".txt") with ".txt".
    rewrite (replace_past "." "docx" EmptyString b ".txt" H).
    change (PyStr.replace ".docx" EmptyString ".txt") with ".txt".
    rewrite (replace_past "." "txt" EmptyString b ".txt" H).
    change (PyStr.replace ".txt" EmptyString ".txt") with EmptyString.
    apply append_nil_r.
Qed.

Lemma take_length (n : nat) (s : string) :
  String.length (PyStr.take n s) = Nat.min n (String.length s).
Proof.
  revert n. induction s as [|c s IH]; intros [|n]; simpl; try reflexivity.
  rewrite IH. reflexivity.
Qed.

Lemma take_prefix (n : nat) (s : string) : prefix (PyStr.take n s) s = true.
Proof.
  revert n. induction s as [|c s IH]; intros [|n]; simpl; try reflexivity.
  destruct (ascii_dec c c); [apply IH | contradiction].
Qed.

(* ================================================================== *)
(** * The reference codec gives back lists of strings *)

Lemma str_body_escape_char (c : ascii) (t : string) :
  MiniJson.str_body (MiniJson.escape_char c ++ t) =
  match MiniJson.str_body t with
  | Some (b, r) => Some (String c b, r)
  | None => None
  end.
Proof.
  destruct c as [[] [] [] [] [] [] [] []]; reflexivity.
Qed.

Lemma str_body_escape (s rest : string) :
  MiniJson.str_body (MiniJson.escape s ++ String dquote rest) = Some (s, rest).
Proof.
  induction s as [|c s IH]; [reflexivity|].
  cbn [MiniJson.escape]. rewrite append_assoc, str_body_escape_char, IH.
  reflexivity.
Qed.

Lemma dumps_strs_aux (l : list string) :
  (fix go (l0 : list pyval) : except (list string) :=
     match l0 with
     | [] => Ok []
     | x :: l' => p <- MiniJson.dumps x ;; ps <- go l' ;; Ok (p :: ps)
     end) (map PStr l) = Ok (map MiniJson.quoted l).
Proof.
  induction l as [|s l IH]; [reflexivity|].
  cbn [map]. rewrite IH. reflexivity.
Qed.

Lemma dumps_strs (l : list string) :
  MiniJson.dumps (PList (map PStr l))
  = Ok ("[" ++ MiniJson.join ", " (map MiniJson.quoted l) ++ "]")%string.
Proof.
  cbn [MiniJson.dumps]. rewrite dumps_strs_aux. reflexivity.
Qed.

Lemma qe_shape (s t : string) :
  (MiniJson.quoted s ++ t)%string = String dquote (MiniJson.escape s ++ String dquote t).
Proof.
  unfold MiniJson.quoted, q, PyStr.chr, dquote. cbn [append]. rewrite append_assoc. reflexivity.
Qed.

Lemma value_str (f : nat) (s t : string) :
  MiniJson.value (S f) (MiniJson.quoted s ++ t) = Some (PStr s, t).
Proof.
  rewrite qe_shape. cbn [MiniJson.value MiniJson.skip_ws].
  change (MiniJson.is_ws dquote) with false. cbv iota.
  unfold dquote at 1. cbn [ascii_of_nat]. simpl.
  rewrite str_body_escape. reflexivity.
Qed.

Lemma value_str_sp (f : nat) (s t : string) :
  MiniJson.value (S f) (String " " (MiniJson.quoted s ++ t)) = Some (PStr s, t).
Proof.
  rewrite <- (value_str f s t). rewrite qe_shape. reflexivity.
Qed.

Lemma elements_strs (l : list string) :
  forall (s t : string) (f : nat) (sp : bool),
    (List.length l + 2 <= f)%nat ->
    MiniJson.elements f
      ((if sp then " " else EmptyString)
         ++ MiniJson.join ", " (map MiniJson.quoted (s :: l)) ++ String "]" t)
    = Some (map PStr (s :: l), t).
Proof.
  induction l as [|s2 l IH]; intros s t f sp Hf.
  - destruct f as [|f]; [simpl in Hf; lia|].
    cbn [MiniJson.elements map MiniJson.join String.concat].
    destruct f as [|f]; [simpl in Hf; lia|].
    assert (V : MiniJson.value (S f)
                  ((if sp then " " else EmptyString) ++ MiniJson.quoted s ++ String "]" t)
                = Some (PStr s, String "]" t)).
    { destruct sp; [apply value_str_sp | apply value_str]. }
    rewrite V. reflexivity.
  - destruct f as [|f]; [simpl in Hf; lia|].
    cbn [MiniJson.elements].
    assert (J : (MiniJson.join ", " (map MiniJson.quoted (s :: s2 :: l)) ++ String "]" t
                 = MiniJson.quoted s ++ String "," (String " "
                     (MiniJson.join ", " (map MiniJson.quoted (s2 :: l)) ++ String "]" t)))%string).
    { unfold MiniJson.join. cbn [map String.concat].
      rewrite !append_assoc. reflexivity. }
    rewrite J.
    assert (E := IH s2 t f true ltac:(simpl in Hf |- *; lia)). cbn [append] in E.
    destruct f as [|f]; [simpl in Hf; lia|].
    assert (V : forall r, MiniJson.value (S f)
                  ((if sp then " " else EmptyString) ++ MiniJson.quoted s ++ r)
                = Some (PStr s, r)).
    { intros r. destruct sp; [apply value_str_sp | apply value_str]. }
    rewrite V. cbn [MiniJson.skip_ws].
    change (MiniJson.is_ws ",") with false. cbv iota.
    rewrite E. reflexivity.
Qed.

Lemma join_length (l : list string) :
  (List.length l <= String.length (MiniJson.join ", " (map MiniJson.quoted l)) + 1)%nat.
Proof.
  unfold MiniJson.join.
  induction l as [|s l IH]; [simpl; lia|].
  destruct l as [|s2 l]; [simpl; lia|].
  change (String.concat ", " (map MiniJson.quoted (s :: s2 :: l)))
    with (MiniJson.quoted s ++ ", " ++ String.concat ", " (map MiniJson.quoted (s2 :: l)))%string.
  rewrite !length_append. simpl in *. lia.
Qed.

Lemma value_bracket (f : nat) (r X : string) :
  r = String dquote X ->
  MiniJson.value (S f) (String "[" r) =
  match MiniJson.elements f r with
  | Some (l, r') => Some (PList l, r')
  | None => None
  end.
Proof. intros ->. reflexivity. Qed.

Lemma loads_dumps_strs (l : list string) (text : string) :
  MiniJson.dumps (PList (map PStr l)) = Ok text ->
  MiniJson.loads text = Ok (PList (map PStr l)).
Proof.
  rewrite dumps_strs. intros H. injection H as <-.
  unfold MiniJson.loads.
  destruct l as [|s l]; [reflexivity|].
  set (body := MiniJson.join ", " (map MiniJson.quoted (s :: l))).
  cbn [append String.length].
  assert (B : exists X, (body ++ "]")%string = String dquote X).
  { subst body. unfold MiniJson.join. destruct l as [|s2 l];
      cbn [map String.concat]; rewrite ?append_assoc, qe_shape; eexists;
      reflexivity. }
  destruct B as [X B].
  rewrite (value_bracket _ _ X B).
  assert (E := elements_strs l s EmptyString (S (String.length (body ++ "]"))) false).
  cbn [append] in E. fold body in E. rewrite E; [reflexivity|].
  pose proof (join_length (s :: l)) as J. fold body in J.
  rewrite length_append. simpl in *. lia.
Qed.

Lemma mini_json_roundtrips_strings (v : pyval) :
  string_list v -> roundtrips (codec := mini_json) v.
Proof. intros [l ->] s H. apply loads_dumps_strs, H. Qed.

(* ================================================================== *)
(** * Properties of the extractor *)

Section ExtractorFacts.

Context {codec : JsonCodec}.

(** The conditional of the fallback summary is the plain slice. *)
Lemma fallback_summary (text : string) :
  (if (300 <? String.length text)%nat then PyStr.take 300 text else text)
  = PyStr.take 300 text.
Proof.
  destruct (Nat.ltb_spec 300 (String.length text)) as [H|H]; [reflexivity|].
  symmetry. apply take_all. exact H.
Qed.

Lemma data_get_dict (d : pydict) (k : string) (v : pyval) :
  data_get (PDict d) k v = Ok (dict_get d k v).
Proof. reflexivity. Qed.

Lemma data_get_not_dict (data : pyval) (k : string) (v : pyval) :
  is_dict data = false -> data_get data k v = Raise AttributeError.
Proof. destruct data; simpl; intros H; try reflexivity; discriminate. Qed.

Lemma dict_get_absent (d : pydict) (k : string) (v : pyval) :
  lookup k d = None -> dict_get d k v = v.
Proof. unfold dict_get. intros ->. reflexivity. Qed.

Lemma resume_of_data_not_dict (data : pyval) (text filename : string) :
  is_dict data = false ->
  resume_of_data data text filename = Raise AttributeError.
Proof.
  intros H. unfold resume_of_data. rewrite data_get_not_dict by exact H.
  reflexivity.
Qed.

Lemma resume_of_data_dict (d : pydict) (text filename : string) :
  resume_of_data (PDict d) text filename =
  Ok (Resume.mk (PyStr.replace "." "_" filename)
        (dict_get d "name" (PStr "Candidate"))
        (dict_get d "email" (PStr EmptyString))
        (dict_get d "phone" (PStr EmptyString))
        (dict_get d "skills" (PList []))
        (dict_get d "experience" (PList []))
        (dict_get d "education" (PList []))
        (dict_get d "summary" (PStr (PyStr.take 300 text)))).
Proof. reflexivity. Qed.

Lemma job_of_data_not_dict (data : pyval) (text : string) :
  is_dict data = false -> job_of_data data text = Raise AttributeError.
Proof.
  intros H. unfold job_of_data. rewrite data_get_not_dict by exact H.
  reflexivity.
Qed.

Lemma job_of_data_dict (d : pydict) (text : string) :
  job_of_data (PDict d) text =
  (years <- py_int (dict_get d "experience_years" (PInt 0)) ;;
   Ok (JobDescription.mk
         (dict_get d "title" (PStr "Position"))
         (dict_get d "company" (PStr "Company"))
         (dict_get d "required_skills" (PList []))
         (dict_get d "preferred_skills" (PList []))
         years
         (dict_get d "responsibilities" (PList []))
         (dict_get d "qualifications" (PList []))
         (dict_get d "description" (PStr text)))).
Proof. reflexivity. Qed.

(** The causes of a failure before the record is built. *)
Lemma ask_request_raises (agent : Agent) (system user : string) (n : Z) (e : exn) :
  create agent {| req_model := model agent; req_system := system;
                  req_user := user; req_max_tokens := n |} = Raise e ->
  ask agent system user n = Raise e.
Proof. unfold ask. intros ->. reflexivity. Qed.

Lemma ask_content_none (agent : Agent) (system user : string) (n : Z) :
  create agent {| req_model := model agent; req_system := system;
                  req_user := user; req_max_tokens := n |} = Ok None ->
  ask agent system user n = Raise AttributeError.
Proof. unfold ask. intros ->. reflexivity. Qed.

Lemma ask_decode_raises (agent : Agent) (system user reply body : string)
  (n : Z) (e : exn) :
  create agent {| req_model := model agent; req_system := system;
                  req_user := user; req_max_tokens := n |} = Ok (Some reply) ->
  unfence (PyStr.strip reply) = Ok body ->
  json_loads body = Raise e ->
  ask agent system user n = Raise e.
Proof. unfold ask. intros -> H1 H2. simpl. rewrite H1. simpl. exact H2. Qed.

Lemma resume_try_raises_ask (text filename : string) (agent : Agent) (e : exn) :
  ask agent resume_system (resume_prompt text) 1500 = Raise e ->
  resume_try text filename agent = Raise e.
Proof. unfold resume_try. intros ->. reflexivity. Qed.

Lemma resume_try_raises_shape (text filename : string) (agent : Agent) (data : pyval) :
  ask agent resume_system (resume_prompt text) 1500 = Ok data ->
  is_dict data = false ->
  resume_try text filename agent = Raise AttributeError.
Proof.
  unfold resume_try. intros -> H. simpl. apply resume_of_data_not_dict, H.
Qed.

Lemma parse_resume_fallback (text filename : string) (agent : Agent) :
  raises (resume_try text filename agent) ->
  parse_resume_with_ai text filename agent = resume_fallback text filename.
Proof. intros [e H]. unfold parse_resume_with_ai. rewrite H. reflexivity. Qed.

Lemma parse_job_fallback (text : string) (agent : Agent) :
  raises (job_try text agent) ->
  parse_job_description_with_ai text agent = job_fallback text.
Proof. intros [e H]. unfold parse_job_description_with_ai. rewrite H. reflexivity. Qed.

End ExtractorFacts.

Section ExtractorClaims.

Context {codec : JsonCodec}.

Lemma resume_try_raises_iff (text filename : string) (agent : Agent) :
  raises (resume_try text filename agent) <->
  raises (ask agent resume_system (resume_prompt text) 1500) \/
  exists data, ask agent resume_system (resume_prompt text) 1500 = Ok data /\
               is_dict data = false.
Proof.
  unfold resume_try.
  destruct (ask agent resume_system (resume_prompt text) 1500) as [data|e] eqn:A;
    simpl.
  - split.
    + intros [e H]. right. exists data. split; [reflexivity|].
      destruct data; try reflexivity.
      rewrite resume_of_data_dict in H. discriminate.
    + intros [[e H]|[data' [H1 H2]]]; [discriminate|].
      injection H1 as <-. exists AttributeError.
      apply resume_of_data_not_dict, H2.
  - split; [intros _; left; exists e; reflexivity | intros _; exists e; reflexivity].
Qed.

Lemma parse_resume_decoded (text filename : string) (agent : Agent) (data : pyval) :
  ask agent resume_system (resume_prompt text) 1500 = Ok data ->
  parse_resume_with_ai text filename agent =
    match data with
    | PDict d =>
        Resume.mk (PyStr.replace "." "_" filename)
          (dict_get d "name" (PStr "Candidate"))
          (dict_get d "email" (PStr EmptyString))
          (dict_get d "phone" (PStr EmptyString))
          (dict_get d "skills" (PList []))
          (dict_get d "experience" (PList []))
          (dict_get d "education" (PList []))
          (dict_get d "summary" (PStr (PyStr.take 300 text)))
    | _ => resume_fallback text filename
    end.
Proof.
  intros H. unfold parse_resume_with_ai, resume_try. rewrite H. simpl.
  destruct data; reflexivity.
Qed.

Lemma parse_job_decoded (text : string) (agent : Agent) (data : pyval) :
  ask agent job_system (job_prompt text) 2000 = Ok data ->
  parse_job_description_with_ai text agent =
    match data with
    | PDict d =>
        match py_int (dict_get d "experience_years" (PInt 0)) with
        | Ok years =>
            JobDescription.mk
              (dict_get d "title" (PStr "Position"))
              (dict_get d "company" (PStr "Company"))
              (dict_get d "required_skills" (PList []))
              (dict_get d "preferred_skills" (PList []))
              years
              (dict_get d "responsibilities" (PList []))
              (dict_get d "qualifications" (PList []))
              (dict_get d "description" (PStr text))
        | Raise _ => job_fallback text
        end
    | _ => job_fallback text
    end.
Proof.
  intros H. unfold parse_job_description_with_ai, job_try. rewrite H. simpl.
  destruct data; try reflexivity.
  rewrite job_of_data_dict.
  destruct (py_int (dict_get d "experience_years" (PInt 0))); reflexivity.
Qed.

(** C8, as amended.  When the response decodes to a JSON object, every
    absent key is given the default written in the code: ["Candidate"] for
    the candidate's name, ["Position"] for the job title, ["Company"] for the
    job's company, the empty string for email and phone, the empty list for
    every collection, 0 for [experience_years], the first 300 characters of
    the text for the candidate's summary, and the whole text for the job's
    description. *)
Theorem absent_fields_get_defaults (text filename : string) (agent : Agent)
  (rd jd : pydict) :
  ask agent resume_system (resume_prompt text) 1500 = Ok (PDict rd) ->
  ask agent job_system (job_prompt text) 2000 = Ok (PDict jd) ->
  let r := parse_resume_with_ai text filename agent in
  let j := parse_job_description_with_ai text agent in
  (lookup "name" rd = None -> Resume.name r = PStr "Candidate") /\
  (lookup "email" rd = None -> Resume.email r = PStr EmptyString) /\
  (lookup "phone" rd = None -> Resume.phone r = PStr EmptyString) /\
  (lookup "skills" rd = None -> Resume.skills r = PList []) /\
  (lookup "experience" rd = None -> Resume.experience r = PList []) /\
  (lookup "education" rd = None -> Resume.education r = PList []) /\
  (lookup "summary" rd = None -> Resume.summary r = PStr (PyStr.take 300 text)) /\
  (lookup "title" jd = None -> JobDescription.title j = PStr "Position") /\
  (lookup "company" jd = None -> JobDescription.company j = PStr "Company") /\
  (lookup "required_skills" jd = None ->
     JobDescription.required_skills j = PList []) /\
  (lookup "preferred_skills" jd = None ->
     JobDescription.preferred_skills j = PList []) /\
  (lookup "experience_years" jd = None -> JobDescription.experience_years j = 0) /\
  (lookup "responsibilities" jd = None ->
     JobDescription.responsibilities j = PList []) /\
  (lookup "qualifications" jd = None ->
     JobDescription.qualifications j = PList []) /\
  (lookup "description" jd = None -> JobDescription.description j = PStr text).
Proof.
  intros Hr Hj r j.
  subst r j.
  rewrite (parse_resume_decoded _ filename _ _ Hr), (parse_job_decoded _ _ _ Hj).
  clear Hr Hj.
  repeat split; intros H;
    try (simpl; apply dict_get_absent; exact H);
    try (destruct (py_int (dict_get jd "experience_years" (PInt 0))); simpl;
         try reflexivity; apply dict_get_absent; exact H).
  rewrite (dict_get_absent _ _ _ H). reflexivity.
Qed.

Lemma id_is_map (filename : string) :
  PyStr.replace "." "_" filename = map_chars dot_to_underscore filename.
Proof. apply replace_char. Qed.

Lemma map_dots_injective (f1 f2 : string) :
  has_char "_" f1 = false -> has_char "_" f2 = false ->
  map_chars dot_to_underscore f1 = map_chars dot_to_underscore f2 -> f1 = f2.
Proof.
  revert f2. induction f1 as [|c1 f1 IH]; intros [|c2 f2]; simpl;
    try reflexivity; try discriminate.
  intros H1 H2 E.
  apply orb_false_iff in H1 as [U1 H1]. apply orb_false_iff in H2 as [U2 H2].
  injection E as Ec E. f_equal; [|apply IH; assumption].
  unfold dot_to_underscore in Ec.
  destruct (Ascii.eqb c1 ".") eqn:D1, (Ascii.eqb c2 ".") eqn:D2.
  - apply Ascii.eqb_eq in D1, D2. congruence.
  - subst c2. rewrite Ascii.eqb_refl in U2. discriminate.
  - subst c1. rewrite Ascii.eqb_refl in U1. discriminate.
  - exact Ec.
Qed.

Lemma parse_resume_id (text filename : string) (agent : Agent) :
  Resume.id (parse_resume_with_ai text filename agent)
  = PyStr.replace "." "_" filename.
Proof.
  unfold parse_resume_with_ai, resume_try.
  destruct (ask agent resume_system (resume_prompt text) 1500) as [data|e];
    [|reflexivity].
  simpl. destruct data; reflexivity.
Qed.

(** C9, as amended.  The id of a candidate is a function of the filename
    alone: the filename with every dot replaced by an underscore, on the
    path that builds the record from the response and on the fallback path
    alike, whatever the text and the agent.  Two filenames get the same id
    exactly when they agree once dots are read as underscores; so distinct
    filenames without any underscore get distinct ids. *)
Theorem candidate_id_of_filename (text1 text2 f1 f2 : string) (agent1 agent2 : Agent) :
  let id1 := Resume.id (parse_resume_with_ai text1 f1 agent1) in
  let id2 := Resume.id (parse_resume_with_ai text2 f2 agent2) in
  id1 = map_chars dot_to_underscore f1 /\
  id1 = Resume.id (resume_fallback text1 f1) /\
  (f1 = f2 -> id1 = id2) /\
  (id1 = id2 <-> map_chars dot_to_underscore f1 = map_chars dot_to_underscore f2) /\
  (has_char "_" f1 = false -> has_char "_" f2 = false -> f1 <> f2 -> id1 <> id2).
Proof.
  intros id1 id2. subst id1 id2. rewrite !parse_resume_id, !id_is_map.
  split; [reflexivity|]. split; [simpl; symmetry; apply id_is_map|].
  split; [intros ->; reflexivity|]. split; [tauto|].
  intros H1 H2 N E. apply N. apply map_dots_injective; assumption.
Qed.

End ExtractorClaims.

(* ================================================================== *)
(** * Properties of the session store *)

(** ** The exception monad *)

Lemma bind_ok {A B : Type} (m : except A) (k : A -> except B) (b : B) :
  bind m k = Ok b -> exists a, m = Ok a /\ k a = Ok b.
Proof. destruct m as [a|e]; simpl; intros H; [eauto|discriminate]. Qed.

Ltac bind_inv H :=
  let a := fresh "a" in
  let E := fresh "E" in
  apply bind_ok in H; destruct H as [a [E H]].

Tactic Notation "bind_inv_as" hyp(H) ident(a) ident(E) :=
  apply bind_ok in H; destruct H as [a [E H]].

Lemma commit_ok {A : Type} (t : txn A) (d d' : db) (a : A) :
  t d = Ok (a, d') -> commit t d = (Ok a, d').
Proof. unfold commit. intros ->. reflexivity. Qed.

(** A method that raises leaves the file as it was. *)
Lemma commit_cases {A : Type} (t : txn A) (d : db) :
  (exists a d', t d = Ok (a, d') /\ commit t d = (Ok a, d')) \/
  (exists e, t d = Raise e /\ commit t d = (Raise e, d)).
Proof.
  unfold commit. destruct (t d) as [[a d']|e]; [left|right]; eauto.
Qed.

Lemma mapM_Forall2 {A B : Type} (f : A -> except B) (l : list A) (l' : list B) :
  mapM f l = Ok l' <-> Forall2 (fun a b => f a = Ok b) l l'.
Proof.
  revert l'. induction l as [|a l IH]; intros l'; simpl.
  - split; intros H; [injection H as <-; constructor | inversion H; reflexivity].
  - split.
    + intros H. bind_inv H. bind_inv H. injection H as <-.
      constructor; [assumption | apply IH; assumption].
    + intros H. inversion H as [|? b ? bs Hb Hbs]; subst.
      rewrite Hb. simpl. apply IH in Hbs. rewrite Hbs. reflexivity.
Qed.

Lemma mapM_firstn {A B : Type} (f : A -> except B) (n : nat) (l : list A)
  (l' : list B) :
  mapM f l = Ok l' -> mapM f (firstn n l) = Ok (firstn n l').
Proof.
  rewrite !mapM_Forall2. intros H. revert n.
  induction H; intros [|n]; simpl; constructor; auto.
Qed.

Lemma mapM_length {A B : Type} (f : A -> except B) (l : list A) (l' : list B) :
  mapM f l = Ok l' -> List.length l' = List.length l.
Proof.
  rewrite mapM_Forall2. intros H. symmetry. eapply Forall2_length, H.
Qed.

(** ** Integers *)

Lemma bind_int_ok (z z' : Z) : bind_int z = Ok z' -> z' = z /\ int64 z.
Proof.
  unfold bind_int, int64. destruct (int64b z); intros H; [|discriminate].
  injection H as <-. split; reflexivity.
Qed.

Lemma bind_int_int64 (z : Z) : int64 z -> bind_int z = Ok z.
Proof. unfold bind_int, int64. intros ->. reflexivity. Qed.

Lemma bind_int_overflow (z : Z) : ~ int64 z -> bind_int z = Raise OverflowError.
Proof.
  unfold bind_int, int64. destruct (int64b z); [intros H; exfalso; auto | reflexivity].
Qed.

Lemma int64_bounds (z : Z) : int64 z <-> min_int64 <= z <= max_int64.
Proof.
  unfold int64, int64b. rewrite andb_true_iff, !Z.leb_le. tauto.
Qed.

Lemma max_id_ge (ids : list Z) (z : Z) : In z ids -> z <= max_id ids.
Proof.
  induction ids as [|y ids IH]; simpl; [tauto|].
  intros [->|H]; [lia | specialize (IH H); lia].
Qed.

Lemma max_id_nonneg (ids : list Z) : 0 <= max_id ids.
Proof. induction ids; simpl; lia. Qed.

Lemma next_rowid_ok (seq : Z) (ids : list Z) (id : Z) :
  next_rowid seq ids = Ok id ->
  seq < id /\ (forall z, In z ids -> z < id) /\ 1 <= id <= max_int64.
Proof.
  unfold next_rowid.
  destruct (Z.ltb_spec (Z.max seq (max_id ids)) max_int64) as [L|L];
    intros H; [|discriminate].
  injection H as <-. pose proof (max_id_nonneg ids).
  split; [lia|]. split; [|lia].
  intros z Hz. apply max_id_ge in Hz. lia.
Qed.

(** ** [ORDER BY] *)

Lemma insert_by_In {A : Type} (le : A -> A -> bool) (x y : A) (l : list A) :
  In x (insert_by le y l) <-> x = y \/ In x l.
Proof.
  induction l as [|z l IH]; simpl; [intuition congruence|].
  destruct (le y z); simpl; [intuition congruence|].
  rewrite IH. intuition congruence.
Qed.

Lemma sort_by_In {A : Type} (le : A -> A -> bool) (x : A) (l : list A) :
  In x (sort_by le l) <-> In x l.
Proof.
  induction l as [|y l IH]; simpl; [tauto|].
  rewrite insert_by_In, IH. intuition congruence.
Qed.

(** Rows ranked k, k+1, ... in table order are already in rank order. *)
Lemma sort_by_rank_ranked {S : Type} (l : list (ResultRow.t S)) (k : Z) :
  map ResultRow.rank l = ranks_from k (List.length l) ->
  sort_by by_rank l = l.
Proof.
  revert k. induction l as [|x l IH]; intros k H; [reflexivity|].
  simpl in H. injection H as Hx Hl. simpl. rewrite (IH _ Hl).
  destruct l as [|y l]; [reflexivity|].
  simpl in Hl. injection Hl as Hy _. simpl.
  unfold by_rank. rewrite Hx, Hy.
  destruct (Z.leb_spec k (k + 1)); [reflexivity | lia].
Qed.

Lemma insert_by_rank_nondecreasing {S : Type} (x : ResultRow.t S)
  (l : list (ResultRow.t S)) :
  nondecreasing (map ResultRow.rank l) ->
  nondecreasing (map ResultRow.rank (insert_by by_rank x l)).
Proof.
  induction l as [|y l IH]; simpl; intros H; [constructor|].
  unfold by_rank at 1.
  destruct (Z.leb_spec (ResultRow.rank x) (ResultRow.rank y)) as [L|L]; simpl.
  - constructor; assumption.
  - assert (T : nondecreasing (map ResultRow.rank l)).
    { inversion H; subst; [constructor | assumption]. }
    specialize (IH T).
    destruct l as [|z l]; simpl in *.
    + constructor; [lia | constructor].
    + unfold by_rank in IH |- * at 1.
      destruct (Z.leb_spec (ResultRow.rank x) (ResultRow.rank z)); simpl in *.
      * constructor; [lia | assumption].
      * inversion H; subst. constructor; assumption.
Qed.

Lemma sort_by_rank_nondecreasing {S : Type} (l : list (ResultRow.t S)) :
  nondecreasing (map ResultRow.rank (sort_by by_rank l)).
Proof.
  induction l as [|x l IH]; simpl; [constructor|].
  apply insert_by_rank_nondecreasing, IH.
Qed.

Lemma nondecreasing_firstn (n : nat) (l : list Z) :
  nondecreasing l -> nondecreasing (firstn n l).
Proof.
  intros H. revert n. induction H; intros [|n]; simpl; try constructor.
  - destruct n; constructor.
  - specialize (IHnondecreasing n). destruct n; simpl in *; constructor; assumption.
Qed.

Section StoreFacts.

Context {codec : JsonCodec}.

(** ** What [save_session] writes *)

Lemma result_row_fields (sid rk : Z) (result : pydict)
  (mk : Z -> ResultRow.t string) :
  result_row sid rk result = Ok mk ->
  forall id,
    ResultRow.id (mk id) = id /\
    ResultRow.session_id (mk id) = sid /\
    ResultRow.rank (mk id) = rk /\
    json_dumps (dict_get result "strengths" (PList []))
      = Ok (ResultRow.strengths (mk id)) /\
    json_dumps (dict_get result "weaknesses" (PList []))
      = Ok (ResultRow.weaknesses (mk id)).
Proof.
  unfold result_row. intros H id.
  bind_inv_as H st Est. bind_inv_as H wk Ewk.
  bind_inv_as H sid' Esid. apply bind_int_ok in Esid as [-> _].
  do 8 bind_inv H.
  bind_inv_as H rk' Erk. apply bind_int_ok in Erk as [-> _].
  bind_inv H. injection H as <-. simpl. auto.
Qed.

Lemma insert_session_ok (now : Z) (job_title company : pyval) (total : Z)
  (d d' : db) (id : Z) :
  insert_session now job_title company total d = Ok (id, d') ->
  exists s,
    sessions d' = sessions d ++ [s] /\
    results d' = results d /\
    SessionRow.id s = id /\
    SessionRow.total_candidates s = total /\
    SessionRow.is_hidden s = 0 /\
    SessionRow.timestamp s = now /\
    (forall s', In s' (sessions d) -> SessionRow.id s' < id) /\
    int64 id.
Proof.
  unfold insert_session. intros H.
  bind_inv_as H jt Ejt. bind_inv_as H co Eco.
  bind_inv_as H n En. apply bind_int_ok in En as [-> _].
  bind_inv_as H jt' Enn. bind_inv_as H id' Eid. injection H as <- <-.
  apply next_rowid_ok in Eid as (_ & F & B).
  eexists. simpl. repeat split.
  - intros s' Hs'. apply F. apply in_map. exact Hs'.
  - apply int64_bounds. unfold min_int64. lia.
Qed.

Lemma insert_result_ok (sid rk : Z) (result : pydict) (d d' : db) (u : unit) :
  insert_result sid rk result d = Ok (u, d') ->
  exists row,
    sessions d' = sessions d /\
    results d' = results d ++ [row] /\
    stored_from result row /\
    ResultRow.session_id row = sid /\
    ResultRow.rank row = rk.
Proof.
  unfold insert_result. intros H.
  bind_inv_as H mk Emk. bind_inv_as H id Eid. injection H as _ <-.
  destruct (result_row_fields _ _ _ _ Emk id) as (I & S & R & _).
  exists (mk id). simpl. repeat split; try assumption.
  exists mk. rewrite S, R, I. split; [assumption | reflexivity].
Qed.

Lemma insert_results_ok (sid : Z) (rs : list pydict) :
  forall (rk : Z) (d d' : db) (u : unit),
    insert_results sid rk rs d = Ok (u, d') ->
    exists new,
      sessions d' = sessions d /\
      results d' = results d ++ new /\
      Forall2 stored_from rs new /\
      Forall (fun row => ResultRow.session_id row = sid) new /\
      map ResultRow.rank new = ranks_from rk (List.length rs).
Proof.
  induction rs as [|r rs IH]; intros rk d d' u H; simpl in H.
  - injection H as _ <-. exists []. rewrite app_nil_r. repeat split; constructor.
  - bind_inv_as H p E. destruct p as [u1 d1].
    apply insert_result_ok in E as (row & S1 & R1 & St & Sid & Rk).
    apply IH in H as (new & S2 & R2 & F & A & M).
    exists (row :: new). rewrite S2, S1, R2, R1, <- app_assoc. simpl.
    repeat split; try constructor; try assumption.
    rewrite Rk, M. reflexivity.
Qed.

Lemma save_session_txn_ok (now : Z) (job_title company : pyval)
  (rs : list pydict) (d d' : db) (sid : Z) :
  save_session_txn now job_title company rs d = Ok (sid, d') ->
  exists s new,
    sessions d' = sessions d ++ [s] /\
    results d' = results d ++ new /\
    SessionRow.id s = sid /\
    SessionRow.total_candidates s = Z.of_nat (List.length rs) /\
    SessionRow.is_hidden s = 0 /\
    SessionRow.timestamp s = now /\
    Forall2 stored_from rs new /\
    Forall (fun row => ResultRow.session_id row = sid) new /\
    map ResultRow.rank new = ranks_from 1 (List.length rs) /\
    (forall s', In s' (sessions d) -> SessionRow.id s' < sid) /\
    int64 sid.
Proof.
  unfold save_session_txn. intros H.
  bind_inv_as H p E. destruct p as [sid1 d1].
  bind_inv_as H p' E'. destruct p' as [u d2].
  injection H as <- <-.
  apply insert_session_ok in E as (s & S1 & R1 & I & T & Hd & Ts & Fr & B).
  apply insert_results_ok in E' as (new & S2 & R2 & F & A & M).
  exists s, new. rewrite S2, S1, R2, R1. repeat split; assumption.
Qed.

(** ** When [save_session] commits *)

Lemma not_null_ok (x : sqlval) : x <> SNull -> not_null x = Ok x.
Proof. destruct x; simpl; intros H; [contradiction | | |]; reflexivity. Qed.

Lemma result_row_storable (sid rk : Z) (r : pydict) :
  storable r -> int64 sid -> int64 rk ->
  exists mk, result_row sid rk r = Ok mk.
Proof.
  intros ((st & Est) & (wk & Ewk) & (x1 & E1) & (x2 & E2 & N2) & (x3 & E3)
          & (x4 & E4) & (x5 & E5) & (x6 & E6) & (x7 & E7) & (x8 & E8)) Bs Br.
  unfold result_row.
  rewrite Est, Ewk, (bind_int_int64 _ Bs), E1, E2, E3, E4, E5, E6, E7, E8,
    (bind_int_int64 _ Br).
  simpl. rewrite (not_null_ok _ N2). simpl. eexists. reflexivity.
Qed.

Lemma max_id_app (l1 l2 : list Z) :
  max_id (l1 ++ l2) = Z.max (max_id l1) (max_id l2).
Proof.
  induction l1 as [|x l1 IH]; simpl.
  - pose proof (max_id_nonneg l2). lia.
  - rewrite IH. lia.
Qed.

Lemma insert_results_storable (sid : Z) (rs : list pydict) :
  int64 sid -> Forall storable rs ->
  forall (rk : Z) (d : db),
    1 <= rk -> rk + Z.of_nat (List.length rs) - 1 <= max_int64 ->
    Z.max (seq_results d) (max_id (map ResultRow.id (results d)))
      + Z.of_nat (List.length rs) <= max_int64 ->
    exists d', insert_results sid rk rs d = Ok (tt, d').
Proof.
  intros Bs F. induction F as [|r rs St _ IH]; intros rk d L1 L2 L3; simpl.
  - eexists. reflexivity.
  - assert (Br : int64 rk).
    { apply int64_bounds. unfold min_int64. simpl List.length in L2. lia. }
    destruct (result_row_storable sid rk r St Bs Br) as (mk & Emk).
    unfold insert_result. rewrite Emk. simpl.
    unfold next_rowid.
    set (top := Z.max (seq_results d) (max_id (map ResultRow.id (results d)))) in *.
    simpl List.length in L2, L3.
    destruct (Z.ltb_spec top max_int64) as [Lt|Ge]; [|lia].
    simpl.
    destruct (result_row_fields _ _ _ _ Emk (top + 1)) as (I & _).
    apply IH; simpl; try lia.
    rewrite map_app, max_id_app. simpl. rewrite I.
    pose proof (max_id_nonneg (map ResultRow.id (results d))). lia.
Qed.

Lemma save_session_commits (now : Z) (job_title company : pyval)
  (rs : list pydict) (d : db) :
  binds_not_null job_title -> binds company -> Forall storable rs ->
  room d (List.length rs) ->
  exists sid d', save_session now job_title company rs d = (Ok sid, d').
Proof.
  intros (jt & Ejt & Njt) (co & Eco) F [R1 R2].
  pose proof (max_id_nonneg (map ResultRow.id (results d))) as P.
  assert (Bn : int64 (Z.of_nat (List.length rs))).
  { apply int64_bounds. unfold min_int64. lia. }
  unfold save_session.
  destruct (insert_session now job_title company (Z.of_nat (List.length rs)) d)
    as [[sid d1]|e] eqn:Ei.
  - destruct (insert_session_ok _ _ _ _ _ _ _ Ei)
      as (s & S1 & Rs1 & _ & _ & _ & _ & _ & Bs).
    assert (Sq : seq_results d1 = seq_results d).
    { unfold insert_session in Ei. rewrite Ejt, Eco, (bind_int_int64 _ Bn) in Ei.
      simpl in Ei. rewrite (not_null_ok _ Njt) in Ei. simpl in Ei.
      bind_inv_as Ei id Eid. injection Ei as _ <-. reflexivity. }
    destruct (insert_results_storable sid rs Bs F 1 d1) as (d2 & E2);
      [lia | lia | rewrite Sq, Rs1; exact R2 |].
    exists sid, d2. apply commit_ok. unfold save_session_txn.
    rewrite Ei. simpl. rewrite E2. reflexivity.
  - exfalso. unfold insert_session in Ei.
    rewrite Ejt, Eco, (bind_int_int64 _ Bn) in Ei. simpl in Ei.
    rewrite (not_null_ok _ Njt) in Ei. simpl in Ei.
    unfold next_rowid in Ei.
    destruct (Z.ltb_spec (Z.max (seq_sessions d)
                (max_id (map SessionRow.id (sessions d)))) max_int64);
      [discriminate | lia].
Qed.

(** ** Filters *)

Lemma filter_none {A : Type} (f : A -> bool) (l : list A) :
  (forall x, In x l -> f x = false) -> filter f l = [].
Proof.
  induction l as [|x l IH]; intros H; simpl; [reflexivity|].
  rewrite (H x (or_introl eq_refl)). apply IH. intros y Hy. apply H. right. exact Hy.
Qed.

Lemma filter_all {A : Type} (f : A -> bool) (l : list A) :
  (forall x, In x l -> f x = true) -> filter f l = l.
Proof.
  induction l as [|x l IH]; intros H; simpl; [reflexivity|].
  rewrite (H x (or_introl eq_refl)). f_equal. apply IH.
  intros y Hy. apply H. right. exact Hy.
Qed.

Lemma filter_filter_other (sid sid' : Z) (l : list (ResultRow.t string)) :
  sid' <> sid ->
  filter (fun r => ResultRow.session_id r =? sid')
    (filter (fun r => negb (ResultRow.session_id r =? sid)) l)
  = filter (fun r => ResultRow.session_id r =? sid') l.
Proof.
  intros N. induction l as [|r l IH]; simpl; [reflexivity|].
  destruct (Z.eqb_spec (ResultRow.session_id r) sid) as [E|E]; simpl.
  - destruct (Z.eqb_spec (ResultRow.session_id r) sid'); [congruence | exact IH].
  - rewrite IH. reflexivity.
Qed.

Lemma results_of_no_session (d : db) (sid : Z) :
  no_orphans d -> ~ has_session d sid -> results_of d sid = [].
Proof.
  intros O N. apply filter_none. intros r Hr.
  apply Z.eqb_neq. intros E. apply N. rewrite <- E. apply O, Hr.
Qed.

Lemma ranks_from_length (k : Z) (n : nat) : List.length (ranks_from k n) = n.
Proof. revert k. induction n; intros k; simpl; [reflexivity | rewrite IHn; reflexivity]. Qed.

End StoreFacts.

Section StoreInvariant.

Context {codec : JsonCodec}.

Lemma store_inv_init : store_inv init_database.
Proof. split; [|split]; intros x H; destruct H. Qed.

Lemma set_hidden_id (flag sid : Z) (s : SessionRow.t) :
  SessionRow.id (set_hidden flag sid s) = SessionRow.id s.
Proof. unfold set_hidden. destruct (SessionRow.id s =? sid); reflexivity. Qed.

Lemma set_hidden_total (flag sid : Z) (s : SessionRow.t) :
  SessionRow.total_candidates (set_hidden flag sid s) = SessionRow.total_candidates s.
Proof. unfold set_hidden. destruct (SessionRow.id s =? sid); reflexivity. Qed.

Lemma save_session_cases (now : Z) (job_title company : pyval)
  (rs : list pydict) (d : db) :
  (exists sid d',
     save_session_txn now job_title company rs d = Ok (sid, d') /\
     save_session now job_title company rs d = (Ok sid, d')) \/
  (exists e, save_session now job_title company rs d = (Raise e, d)).
Proof.
  unfold save_session.
  destruct (commit_cases (save_session_txn now job_title company rs) d)
    as [(a & d' & H1 & H2)|(e & _ & H2)]; [left|right]; eauto.
Qed.

(** After a successful [save_session] the rows of the new session are the
    rows just written, and the rows of every other session are untouched. *)
Lemma save_results_of (now : Z) (job_title company : pyval)
  (rs : list pydict) (d d' : db) (sid : Z) :
  no_orphans d ->
  save_session_txn now job_title company rs d = Ok (sid, d') ->
  exists s new,
    sessions d' = sessions d ++ [s] /\
    results d' = results d ++ new /\
    SessionRow.id s = sid /\
    SessionRow.total_candidates s = Z.of_nat (List.length rs) /\
    Forall2 stored_from rs new /\
    Forall (fun row => ResultRow.session_id row = sid) new /\
    map ResultRow.rank new = ranks_from 1 (List.length rs) /\
    results_of d' sid = new /\
    (forall x, x <> sid -> results_of d' x = results_of d x) /\
    ~ has_session d sid /\
    int64 sid.
Proof.
  intros O H.
  apply save_session_txn_ok in H
    as (s & new & S & R & I & T & _ & _ & F & A & M & Fr & B).
  assert (N : ~ has_session d sid).
  { intros (s' & Hs' & E). apply Fr in Hs'. lia. }
  exists s, new. repeat split; try assumption.
  - unfold results_of. rewrite R, filter_app.
    fold (results_of d sid). rewrite (results_of_no_session _ _ O N). simpl.
    apply filter_all. intros r Hr. apply Z.eqb_eq.
    rewrite Forall_forall in A. apply A, Hr.
  - intros x Hx. unfold results_of. rewrite R, filter_app.
    rewrite (filter_none _ new), app_nil_r; [reflexivity|].
    intros r Hr. apply Z.eqb_neq. rewrite Forall_forall in A.
    rewrite (A r Hr). congruence.
Qed.

Lemma save_preserves (now : Z) (job_title company : pyval)
  (rs : list pydict) (d : db) :
  store_inv d -> store_inv (snd (save_session now job_title company rs d)).
Proof.
  intros (O & C & G).
  destruct (save_session_cases now job_title company rs d)
    as [(sid & d' & H & ->)|(e & ->)]; simpl; [|exact (conj O (conj C G))].
  destruct (save_results_of _ _ _ _ _ _ _ O H)
    as (s & new & S & R & I & T & F & A & M & Rn & Ro & N & B).
  assert (L : List.length new = List.length rs).
  { rewrite <- (length_map ResultRow.rank new), M. apply ranks_from_length. }
  split; [|split].
  - intros r Hr. rewrite R in Hr. apply in_app_or in Hr as [Hr|Hr].
    + destruct (O r Hr) as (s' & Hs' & E). exists s'. split; [|exact E].
      rewrite S. apply in_or_app. left. exact Hs'.
    + exists s. split; [rewrite S; apply in_or_app; right; left; reflexivity|].
      rewrite Forall_forall in A. rewrite (A r Hr). exact I.
  - intros s' Hs'. rewrite S in Hs'. apply in_app_or in Hs' as [Hs'|[<-|[]]].
    + unfold session_complete. rewrite Ro; [apply C, Hs'|].
      intros E. apply N. exists s'. split; assumption.
    + unfold session_complete. rewrite I, Rn, L. split; assumption.
  - intros s' Hs'. rewrite S in Hs'. apply in_app_or in Hs' as [Hs'|[<-|[]]].
    + apply G, Hs'.
    + rewrite I. exact B.
Qed.

Lemma update_hidden_cases (flag sid : Z) (d : db) :
  (int64 sid /\
   commit (update_hidden flag sid) d =
     (Ok tt, mkdb (map (set_hidden flag sid) (sessions d)) (results d)
               (seq_sessions d) (seq_results d))) \/
  (~ int64 sid /\ commit (update_hidden flag sid) d = (Raise OverflowError, d)).
Proof.
  unfold commit, update_hidden, bind_int, int64.
  destruct (int64b sid); [left|right]; split; try reflexivity; congruence.
Qed.

Lemma update_hidden_preserves (flag sid : Z) (d : db) :
  store_inv d -> store_inv (snd (commit (update_hidden flag sid) d)).
Proof.
  intros (O & C & G).
  destruct (update_hidden_cases flag sid d) as [[_ ->]|[_ ->]]; simpl;
    [|exact (conj O (conj C G))].
  split; [|split].
  - intros r Hr. simpl in Hr. destruct (O r Hr) as (s & Hs & E).
    exists (set_hidden flag sid s). simpl. split.
    + apply in_map, Hs.
    + rewrite set_hidden_id. exact E.
  - intros s' Hs'. simpl in Hs'. apply in_map_iff in Hs' as (s & <- & Hs).
    unfold session_complete, results_of. simpl.
    rewrite set_hidden_id, set_hidden_total. apply C, Hs.
  - intros s' Hs'. simpl in Hs'. apply in_map_iff in Hs' as (s & <- & Hs).
    rewrite set_hidden_id. apply G, Hs.
Qed.

Lemma delete_session_cases (sid : Z) (d : db) :
  (int64 sid /\
   delete_session sid d =
     (Ok tt,
      mkdb (filter (fun s => negb (SessionRow.id s =? sid)) (sessions d))
           (filter (fun r => negb (ResultRow.session_id r =? sid)) (results d))
           (seq_sessions d) (seq_results d))) \/
  (~ int64 sid /\ delete_session sid d = (Raise OverflowError, d)).
Proof.
  unfold delete_session, commit, delete_session_txn, bind_int, int64.
  destruct (int64b sid); [left|right]; split; try reflexivity; congruence.
Qed.

Lemma delete_preserves (sid : Z) (d : db) :
  store_inv d -> store_inv (snd (delete_session sid d)).
Proof.
  intros (O & C & G).
  destruct (delete_session_cases sid d) as [[_ ->]|[_ ->]]; simpl;
    [|exact (conj O (conj C G))].
  split; [|split].
  - intros r Hr. simpl in Hr. apply filter_In in Hr as [Hr Hn].
    destruct (O r Hr) as (s & Hs & E). exists s. simpl. split; [|exact E].
    apply filter_In. split; [exact Hs|]. rewrite E. exact Hn.
  - intros s Hs. simpl in Hs. apply filter_In in Hs as [Hs Hn].
    apply negb_true_iff, Z.eqb_neq in Hn.
    unfold session_complete, results_of. simpl.
    rewrite filter_filter_other by exact Hn. apply C, Hs.
  - intros s Hs. simpl in Hs. apply filter_In in Hs as [Hs _]. apply G, Hs.
Qed.

Lemma clear_preserves (d : db) : store_inv (snd (clear_all_history d)).
Proof. split; [|split]; intros x H; destruct H. Qed.

Lemma step_preserves (d : db) (o : op) : store_inv d -> store_inv (step d o).
Proof.
  intros H. destruct o; simpl.
  - apply save_preserves, H.
  - apply update_hidden_preserves, H.
  - apply update_hidden_preserves, H.
  - apply delete_preserves, H.
  - apply clear_preserves.
Qed.

Lemma fold_step_preserves (ops : list op) (d : db) :
  store_inv d -> store_inv (fold_left step ops d).
Proof.
  revert d. induction ops as [|o ops IH]; intros d H; simpl; [exact H|].
  apply IH, step_preserves, H.
Qed.

Lemma run_inv (ops : list op) : store_inv (run ops).
Proof. apply fold_step_preserves, store_inv_init. Qed.

End StoreInvariant.

Section StoreClaims.

Context {codec : JsonCodec}.

(** C3.  On the file left by any sequence of calls, [save_session] with N
    results either commits, and then it has added one session row with
    [total_candidates] = N and exactly N result rows, all with the new
    session id, ranked 1..N in the order of the list, each the encoding of
    the result at its position; or it raises, and then the file is unchanged.
    It commits whenever the job title can be bound and is not [NULL], the
    company can be bound, every result can be stored and has a name, and the
    rowid counters are not exhausted.  And on the file left by any sequence
    of calls, every session row has as many result rows as its
    [total_candidates] says, ranked 1, 2, ... *)
Theorem save_session_all_or_nothing (ops : list op) (now : Z)
  (job_title company : pyval) (rs : list pydict) :
  let d := run ops in
  match save_session now job_title company rs d with
  | (Ok sid, d') =>
      exists s new,
        sessions d' = sessions d ++ [s] /\
        results d' = results d ++ new /\
        SessionRow.id s = sid /\
        SessionRow.total_candidates s = Z.of_nat (List.length rs) /\
        List.length new = List.length rs /\
        map ResultRow.rank new = ranks_from 1 (List.length rs) /\
        Forall (fun row => ResultRow.session_id row = sid) new /\
        Forall2 stored_from rs new /\
        results_of d' sid = new
  | (Raise _, d') => d' = d
  end /\
  (binds_not_null job_title -> binds company -> Forall storable rs ->
   room d (List.length rs) ->
   exists sid d', save_session now job_title company rs d = (Ok sid, d')) /\
  (forall s, In s (sessions d) ->
     Z.of_nat (List.length (results_of d (SessionRow.id s)))
       = SessionRow.total_candidates s /\
     map ResultRow.rank (results_of d (SessionRow.id s))
       = ranks_from 1 (Z.to_nat (SessionRow.total_candidates s))).
Proof.
  intros d. destruct (run_inv ops) as (O & C & G). fold d in O, C.
  split; [|split; [apply save_session_commits|]].
  - destruct (save_session_cases now job_title company rs d)
      as [(sid & d' & H & ->)|(e & ->)]; [|reflexivity].
    destruct (save_results_of _ _ _ _ _ _ _ O H)
      as (s & new & S & R & I & T & F & A & M & Rn & _ & _).
    exists s, new. repeat split; try assumption.
    rewrite <- (length_map ResultRow.rank new), M. apply ranks_from_length.
  - intros s Hs. destruct (C s Hs) as [T M]. split; [symmetry; exact T|].
    rewrite T, Nat2Z.id. exact M.
Qed.

(** C10.  On the file left by any sequence of calls, every result row
    carries the id of a session row of the file.  A committed
    [save_session] stamps each row it writes with the id of the session row
    it has just added; a committed [delete_session] leaves neither the
    session row nor any result row of that session; [clear_all_history]
    returns normally and leaves both tables empty. *)
Theorem no_orphan_results (ops : list op) :
  let d := run ops in
  no_orphans d /\
  (forall now job_title company rs sid d',
     save_session now job_title company rs d = (Ok sid, d') ->
     has_session d' sid /\
     exists new, results d' = results d ++ new /\
                 List.length new = List.length rs /\
                 Forall (fun row => ResultRow.session_id row = sid) new) /\
  (forall sid d',
     delete_session sid d = (Ok tt, d') ->
     ~ has_session d' sid /\ results_of d' sid = [] /\ no_orphans d') /\
  clear_all_history d = (Ok tt, mkdb [] [] (seq_sessions d) (seq_results d)).
Proof.
  intros d. destruct (run_inv ops) as (O & C & G). fold d in O, C.
  split; [exact O|]. split; [|split].
  - intros now job_title company rs sid d' H.
    destruct (save_session_cases now job_title company rs d)
      as [(sid1 & d1 & H1 & H2)|(e & H2)]; rewrite H2 in H; [|discriminate].
    injection H as -> ->.
    destruct (save_results_of _ _ _ _ _ _ _ O H1)
      as (s & new & S & R & I & T & F & A & M & _).
    split.
    + exists s. split; [rewrite S; apply in_or_app; right; left; reflexivity | exact I].
    + exists new. repeat split; try assumption.
      rewrite <- (length_map ResultRow.rank new), M. apply ranks_from_length.
  - intros sid d' H.
    pose proof (delete_preserves sid d (conj O (conj C G))) as [O' _].
    destruct (delete_session_cases sid d) as [[_ E]|[_ E]];
      rewrite E in H, O'; [|discriminate].
    injection H as <-. split; [|split; [|exact O']].
    + intros (s & Hs & Es). simpl in Hs. apply filter_In in Hs as [_ Hn].
      rewrite Es, Z.eqb_refl in Hn. discriminate.
    + apply filter_none. intros r Hr. simpl in Hr.
      apply filter_In in Hr as [_ Hn]. apply negb_true_iff in Hn. exact Hn.
  - reflexivity.
Qed.

Lemma get_session_results_unknown (d : db) (sid : Z) :
  int64 sid -> ~ has_session d sid ->
  get_session_results sid d = Raise TypeError.
Proof.
  intros B N. unfold get_session_results. rewrite (bind_int_int64 _ B). simpl.
  rewrite filter_none; [reflexivity|].
  intros s Hs. apply Z.eqb_neq. intros E. apply N. exists s. split; assumption.
Qed.


Lemma delete_session_removes (d : db) (sid : Z) :
  int64 sid ->
  fst (delete_session sid d) = Ok tt /\
  ~ has_session (snd (delete_session sid d)) sid /\
  results_of (snd (delete_session sid d)) sid = [].
Proof.
  intros B.
  destruct (delete_session_cases sid d) as [[_ E]|[NB _]]; [|contradiction].
  rewrite E. simpl. split; [reflexivity|]. split.
  - intros (s & Hs & Es). simpl in Hs. apply filter_In in Hs as [_ Hn].
    rewrite Es, Z.eqb_refl in Hn. discriminate.
  - apply filter_none. intros r Hr. simpl in Hr.
    apply filter_In in Hr as [_ Hn]. apply negb_true_iff in Hn. exact Hn.
Qed.


Lemma get_session_results_overflow (d : db) (sid : Z) :
  ~ int64 sid -> get_session_results sid d = Raise OverflowError.
Proof.
  intros NB. unfold get_session_results. rewrite (bind_int_overflow _ NB).
  reflexivity.
Qed.


End StoreClaims.

Section VisibilityFacts.

Lemma set_hidden_twice (flag sid : Z) (s : SessionRow.t) :
  set_hidden flag sid (set_hidden flag sid s) = set_hidden flag sid s.
Proof.
  unfold set_hidden. destruct (SessionRow.id s =? sid) eqn:E; simpl; rewrite E;
    reflexivity.
Qed.



Lemma update_hidden_value (flag sid : Z) (d : db) :
  int64 sid ->
  commit (update_hidden flag sid) d =
    (Ok tt, mkdb (map (set_hidden flag sid) (sessions d)) (results d)
              (seq_sessions d) (seq_results d)).
Proof.
  intros B. destruct (update_hidden_cases flag sid d) as [[_ E]|[NB _]];
    [exact E | contradiction].
Qed.







End VisibilityFacts.

Section VisibilityClaims.

Context {codec : JsonCodec}.


End VisibilityClaims.

Section ReadClaims.

Context {codec : JsonCodec}.

Lemma decode_row_ok (r : ResultRow.t string) (o : ResultRow.t pyval) :
  decode_row r = Ok o -> decoded_from r o.
Proof.
  unfold decode_row. intros H.
  bind_inv_as H st Est. bind_inv_as H wk Ewk. injection H as <-.
  unfold decoded_from. simpl. auto.
Qed.

Lemma mapM_decode_rows (l : list (ResultRow.t string)) (rows : list (ResultRow.t pyval)) :
  mapM decode_row l = Ok rows -> Forall2 decoded_from l rows.
Proof.
  rewrite mapM_Forall2. intros H.
  induction H; constructor; [apply decode_row_ok|]; assumption.
Qed.

Lemma decoded_ranks (l : list (ResultRow.t string)) (rows : list (ResultRow.t pyval)) :
  Forall2 decoded_from l rows -> map ResultRow.rank rows = map ResultRow.rank l.
Proof.
  intros H. induction H as [|r o l rows (_ & _ & R & _) _ IH]; simpl;
    [reflexivity | rewrite R, IH; reflexivity].
Qed.

Lemma mapM_sql_limit {A B : Type} (f : A -> except B) (n : Z) (l : list A)
  (l' : list B) :
  mapM f l = Ok l' -> mapM f (sql_limit n l) = Ok (sql_limit n l').
Proof.
  unfold sql_limit. destruct (n <? 0); [tauto | apply mapM_firstn].
Qed.

Lemma stored_from_texts (r : pydict) (row : ResultRow.t string) :
  stored_from r row ->
  json_dumps (dict_get r "strengths" (PList [])) = Ok (ResultRow.strengths row) /\
  json_dumps (dict_get r "weaknesses" (PList [])) = Ok (ResultRow.weaknesses row).
Proof.
  intros (mk & H & E).
  destruct (result_row_fields _ _ _ _ H (ResultRow.id row)) as (_ & _ & _ & S & W).
  rewrite <- E in S, W. split; assumption.
Qed.

(** Rows written by [save_session] from values the codec gives back decode
    to those values. *)
Lemma decode_stored (rs : list pydict) (new : list (ResultRow.t string)) :
  Forall2 stored_from rs new ->
  (forall r, In r rs ->
     roundtrips (dict_get r "strengths" (PList [])) /\
     roundtrips (dict_get r "weaknesses" (PList []))) ->
  exists rows,
    mapM decode_row new = Ok rows /\
    map ResultRow.strengths rows
      = map (fun r => dict_get r "strengths" (PList [])) rs /\
    map ResultRow.weaknesses rows
      = map (fun r => dict_get r "weaknesses" (PList [])) rs.
Proof.
  intros F. induction F as [|r row rs new St _ IH]; intros RT.
  - exists []. repeat split.
  - destruct IH as (rows & M & S & W).
    { intros r' Hr'. apply RT. right. exact Hr'. }
    destruct (RT r (or_introl eq_refl)) as [Rs Rw].
    destruct (stored_from_texts _ _ St) as [Ds Dw].
    apply Rs in Ds. apply Rw in Dw.
    eexists. simpl. unfold decode_row at 1. rewrite Ds, Dw. simpl.
    rewrite M. simpl. split; [reflexivity|]. simpl. rewrite S, W.
    split; reflexivity.
Qed.

Lemma get_session_results_ok (d : db) (sid : Z) (s : SessionRow.t)
  (rows : list (ResultRow.t pyval)) :
  get_session_results sid d = Ok (s, rows) ->
  int64 sid /\ In s (sessions d) /\ SessionRow.id s = sid /\
  mapM decode_row (select_results sid d) = Ok rows.
Proof.
  unfold get_session_results. intros H.
  bind_inv_as H sid' Esid. apply bind_int_ok in Esid as [-> B].
  bind_inv_as H s' Es. bind_inv_as H rows' Er. injection H as <- <-.
  split; [exact B|].
  destruct (filter (fun x => SessionRow.id x =? sid) (sessions d)) as [|x l] eqn:Fl;
    simpl in Es; [discriminate|]. injection Es as <-.
  assert (I : In x (filter (fun x => SessionRow.id x =? sid) (sessions d))).
  { rewrite Fl. left. reflexivity. }
  apply filter_In in I as [I E]. apply Z.eqb_eq in E. auto.
Qed.

Lemma get_top_candidates_value (d : db) (sid n : Z)
  (rows : list (ResultRow.t pyval)) :
  int64 sid -> int64 n ->
  mapM decode_row (select_results sid d) = Ok rows ->
  get_top_candidates sid n d = Ok (sql_limit n rows).
Proof.
  intros Bs Bn M. unfold get_top_candidates.
  rewrite (bind_int_int64 _ Bs), (bind_int_int64 _ Bn). simpl.
  apply mapM_sql_limit, M.
Qed.

Lemma select_results_complete (d : db) (s : SessionRow.t) :
  session_complete d s ->
  select_results (SessionRow.id s) d = results_of d (SessionRow.id s).
Proof.
  intros [_ M]. unfold select_results. fold (results_of d (SessionRow.id s)).
  eapply sort_by_rank_ranked, M.
Qed.

(** C6.  [save_session] stores the [json.dumps] of the strengths and of the
    weaknesses of each result, the empty list standing for a missing entry.
    Both read methods return these columns decoded by [json.loads], on every
    file.  So, when the codec gives back the values supplied, what
    [get_session_results] and [get_top_candidates] return for the session
    just saved carries the values supplied, in order, and the empty list for
    a result without the entry. *)
Theorem strengths_weaknesses_roundtrip (ops : list op) (now : Z)
  (job_title company : pyval) (rs : list pydict) (sid : Z) (d' : db) :
  save_session now job_title company rs (run ops) = (Ok sid, d') ->
  (forall r, In r rs ->
     roundtrips (dict_get r "strengths" (PList [])) /\
     roundtrips (dict_get r "weaknesses" (PList []))) ->
  Forall2 (fun r row =>
             json_dumps (dict_get r "strengths" (PList []))
               = Ok (ResultRow.strengths row) /\
             json_dumps (dict_get r "weaknesses" (PList []))
               = Ok (ResultRow.weaknesses row))
          rs (results_of d' sid) /\
  (exists s rows,
     get_session_results sid d' = Ok (s, rows) /\
     map ResultRow.strengths rows
       = map (fun r => dict_get r "strengths" (PList [])) rs /\
     map ResultRow.weaknesses rows
       = map (fun r => dict_get r "weaknesses" (PList [])) rs /\
     (forall r, In r rs -> lookup "strengths" r = None ->
                dict_get r "strengths" (PList []) = PList []) /\
     (forall r, In r rs -> lookup "weaknesses" r = None ->
                dict_get r "weaknesses" (PList []) = PList []) /\
     forall n, int64 n -> get_top_candidates sid n d' = Ok (sql_limit n rows)) /\
  (forall d0 sid0 s0 rows0,
     get_session_results sid0 d0 = Ok (s0, rows0) ->
     Forall2 decoded_from (select_results sid0 d0) rows0) /\
  (forall d0 sid0 n0 rows0,
     get_top_candidates sid0 n0 d0 = Ok rows0 ->
     Forall2 decoded_from (sql_limit n0 (select_results sid0 d0)) rows0).
Proof.
  intros H RT. destruct (run_inv ops) as (O & C & _).
  destruct (save_session_cases now job_title company rs (run ops))
    as [(sid1 & d1 & H1 & H2)|(e & H2)]; rewrite H2 in H; [|discriminate].
  injection H as -> ->.
  pose proof (save_session_txn_ok _ _ _ _ _ _ _ H1) as (_ & _ & _ & _ & _ & _ & _ & _ & _ & _ & _ & Fr & B).
  destruct (save_results_of _ _ _ _ _ _ _ O H1)
    as (s & new & S & R & I & T & F & A & M & Rn & _ & N).
  assert (L : List.length new = List.length rs).
  { rewrite <- (length_map ResultRow.rank new), M. apply ranks_from_length. }
  destruct (decode_stored _ _ F RT) as (rows & Dm & Ds & Dw).
  assert (Sel : select_results sid d' = new).
  { unfold select_results. fold (results_of d' sid). rewrite Rn.
    eapply sort_by_rank_ranked. rewrite L. exact M. }
  split; [|split; [|split]].
  - rewrite Rn. clear - F. induction F; constructor;
      [apply stored_from_texts|]; assumption.
  - exists s, rows. split; [|repeat split; try assumption].
    + unfold get_session_results. rewrite (bind_int_int64 _ B). simpl.
      rewrite S, filter_app, (filter_none _ (sessions (run ops))).
      * simpl. rewrite I, Z.eqb_refl. simpl. rewrite Sel, Dm. reflexivity.
      * intros x Hx. apply Z.eqb_neq. apply Fr in Hx. lia.
    + intros r _ Hl. apply dict_get_absent, Hl.
    + intros r _ Hl. apply dict_get_absent, Hl.
    + intros n Bn. apply get_top_candidates_value; try assumption.
      rewrite Sel. exact Dm.
  - intros d0 sid0 s0 rows0 G. apply get_session_results_ok in G as (_ & _ & _ & G).
    apply mapM_decode_rows, G.
  - intros d0 sid0 n0 rows0 G. unfold get_top_candidates in G.
    bind_inv_as G x Ex. apply bind_int_ok in Ex as [-> _].
    bind_inv_as G y Ey. apply bind_int_ok in Ey as [-> _].
    apply mapM_decode_rows, G.
Qed.

End ReadClaims.

Section TopCandidates.

Context {codec : JsonCodec}.

Lemma firstn_ranks_from (m n : nat) (k : Z) :
  firstn m (ranks_from k n) = ranks_from k (Nat.min m n).
Proof.
  revert n k. induction m as [|m IH]; intros [|n] k; simpl; try reflexivity.
  rewrite IH. reflexivity.
Qed.

Lemma sql_limit_cases {A : Type} (n : Z) (l : list A) :
  (n < 0 -> sql_limit n l = l) /\
  (n = 0 -> sql_limit n l = []) /\
  (0 <= n -> sql_limit n l = firstn (Z.to_nat n) l) /\
  (Z.of_nat (List.length l) <= n -> sql_limit n l = l).
Proof.
  unfold sql_limit. repeat split.
  - intros H. destruct (Z.ltb_spec n 0); [reflexivity | lia].
  - intros ->. reflexivity.
  - intros H. destruct (Z.ltb_spec n 0); [lia | reflexivity].
  - intros H. destruct (Z.ltb_spec n 0); [reflexivity|].
    apply firstn_all2. lia.
Qed.

Lemma top_candidates_nondecreasing (d : db) (sid n : Z)
  (rows : list (ResultRow.t pyval)) :
  get_top_candidates sid n d = Ok rows ->
  nondecreasing (map ResultRow.rank rows).
Proof.
  unfold get_top_candidates. intros G.
  bind_inv_as G x Ex. bind_inv_as G y Ey.
  apply mapM_decode_rows, decoded_ranks in G. rewrite G.
  unfold sql_limit, select_results.
  destruct (y <? 0); [|rewrite <- firstn_map; apply nondecreasing_firstn];
    apply sort_by_rank_nondecreasing.
Qed.

(** C7, as amended.  For a session that [get_session_results] returns with
    k results, on the file left by any sequence of calls: the results carry
    the ranks 1..k stored when the session was saved.  For a limit n in the
    range of SQLite integers [get_top_candidates] returns, without raising,
    the first n of them for 0 <= n (all k when n >= k, none when n = 0) and
    all k for a negative n, which SQLite reads as no limit; for a limit
    outside that range it raises [OverflowError].  Nothing is scored again:
    the rows are those of the table, in rank order, and on every file what
    [get_top_candidates] returns is in rank order. *)
Theorem top_candidates_by_rank (ops : list op) (sid n : Z) (s : SessionRow.t)
  (rows : list (ResultRow.t pyval)) :
  get_session_results sid (run ops) = Ok (s, rows) ->
  let d := run ops in
  let k := List.length rows in
  SessionRow.total_candidates s = Z.of_nat k /\
  map ResultRow.rank rows = ranks_from 1 k /\
  Forall2 decoded_from (results_of d sid) rows /\
  (int64 n ->
     get_top_candidates sid n d = Ok (sql_limit n rows) /\
     (0 <= n ->
        sql_limit n rows = firstn (Z.to_nat n) rows /\
        map ResultRow.rank (sql_limit n rows)
          = ranks_from 1 (Nat.min (Z.to_nat n) k)) /\
     (Z.of_nat k <= n -> sql_limit n rows = rows) /\
     (n = 0 -> sql_limit n rows = []) /\
     (n < 0 -> sql_limit n rows = rows)) /\
  (~ int64 n -> get_top_candidates sid n d = Raise OverflowError) /\
  (forall d0 sid0 n0 rows0,
     get_top_candidates sid0 n0 d0 = Ok rows0 ->
     nondecreasing (map ResultRow.rank rows0)).
Proof.
  intros G d k. destruct (run_inv ops) as (O & C & _). fold d in O, C, G.
  apply get_session_results_ok in G as (Bs & Hs & E & M).
  pose proof (C s Hs) as SC. pose proof (select_results_complete d s SC) as Sel.
  destruct SC as [T R]. rewrite E in Sel, T, R.
  rewrite Sel in M.
  pose proof (mapM_length _ _ _ M) as L. fold k in L.
  pose proof (mapM_decode_rows _ _ M) as D.
  pose proof (decoded_ranks _ _ D) as DR.
  destruct (sql_limit_cases n rows) as (C1 & C2 & C3 & C4).
  split; [rewrite T, L; reflexivity|].
  split; [rewrite DR, R, L; reflexivity|].
  split; [exact D|].
  split; [|split].
  - intros Bn.
    split; [apply get_top_candidates_value; try assumption; rewrite Sel; exact M|].
    split.
    { intros Hn. split; [apply C3, Hn|].
      rewrite (C3 Hn), <- firstn_map, DR, R, L. apply firstn_ranks_from. }
    split; [exact C4|]. split; [exact C2 | exact C1].
  - intros NB. unfold get_top_candidates.
    rewrite (bind_int_int64 _ Bs), (bind_int_overflow _ NB). reflexivity.
  - intros d0 sid0 n0 rows0 G0. apply top_candidates_nondecreasing in G0. exact G0.
Qed.

End TopCandidates.

(* ================================================================== *)
(** * The properties at concrete inputs *)

Example fallback_summary_length :
  String.length long_text = 400%nat /\
  String.length (PyStr.take 300 long_text) = 300%nat.
Proof. split; vm_compute; reflexivity. Qed.

(** The fallback is also what a failed request and a JSON array give. *)
Example fallback_other_causes :
  parse_resume_with_ai (codec := mini_json) "text" "cv.pdf" (agent_with (Raise APIError))
    = resume_fallback "text" "cv.pdf" /\
  parse_resume_with_ai (codec := mini_json) "text" "cv.pdf" (agent_with (Ok None))
    = resume_fallback "text" "cv.pdf" /\
  parse_resume_with_ai (codec := mini_json) "text" "cv.pdf" (agent_replying "[1, 2]")
    = resume_fallback "text" "cv.pdf".
Proof. repeat split; vm_compute; reflexivity. Qed.

(** C8 fails as stated: with the empty object for a response, the
    absent name is not the empty string, nor are the absent title and
    company, and the absent description is the whole text, 400 characters
    here, where the absent summary is cut at 300. *)
Lemma absent_fields_counterexample :
  let agent := agent_replying "{}" in
  let r := parse_resume_with_ai (codec := mini_json) long_text "cv.pdf" agent in
  let j := parse_job_description_with_ai (codec := mini_json) long_text agent in
  json_loads (JsonCodec := mini_json) "{}" = Ok (PDict []) /\
  Resume.name r = PStr "Candidate" /\
  Resume.name r <> PStr EmptyString /\
  JobDescription.title j = PStr "Position" /\
  JobDescription.title j <> PStr EmptyString /\
  JobDescription.company j = PStr "Company" /\
  JobDescription.company j <> PStr EmptyString /\
  JobDescription.description j = PStr long_text /\
  String.length long_text = 400%nat /\
  Resume.summary r = PStr (PyStr.take 300 long_text) /\
  Resume.summary r <> PStr long_text.
Proof.
  vm_compute. repeat split; discriminate.
Qed.

Lemma absent_fields_get_defaults_witness :
  let agent := agent_replying ("{" ++ kv "name" "Ann" ++ "}") in
  let d := [("name", PStr "Ann")] in
  let r := parse_resume_with_ai (codec := mini_json) long_text "cv.pdf" agent in
  let j := parse_job_description_with_ai (codec := mini_json) long_text agent in
  ask (codec := mini_json) agent resume_system (resume_prompt long_text) 1500 = Ok (PDict d) /\
  ask (codec := mini_json) agent job_system (job_prompt long_text) 2000 = Ok (PDict d) /\
  Resume.email r = PStr EmptyString /\
  Resume.skills r = PList [] /\
  Resume.summary r = PStr (PyStr.take 300 long_text) /\
  JobDescription.title j = PStr "Position" /\
  JobDescription.company j = PStr "Company" /\
  JobDescription.experience_years j = 0 /\
  JobDescription.description j = PStr long_text.
Proof.
  intros agent d r j.
  assert (Hr : ask (codec := mini_json) agent resume_system (resume_prompt long_text) 1500
               = Ok (PDict d)) by (vm_compute; reflexivity).
  assert (Hj : ask (codec := mini_json) agent job_system (job_prompt long_text) 2000
               = Ok (PDict d)) by (vm_compute; reflexivity).
  split; [exact Hr|]. split; [exact Hj|].
  destruct (absent_fields_get_defaults (codec := mini_json) long_text "cv.pdf" agent
              d d Hr Hj)
    as (_ & He & _ & Hs & _ & _ & Hy & Ht & Hc & _ & _ & Hx & _ & _ & Hd).
  exact (conj (He eq_refl) (conj (Hs eq_refl) (conj (Hy eq_refl)
           (conj (Ht eq_refl) (conj (Hc eq_refl) (conj (Hx eq_refl) (Hd eq_refl))))))).
Defined.

(** C9 fails as stated: two distinct filenames, both possible results of
    the sanitizer, with the same id. *)
Lemma candidate_id_counterexample :
  let agent := agent_replying "{}" in
  "a.b.pdf" <> "a_b.pdf" /\
  Resume.id (parse_resume_with_ai (codec := mini_json) "one" "a.b.pdf" agent) = "a_b_pdf" /\
  Resume.id (parse_resume_with_ai (codec := mini_json) "two" "a_b.pdf" agent) = "a_b_pdf" /\
  Resume.id (resume_fallback "one" "a.b.pdf") = Resume.id (resume_fallback "two" "a_b.pdf").
Proof.
  vm_compute. repeat split; discriminate.
Qed.

Lemma candidate_id_of_filename_witness :
  let good := agent_replying "{}" in
  let bad := agent_with (Raise APIError) in
  let id1 := Resume.id (parse_resume_with_ai (codec := mini_json) "one" "ann.pdf" good) in
  let id2 := Resume.id (parse_resume_with_ai (codec := mini_json) "two" "bob.pdf" bad) in
  has_char "_" "ann.pdf" = false /\ has_char "_" "bob.pdf" = false /\
  "ann.pdf" <> "bob.pdf" /\
  id1 = "ann_pdf" /\ id1 <> id2.
Proof.
  intros good bad id1 id2.
  assert (N : "ann.pdf" <> "bob.pdf") by discriminate.
  destruct (candidate_id_of_filename (codec := mini_json)
              "one" "two" "ann.pdf" "bob.pdf" good bad) as (E & _ & _ & _ & I).
  exact (conj eq_refl (conj eq_refl (conj N (conj E (I eq_refl eq_refl N))))).
Defined.

(** The sample file: two sessions, the first one hidden. *)
Example sample_file :
  map SessionRow.id (sessions (run (codec := mini_json) sample_ops)) = [1; 2] /\
  map SessionRow.is_hidden (sessions (run (codec := mini_json) sample_ops)) = [1; 0] /\
  map ResultRow.session_id (results (run (codec := mini_json) sample_ops)) = [1; 1; 2] /\
  map ResultRow.rank (results (run (codec := mini_json) sample_ops)) = [1; 2; 1] /\
  map ResultRow.strengths (results (run (codec := mini_json) sample_ops))
    = [("[" ++ q "python" ++ ", " ++ q "sql" ++ "]")%string; "[]"; "[]"].
Proof. repeat split; vm_compute; reflexivity. Qed.

(** A save that commits and a save that raises at its second row. *)
Example save_session_outcomes :
  let d := run (codec := mini_json) sample_ops in
  fst (save_session (codec := mini_json) 300 (PStr "Designer") PNone [ann; bob] d) = Ok 3 /\
  save_session (codec := mini_json) 300 (PStr "Designer") PNone [ann; nameless] d
    = (Raise IntegrityError, d) /\
  save_session (codec := mini_json) 300 PNone PNone [ann] d = (Raise IntegrityError, d).
Proof. repeat split; vm_compute; reflexivity. Qed.

Lemma save_session_all_or_nothing_witness :
  let d := run (codec := mini_json) sample_ops in
  let out := save_session (codec := mini_json) 300 (PStr "Designer") PNone [ann; bob] d in
  fst out = Ok 3 /\
  binds_not_null (PStr "Designer") /\ binds PNone /\
  Forall (storable (codec := mini_json)) [ann; bob] /\ room d 2 /\
  (exists sid d', out = (Ok sid, d')) /\
  (exists s new,
     sessions (snd out) = sessions d ++ [s] /\
     results (snd out) = results d ++ new /\
     SessionRow.id s = 3 /\
     SessionRow.total_candidates s = 2 /\
     List.length new = 2%nat /\
     map ResultRow.rank new = [1; 2] /\
     Forall (fun row => ResultRow.session_id row = 3) new /\
     Forall2 (stored_from (codec := mini_json)) [ann; bob] new /\
     results_of (snd out) 3 = new) /\
  (forall s, In s (sessions d) ->
     Z.of_nat (List.length (results_of d (SessionRow.id s)))
       = SessionRow.total_candidates s /\
     map ResultRow.rank (results_of d (SessionRow.id s))
       = ranks_from 1 (Z.to_nat (SessionRow.total_candidates s))).
Proof.
  intros d out.
  pose proof (save_session_all_or_nothing (codec := mini_json) sample_ops 300
                (PStr "Designer") PNone [ann; bob]) as (H1 & P & H2).
  assert (Bt : binds_not_null (PStr "Designer")).
  { eexists. split; [reflexivity | discriminate]. }
  assert (Bc : binds PNone) by (eexists; reflexivity).
  assert (St : Forall (storable (codec := mini_json)) [ann; bob]).
  { repeat constructor; try (eexists; vm_compute; reflexivity);
      eexists; (split; [vm_compute; reflexivity | discriminate]). }
  assert (Rm : room d 2) by (split; vm_compute; (reflexivity || discriminate)).
  split; [vm_compute; reflexivity|].
  exact (conj Bt (conj Bc (conj St (conj Rm (conj (P Bt Bc St Rm) (conj H1 H2)))))).
Defined.

Lemma no_orphan_results_witness :
  let d := run (codec := mini_json) sample_ops in
  let saved := save_session (codec := mini_json) 300 (PStr "Designer") PNone [ann; bob] d in
  let deleted := delete_session 1 d in
  no_orphans d /\
  saved = (Ok 3, snd saved) /\
  has_session (snd saved) 3 /\
  deleted = (Ok tt, snd deleted) /\
  ~ has_session (snd deleted) 1 /\
  results_of (snd deleted) 1 = [] /\
  no_orphans (snd deleted) /\
  sessions (snd (clear_all_history d)) = [] /\
  results (snd (clear_all_history d)) = [].
Proof.
  intros d saved deleted.
  destruct (no_orphan_results (codec := mini_json) sample_ops) as (O & S & D & C).
  assert (Es : saved = (Ok 3, snd saved)) by (vm_compute; reflexivity).
  assert (Ed : deleted = (Ok tt, snd deleted)) by (vm_compute; reflexivity).
  destruct (S _ _ _ _ _ _ Es) as [S1 _].
  destruct (D _ _ Ed) as (D1 & D2 & D3).
  assert (C1 := f_equal (fun x => sessions (snd x)) C).
  assert (C2 := f_equal (fun x => results (snd x)) C).
  exact (conj O (conj Es (conj S1 (conj Ed (conj D1 (conj D2 (conj D3 (conj C1 C2)))))))).
Defined.




Example listings :
  let d := run (codec := mini_json) sample_ops in
  map SessionRow.id (get_all_sessions false d) = [2] /\
  map SessionRow.id (get_all_sessions true d) = [2; 1] /\
  map SessionRow.id (get_all_sessions false (snd (unhide_session 1 d))) = [2; 1] /\
  get_all_sessions true (snd (clear_all_history d)) = [].
Proof. repeat split; vm_compute; reflexivity. Qed.

Lemma strengths_weaknesses_roundtrip_witness :
  let d := run (codec := mini_json) sample_ops in
  let out := save_session (codec := mini_json) 300 (PStr "Designer") PNone [ann; bob] d in
  out = (Ok 3, snd out) /\
  (forall r, In r [ann; bob] ->
     roundtrips (codec := mini_json) (dict_get r "strengths" (PList [])) /\
     roundtrips (codec := mini_json) (dict_get r "weaknesses" (PList []))) /\
  exists s rows,
    get_session_results (codec := mini_json) 3 (snd out) = Ok (s, rows) /\
    map ResultRow.strengths rows = [PList [PStr "python"; PStr "sql"]; PList []] /\
    map ResultRow.weaknesses rows = [PList []; PList [PStr "no sql"]] /\
    get_top_candidates (codec := mini_json) 3 1 (snd out) = Ok (sql_limit 1 rows).
Proof.
  intros d out.
  assert (E : out = (Ok 3, snd out)) by (vm_compute; reflexivity).
  assert (RT : forall r, In r [ann; bob] ->
     roundtrips (codec := mini_json) (dict_get r "strengths" (PList [])) /\
     roundtrips (codec := mini_json) (dict_get r "weaknesses" (PList []))).
  { intros r [<-|[<-|[]]]; split; apply mini_json_roundtrips_strings.
    - exists ["python"; "sql"]. reflexivity.
    - exists []. reflexivity.
    - exists []. reflexivity.
    - exists ["no sql"]. reflexivity. }
  split; [exact E|]. split; [exact RT|].
  destruct (strengths_weaknesses_roundtrip (codec := mini_json) sample_ops 300
              (PStr "Designer") PNone [ann; bob] 3 (snd out) E RT)
    as (_ & (s & rows & G & S & W & _ & _ & T) & _).
  exists s, rows. exact (conj G (conj S (conj W (T 1 eq_refl)))).
Defined.

(** C7 fails as stated: session 1 has two results, and a limit that
    exceeds them on which [get_top_candidates] raises. *)
Lemma top_candidates_counterexample :
  let d := run (codec := mini_json) sample_ops in
  List.length (results_of d 1) = 2%nat /\
  2 < 2 ^ 63 /\
  get_top_candidates (codec := mini_json) 1 (2 ^ 63) d = Raise OverflowError.
Proof. repeat split; vm_compute; reflexivity. Qed.

Lemma top_candidates_by_rank_witness :
  let d := run (codec := mini_json) sample_ops in
  int64 1 /\
  exists s rows,
    get_session_results (codec := mini_json) 1 d = Ok (s, rows) /\
    SessionRow.total_candidates s = 2 /\
    map ResultRow.rank rows = [1; 2] /\
    get_top_candidates (codec := mini_json) 1 1 d = Ok (sql_limit 1 rows) /\
    map ResultRow.rank (sql_limit 1 rows) = [1].
Proof.
  intros d.
  assert (B : int64 1) by reflexivity.
  split; [exact B|].
  destruct (get_session_results (codec := mini_json) 1 d) as [[s rows]|e] eqn:G;
    [|vm_compute in G; discriminate G].
  exists s, rows. split; [reflexivity|].
  destruct (top_candidates_by_rank (codec := mini_json) sample_ops 1 1 s rows G)
    as (T & R & _ & In & _).
  destruct (In B) as (Top & F & _).
  assert (L : List.length rows = 2%nat).
  { vm_compute in G. injection G as _ <-. reflexivity. }
  rewrite L in T, R. destruct (F ltac:(lia)) as [_ F2]. rewrite L in F2.
  exact (conj T (conj R (conj Top F2))).
Defined.

Example top_candidates_limits :
  let d := run (codec := mini_json) sample_ops in
  let ranks n :=
    match get_top_candidates (codec := mini_json) 1 n d with
    | Ok rows => Some (map ResultRow.rank rows)
    | Raise _ => None
    end in
  ranks 1 = Some [1] /\ ranks 2 = Some [1; 2] /\ ranks 5 = Some [1; 2] /\
  ranks 0 = Some [] /\ ranks (-1) = Some [1; 2] /\
  ranks (2 ^ 63) = None.
Proof. repeat split; vm_compute; reflexivity. Qed.

(* ================================================================== *)
(** * Further properties of the session store *)

Section IdsNeverReused.

Context {codec : JsonCodec}.

Lemma insert_result_seq (sid rk : Z) (r : pydict) (d d' : db) (u : unit) :
  insert_result sid rk r d = Ok (u, d') -> seq_sessions d' = seq_sessions d.
Proof.
  unfold insert_result. intros H.
  bind_inv_as H mk Emk. bind_inv_as H id Eid. injection H as _ <-. reflexivity.
Qed.

Lemma insert_results_seq (sid : Z) (rs : list pydict) :
  forall (rk : Z) (d d' : db) (u : unit),
    insert_results sid rk rs d = Ok (u, d') -> seq_sessions d' = seq_sessions d.
Proof.
  induction rs as [|r rs IH]; intros rk d d' u H; simpl in H.
  - injection H as _ <-. reflexivity.
  - bind_inv_as H p E. destruct p as [u1 d1].
    apply insert_result_seq in E. apply IH in H. congruence.
Qed.

Lemma insert_session_seq (now : Z) (jt co : pyval) (n : Z) (d d' : db) (id : Z) :
  insert_session now jt co n d = Ok (id, d') ->
  seq_sessions d' = id /\ seq_sessions d < id.
Proof.
  unfold insert_session. intros H.
  bind_inv_as H a Ea. bind_inv_as H b Eb. bind_inv_as H c Ec.
  bind_inv_as H a' Ea'. bind_inv_as H i Ei. injection H as <- <-.
  apply next_rowid_ok in Ei as (L & _). simpl. split; [reflexivity | exact L].
Qed.

Lemma save_session_seq (now : Z) (jt co : pyval) (rs : list pydict)
  (d d' : db) (sid : Z) :
  save_session_txn now jt co rs d = Ok (sid, d') ->
  seq_sessions d' = sid /\ seq_sessions d < sid.
Proof.
  unfold save_session_txn. intros H.
  bind_inv_as H p E. destruct p as [sid1 d1].
  bind_inv_as H p' E'. destruct p' as [u d2]. injection H as <- <-.
  apply insert_session_seq in E as [E1 E2]. apply insert_results_seq in E'.
  split; congruence.
Qed.

Lemma sorted_snoc (l : list Z) (x : Z) :
  StronglySorted Z.lt l -> (forall y, In y l -> y < x) ->
  StronglySorted Z.lt (l ++ [x]).
Proof.
  induction l as [|a l IH]; intros S H; simpl.
  - constructor; constructor.
  - inversion S as [|? ? S' F]; subst. constructor.
    + apply IH; [exact S' | intros y Hy; apply H; right; exact Hy].
    + apply Forall_app. split; [exact F|]. constructor; [|constructor].
      apply H. left. reflexivity.
Qed.

Lemma sorted_filter (f : SessionRow.t -> bool) (l : list SessionRow.t) :
  StronglySorted Z.lt (map SessionRow.id l) ->
  StronglySorted Z.lt (map SessionRow.id (filter f l)).
Proof.
  induction l as [|a l IH]; intros S; simpl; [constructor|].
  simpl in S. inversion S as [|? ? S' F]; subst.
  destruct (f a); simpl; [|apply IH, S'].
  constructor; [apply IH, S'|].
  rewrite Forall_forall in *. intros y Hy. apply F.
  apply in_map_iff in Hy as (s & <- & Hs). apply filter_In in Hs as [Hs _].
  apply in_map, Hs.
Qed.

Lemma map_id_set_hidden (flag sid : Z) (l : list SessionRow.t) :
  map SessionRow.id (map (set_hidden flag sid) l) = map SessionRow.id l.
Proof.
  rewrite map_map. apply map_ext. intros s. apply set_hidden_id.
Qed.

Lemma step_ids (d : db) (o : op) :
  ids_ascending d ->
  ids_ascending (step d o) /\ seq_sessions d <= seq_sessions (step d o).
Proof.
  intros [S B]. destruct o as [now jt co rs|sid|sid|sid|]; simpl.
  - destruct (save_session_cases now jt co rs d)
      as [(sid & d' & H & ->)|(e & ->)]; simpl; [|split; [split; assumption | lia]].
    destruct (save_session_seq _ _ _ _ _ _ _ H) as [Q L].
    destruct (save_session_txn_ok _ _ _ _ _ _ _ H)
      as (s & new & Ss & _ & I & _ & _ & _ & _ & _ & _ & Fr & _).
    split; [split|lia].
    + rewrite Ss, map_app. simpl. rewrite I. apply sorted_snoc; [exact S|].
      intros y Hy. apply in_map_iff in Hy as (s' & <- & Hs'). apply Fr, Hs'.
    + intros s' Hs'. rewrite Ss in Hs'. rewrite Q.
      apply in_app_or in Hs' as [Hs'|[<-|[]]]; [|lia].
      specialize (Fr s' Hs'). lia.
  - destruct (update_hidden_cases 1 sid d) as [[_ E]|[_ E]];
      unfold hide_session; rewrite E; simpl; [|split; [split; assumption | lia]].
    split; [split|lia]; simpl.
    + rewrite map_id_set_hidden. exact S.
    + intros s Hs. apply in_map_iff in Hs as (s0 & <- & Hs0).
      rewrite set_hidden_id. apply B, Hs0.
  - destruct (update_hidden_cases 0 sid d) as [[_ E]|[_ E]];
      unfold unhide_session; rewrite E; simpl; [|split; [split; assumption | lia]].
    split; [split|lia]; simpl.
    + rewrite map_id_set_hidden. exact S.
    + intros s Hs. apply in_map_iff in Hs as (s0 & <- & Hs0).
      rewrite set_hidden_id. apply B, Hs0.
  - destruct (delete_session_cases sid d) as [[_ E]|[_ E]]; rewrite E; simpl;
      [|split; [split; assumption | lia]].
    split; [split|lia]; simpl.
    + apply sorted_filter, S.
    + intros s Hs. apply filter_In in Hs as [Hs _]. apply B, Hs.
  - split; [split|lia]; simpl; [constructor | intros s []].
Qed.

Lemma fold_step_ids (ops : list op) (d : db) :
  ids_ascending d ->
  ids_ascending (fold_left step ops d) /\
  seq_sessions d <= seq_sessions (fold_left step ops d).
Proof.
  revert d. induction ops as [|o ops IH]; intros d H; simpl; [split; [exact H | lia]|].
  destruct (step_ids d o H) as [H1 L1]. destruct (IH _ H1) as [H2 L2].
  split; [exact H2 | lia].
Qed.

Lemma init_ids : ids_ascending init_database.
Proof. split; simpl; [constructor | intros s []]. Qed.

(** X1.  The ids that [save_session] returns are never reused.  On the file
    left by any sequence of calls the session ids grow strictly along the
    table, so no two rows share one; and an id that was in the table at
    some point is smaller than every id a later [save_session] returns,
    whatever was hidden, deleted or cleared in between. *)
Theorem session_ids_never_reused (ops1 ops2 : list op) :
  StronglySorted Z.lt (map SessionRow.id (sessions (run ops1))) /\
  NoDup (map SessionRow.id (sessions (run ops1))) /\
  (forall s now job_title company rs sid d',
     In s (sessions (run ops1)) ->
     save_session now job_title company rs (run (ops1 ++ ops2)) = (Ok sid, d') ->
     SessionRow.id s < sid).
Proof.
  destruct (fold_step_ids ops1 init_database init_ids) as [[S B] _].
  fold (run ops1) in S, B.
  split; [exact S|]. split.
  - clear B. induction S as [|a l S IH F]; constructor; [|exact IH].
    intros Ha. rewrite Forall_forall in F. specialize (F a Ha). lia.
  - intros s now jt co rs sid d' Hs H.
    destruct (fold_step_ids ops2 (run ops1) (conj S B)) as [_ L].
    assert (R : fold_left step ops2 (run ops1) = run (ops1 ++ ops2)).
    { unfold run. rewrite fold_left_app. reflexivity. }
    rewrite R in L.
    destruct (save_session_cases now jt co rs (run (ops1 ++ ops2)))
      as [(sid1 & d1 & H1 & H2)|(e & H2)]; rewrite H2 in H; [|discriminate].
    injection H as -> ->.
    apply save_session_seq in H1 as [_ Lt]. specialize (B s Hs). lia.
Qed.

End IdsNeverReused.

Section Listing.

Lemma insert_by_perm {A : Type} (le : A -> A -> bool) (x : A) (l : list A) :
  Permutation (insert_by le x l) (x :: l).
Proof.
  induction l as [|y l IH]; simpl; [reflexivity|].
  destruct (le x y); [reflexivity|].
  rewrite IH. apply perm_swap.
Qed.

Lemma sort_by_perm {A : Type} (le : A -> A -> bool) (l : list A) :
  Permutation (sort_by le l) l.
Proof.
  induction l as [|x l IH]; simpl; [reflexivity|].
  rewrite insert_by_perm, IH. reflexivity.
Qed.

Lemma insert_newer_first (x : SessionRow.t) (l : list SessionRow.t) :
  StronglySorted newer_first l ->
  StronglySorted newer_first (insert_by by_timestamp_desc x l).
Proof.
  induction l as [|y l IH]; intros S; simpl.
  - constructor; constructor.
  - inversion S as [|? ? S' F]; subst. unfold by_timestamp_desc at 1.
    destruct (Z.leb_spec (SessionRow.timestamp y) (SessionRow.timestamp x)) as [L|L].
    + constructor; [exact S|]. constructor; [exact L|].
      rewrite Forall_forall in *. intros z Hz. specialize (F z Hz).
      unfold newer_first in *. lia.
    + constructor; [apply IH, S'|].
      rewrite Forall_forall in *. intros z Hz.
      apply insert_by_In in Hz as [->|Hz]; [unfold newer_first; lia | apply F, Hz].
Qed.

Lemma sort_newer_first (l : list SessionRow.t) :
  StronglySorted newer_first (sort_by by_timestamp_desc l).
Proof.
  induction l as [|x l IH]; simpl; [constructor | apply insert_newer_first, IH].
Qed.

(** X2.  [get_all_sessions] lists each session row of the file once, the
    hidden ones only when asked for, the most recent first: no row of the
    listing is older than a row after it. *)
Theorem listing_most_recent_first (d : db) (include_hidden : bool) :
  Permutation (get_all_sessions include_hidden d)
    (if include_hidden then sessions d else filter visible (sessions d)) /\
  StronglySorted newer_first (get_all_sessions include_hidden d) /\
  (forall s, In s (get_all_sessions false d) -> SessionRow.is_hidden s = 0).
Proof.
  unfold get_all_sessions. split; [|split].
  - destruct include_hidden; apply sort_by_perm.
  - destruct include_hidden; apply sort_newer_first.
  - intros s Hs. apply sort_by_In, filter_In in Hs as [_ H].
    apply Z.eqb_eq, H.
Qed.

End Listing.

Section Frame.

Context {codec : JsonCodec}.

(** What the two readers return for a session depends on the rows of that
    session only. *)
Lemma readers_ext (d1 d2 : db) (sid : Z) :
  filter (fun s => SessionRow.id s =? sid) (sessions d1)
    = filter (fun s => SessionRow.id s =? sid) (sessions d2) ->
  results_of d1 sid = results_of d2 sid ->
  get_session_results sid d1 = get_session_results sid d2 /\
  forall n, get_top_candidates sid n d1 = get_top_candidates sid n d2.
Proof.
  intros Hs Hr.
  assert (Sel : select_results sid d1 = select_results sid d2).
  { unfold select_results. fold (results_of d1 sid) (results_of d2 sid).
    rewrite Hr. reflexivity. }
  split.
  - unfold get_session_results. destruct (bind_int sid) as [x|e] eqn:E; [|reflexivity].
    apply bind_int_ok in E as [-> _]. simpl. rewrite Hs, Sel. reflexivity.
  - intros n. unfold get_top_candidates.
    destruct (bind_int sid) as [x|e] eqn:E; [|reflexivity].
    apply bind_int_ok in E as [-> _]. simpl. rewrite Sel. reflexivity.
Qed.

Lemma filter_set_hidden_other (flag a b : Z) (l : list SessionRow.t) :
  a <> b ->
  filter (fun s => SessionRow.id s =? b) (map (set_hidden flag a) l)
  = filter (fun s => SessionRow.id s =? b) l.
Proof.
  intros N. induction l as [|s l IH]; simpl; [reflexivity|].
  rewrite set_hidden_id, IH.
  destruct (Z.eqb_spec (SessionRow.id s) b) as [E|E]; [|reflexivity].
  f_equal. unfold set_hidden.
  destruct (Z.eqb_spec (SessionRow.id s) a); [congruence | reflexivity].
Qed.

Lemma filter_filter_other_session (a b : Z) (l : list SessionRow.t) :
  a <> b ->
  filter (fun s => SessionRow.id s =? b)
    (filter (fun s => negb (SessionRow.id s =? a)) l)
  = filter (fun s => SessionRow.id s =? b) l.
Proof.
  intros N. induction l as [|s l IH]; simpl; [reflexivity|].
  destruct (Z.eqb_spec (SessionRow.id s) a) as [E|E]; simpl.
  - destruct (Z.eqb_spec (SessionRow.id s) b); [congruence | exact IH].
  - rewrite IH. reflexivity.
Qed.

Lemma hide_other (flag a b : Z) (d : db) :
  a <> b ->
  let d' := snd (commit (update_hidden flag a) d) in
  get_session_results b d' = get_session_results b d /\
  forall n, get_top_candidates b n d' = get_top_candidates b n d.
Proof.
  intros N d'. subst d'.
  destruct (update_hidden_cases flag a d) as [[_ E]|[_ E]]; rewrite E; simpl;
    [|split; reflexivity].
  apply readers_ext; simpl; [apply filter_set_hidden_other, N | reflexivity].
Qed.

Lemma delete_other (a b : Z) (d : db) :
  a <> b ->
  let d' := snd (delete_session a d) in
  get_session_results b d' = get_session_results b d /\
  forall n, get_top_candidates b n d' = get_top_candidates b n d.
Proof.
  intros N d'. subst d'.
  destruct (delete_session_cases a d) as [[_ E]|[_ E]]; rewrite E; simpl;
    [|split; reflexivity].
  apply readers_ext; simpl.
  - apply filter_filter_other_session, N.
  - unfold results_of. simpl. apply filter_filter_other. congruence.
Qed.

(** X3.  Hiding, unhiding or deleting one session, and saving a new one,
    leave every other session as it is: what [get_session_results] and
    [get_top_candidates] return for another session of the file is the
    same before and after. *)
Theorem other_sessions_untouched (ops : list op) (a b n : Z) :
  let d := run ops in
  (a <> b ->
   (get_session_results b (step d (Hide a)) = get_session_results b d /\
    get_top_candidates b n (step d (Hide a)) = get_top_candidates b n d) /\
   (get_session_results b (step d (Unhide a)) = get_session_results b d /\
    get_top_candidates b n (step d (Unhide a)) = get_top_candidates b n d) /\
   (get_session_results b (step d (Delete a)) = get_session_results b d /\
    get_top_candidates b n (step d (Delete a)) = get_top_candidates b n d)) /\
  (has_session d b ->
   forall now job_title company rs,
     let d' := step d (Save now job_title company rs) in
     get_session_results b d' = get_session_results b d /\
     get_top_candidates b n d' = get_top_candidates b n d).
Proof.
  intros d. split.
  - intros N.
    destruct (hide_other 1 a b d N) as [H1 H2].
    destruct (hide_other 0 a b d N) as [U1 U2].
    destruct (delete_other a b d N) as [D1 D2].
    repeat split; auto.
  - intros Hb now jt co rs d'. subst d'. simpl.
    destruct (run_inv ops) as (O & _ & _). fold d in O.
    destruct (save_session_cases now jt co rs d)
      as [(sid & d1 & H & ->)|(e & ->)]; simpl; [|split; reflexivity].
    destruct (save_results_of _ _ _ _ _ _ _ O H)
      as (s & new & S & R & I & _ & _ & _ & _ & _ & Ro & N & _).
    assert (Nb : b <> sid) by (intros ->; exact (N Hb)).
    destruct (readers_ext d1 d b) as [G T]; [| apply Ro, Nb | split; [exact G | apply T]].
    rewrite S, filter_app. simpl. rewrite I.
    destruct (Z.eqb_spec sid b); [congruence | apply app_nil_r].
Qed.

Lemma filter_map_set_hidden (flag a : Z) (l : list SessionRow.t) :
  filter (fun s => SessionRow.id s =? a) (map (set_hidden flag a) l)
  = map (set_hidden flag a) (filter (fun s => SessionRow.id s =? a) l).
Proof.
  induction l as [|s l IH]; simpl; [reflexivity|].
  rewrite set_hidden_id, IH. destruct (SessionRow.id s =? a); reflexivity.
Qed.

Lemma update_hidden_readable (d : db) (sid n : Z) (flag : Z) :
  let d' := snd (commit (update_hidden flag sid) d) in
  get_session_results sid d' =
    match get_session_results sid d with
    | Ok (s, rows) => Ok (set_hidden flag sid s, rows)
    | Raise e => Raise e
    end /\
  get_top_candidates sid n d' = get_top_candidates sid n d /\
  results d' = results d.
Proof.
  intros d'. subst d'.
  destruct (update_hidden_cases flag sid d) as [[B E]|[NB E]]; rewrite E; simpl.
  - split; [|split; reflexivity].
    unfold get_session_results. rewrite (bind_int_int64 _ B). simpl.
    rewrite filter_map_set_hidden.
    destruct (filter (fun s => SessionRow.id s =? sid) (sessions d)) as [|s l];
      simpl; [reflexivity|].
    unfold select_results. simpl.
    destruct (mapM decode_row _); reflexivity.
  - split; [|split; reflexivity].
    rewrite (get_session_results_overflow d sid NB). reflexivity.
Qed.

(** X4.  Hiding does not delete.  After [hide_session] the session is
    still returned by [get_session_results], with the same results and the
    flag set, and [get_top_candidates] returns what it returned before;
    [unhide_session] likewise, with the flag cleared.  Neither touches the
    table of the results. *)
Theorem hidden_session_still_readable (d : db) (sid n : Z) :
  let h := snd (hide_session sid d) in
  let u := snd (unhide_session sid d) in
  get_session_results sid h =
    match get_session_results sid d with
    | Ok (s, rows) => Ok (set_hidden 1 sid s, rows)
    | Raise e => Raise e
    end /\
  get_session_results sid u =
    match get_session_results sid d with
    | Ok (s, rows) => Ok (set_hidden 0 sid s, rows)
    | Raise e => Raise e
    end /\
  get_top_candidates sid n h = get_top_candidates sid n d /\
  get_top_candidates sid n u = get_top_candidates sid n d /\
  results h = results d /\
  results u = results d.
Proof.
  intros h u. subst h u. unfold hide_session, unhide_session.
  destruct (update_hidden_readable d sid n 1) as (H1 & H2 & H3).
  destruct (update_hidden_readable d sid n 0) as (U1 & U2 & U3).
  repeat split; assumption.
Qed.

Lemma set_hidden_undo (f g a : Z) (s : SessionRow.t) :
  (SessionRow.id s = a -> SessionRow.is_hidden s = g) ->
  set_hidden g a (set_hidden f a s) = s.
Proof.
  intros H. unfold set_hidden.
  destruct (Z.eqb_spec (SessionRow.id s) a) as [E|E]; simpl.
  - rewrite E, Z.eqb_refl. rewrite <- (H E), <- E. destruct s; reflexivity.
  - destruct (Z.eqb_spec (SessionRow.id s) a); [contradiction | reflexivity].
Qed.

(** X5.  Hiding and unhiding undo each other: [unhide_session] after
    [hide_session] gives back the file exactly when the session was visible,
    and [hide_session] after [unhide_session] when it was hidden. *)
Theorem hide_unhide_round_trip (d : db) (sid : Z) :
  ((forall s, In s (sessions d) -> SessionRow.id s = sid ->
              SessionRow.is_hidden s = 0) ->
   snd (unhide_session sid (snd (hide_session sid d))) = d) /\
  ((forall s, In s (sessions d) -> SessionRow.id s = sid ->
              SessionRow.is_hidden s = 1) ->
   snd (hide_session sid (snd (unhide_session sid d))) = d).
Proof.
  assert (K : forall f g,
    (forall s, In s (sessions d) -> SessionRow.id s = sid ->
               SessionRow.is_hidden s = g) ->
    snd (commit (update_hidden g sid)
           (snd (commit (update_hidden f sid) d))) = d).
  { intros f g H.
    destruct (update_hidden_cases f sid d) as [[B E]|[NB E]]; rewrite E; simpl.
    - rewrite (update_hidden_value g sid _ B). simpl.
      destruct d as [ss rs q1 q2]. simpl in *. f_equal.
      rewrite map_map. rewrite <- (map_id ss) at 2. apply map_ext_in.
      intros s Hs. apply set_hidden_undo. apply H, Hs.
    - destruct (update_hidden_cases g sid d) as [[B _]|[_ E']];
        [contradiction | rewrite E'; reflexivity]. }
  split; intros H; [apply (K 1 0 H) | apply (K 0 1 H)].
Qed.

End Frame.

Section MoreStore.

Context {codec : JsonCodec}.

Lemma int64_dec (z : Z) : {int64 z} + {~ int64 z}.
Proof.
  unfold int64. destruct (int64b z); [left; reflexivity | right; discriminate].
Qed.

Lemma get_top_candidates_none (d : db) (sid n : Z) :
  int64 sid -> int64 n -> results_of d sid = [] ->
  get_top_candidates sid n d = Ok [].
Proof.
  intros B Bn R. unfold get_top_candidates.
  rewrite (bind_int_int64 _ B), (bind_int_int64 _ Bn). simpl.
  unfold select_results. fold (results_of d sid). rewrite R. simpl.
  unfold sql_limit. destruct (n <? 0); [reflexivity|].
  rewrite firstn_nil. reflexivity.
Qed.

(** X6.  [get_top_candidates] does not look for the session row: for a
    session that has none, because it was never created or because it was
    deleted, it returns the empty list where [get_session_results] raises;
    outside the range of SQLite's integers both raise [OverflowError]. *)
Theorem top_candidates_of_unknown_session (ops : list op) (sid n : Z) :
  let d := run ops in
  (int64 sid -> int64 n -> ~ has_session d sid ->
   get_top_candidates sid n d = Ok [] /\
   get_session_results sid d = Raise TypeError) /\
  (int64 sid -> int64 n ->
   get_top_candidates sid n (step d (Delete sid)) = Ok [] /\
   get_session_results sid (step d (Delete sid)) = Raise TypeError) /\
  (~ int64 sid \/ ~ int64 n -> raises (get_top_candidates sid n d)).
Proof.
  intros d. destruct (run_inv ops) as (O & _ & _). fold d in O.
  split; [|split].
  - intros B Bn N. split.
    + apply get_top_candidates_none; auto. apply results_of_no_session; auto.
    + apply get_session_results_unknown; auto.
  - intros B Bn. simpl.
    destruct (delete_session_removes d sid B) as (_ & N & R). split.
    + apply get_top_candidates_none; auto.
    + apply get_session_results_unknown; auto.
  - intros H. unfold get_top_candidates, raises.
    destruct (int64_dec sid) as [B|NB].
    + destruct H as [H|H]; [contradiction|].
      rewrite (bind_int_int64 _ B), (bind_int_overflow _ H). simpl. eauto.
    + rewrite (bind_int_overflow _ NB). simpl. eauto.
Qed.




Lemma insert_session_bound (now : Z) (job_title company : pyval) (total : Z)
  (d d' : db) (id : Z) :
  insert_session now job_title company total d = Ok (id, d') ->
  exists jt co,
    sql_bind job_title = Ok jt /\ jt <> SNull /\ sql_bind company = Ok co /\
    d' = mkdb (sessions d ++ [SessionRow.mk id jt co now 0 total])
              (results d) id (seq_results d).
Proof.
  unfold insert_session. intros H.
  bind_inv_as H jt E1. bind_inv_as H co E2. bind_inv_as H n E3.
  bind_inv_as H jt' E4. bind_inv_as H i E5.
  apply bind_int_ok in E3 as [-> _].
  assert (jt' = jt /\ jt <> SNull) as [-> N].
  { destruct jt; simpl in E4; try discriminate; injection E4 as <-;
      split; try reflexivity; discriminate. }
  injection H as <- <-. exists jt, co. repeat split; assumption.
Qed.


Lemma filter_last_id (ss : list SessionRow.t) (s : SessionRow.t) :
  (forall s', In s' ss -> SessionRow.id s' < SessionRow.id s) ->
  filter (fun x => SessionRow.id x =? SessionRow.id s) (ss ++ [s]) = [s].
Proof.
  intros H. rewrite filter_app. simpl. rewrite Z.eqb_refl.
  rewrite filter_none; [reflexivity|].
  intros x Hx. apply Z.eqb_neq. specialize (H x Hx). lia.
Qed.

Lemma bind_plain_text (v : pyval) : plain_text v -> sql_bind v = Ok (column_of v).
Proof. intros [->|[s ->]]; reflexivity. Qed.


(** The session row that a committed [save_session] has written, its data
    columns as the values were bound. *)
Lemma save_session_row (ops : list op) (now : Z)
  (job_title company : pyval) (rs : list pydict) (sid : Z) (d' : db) :
  save_session now job_title company rs (run ops) = (Ok sid, d') ->
  exists s,
    sessions d' = sessions (run ops) ++ [s] /\
    SessionRow.id s = sid /\
    sql_bind job_title = Ok (SessionRow.job_title s) /\
    sql_bind company = Ok (SessionRow.company s) /\
    SessionRow.timestamp s = now /\
    SessionRow.is_hidden s = 0 /\
    SessionRow.total_candidates s = Z.of_nat (List.length rs) /\
    List.length (results_of d' sid) = List.length rs /\
    In s (get_all_sessions false d') /\
    get_session_results sid d' =
      (rows <- mapM decode_row (results_of d' sid) ;; Ok (s, rows)).
Proof.
  intros H.
  assert (I' : store_inv d').
  { change d' with (snd (Ok sid, d')). rewrite <- H.
    apply save_preserves, run_inv. }
  destruct (run_inv ops) as (O & _ & _).
  destruct (save_session_cases now job_title company rs (run ops))
    as [(sid1 & d1 & T & E)|(e & E)]; rewrite E in H; [|discriminate].
  injection H as -> ->.
  destruct (save_results_of _ _ _ _ _ _ _ O T)
    as (s0 & new & _ & _ & _ & _ & F2 & _ & _ & Rn & _).
  assert (T' := T).
  destruct (save_session_txn_ok _ _ _ _ _ _ _ T)
    as (_ & _ & _ & _ & _ & _ & _ & _ & _ & _ & _ & _ & B).
  unfold save_session_txn in T'. bind_inv_as T' p E1. destruct p as [i d2].
  bind_inv_as T' q E2. destruct q as [u d3]. injection T' as -> ->.
  destruct (insert_results_ok _ _ _ _ _ _ E2) as (new' & S3 & _).
  destruct (insert_session_ok _ _ _ _ _ _ _ E1)
    as (s1 & _ & _ & _ & _ & _ & _ & Lt & _).
  apply insert_session_bound in E1 as (jt & co & B1 & _ & B3 & ->).
  simpl in S3.
  set (s := SessionRow.mk sid jt co now 0 (Z.of_nat (List.length rs))) in *.
  exists s. repeat split; try assumption; try reflexivity.
  - rewrite Rn. symmetry. eapply Forall2_length, F2.
  - unfold get_all_sessions. apply sort_by_In. apply filter_In. split.
    + rewrite S3. apply in_or_app. right. left. reflexivity.
    + reflexivity.
  - destruct I' as (_ & C & _).
    assert (Hs : In s (sessions d')) by (rewrite S3; apply in_or_app; right; left; reflexivity).
    unfold get_session_results. rewrite (bind_int_int64 _ B). simpl.
    pose proof (filter_last_id (sessions (run ops)) s Lt) as F.
    change (SessionRow.id s) with sid in F.
    rewrite S3, F. simpl.
    pose proof (select_results_complete _ s (C s Hs)) as Sel.
    change (SessionRow.id s) with sid in Sel.
    rewrite Sel. reflexivity.
Qed.

(** X9.  What [save_session] writes for the session is what is read back.
    For a title that is a text and a company that is a text or [None], the
    values that SQLite keeps as they are bound: the new row is the last of
    the table, with the id returned, the title, the company ([NULL] for
    [None]), the clock reading, not hidden, and the number of the scores;
    it is in the listing of the visible sessions, and
    [get_session_results] returns it with the decoding of the rows just
    written. *)
Theorem saved_session_read_back (ops : list op) (now : Z) (title : string)
  (company : pyval) (rs : list pydict) (sid : Z) (d' : db) :
  plain_text company ->
  save_session now (PStr title) company rs (run ops) = (Ok sid, d') ->
  exists s,
    sessions d' = sessions (run ops) ++ [s] /\
    SessionRow.id s = sid /\
    SessionRow.job_title s = SText title /\
    SessionRow.company s = column_of company /\
    SessionRow.timestamp s = now /\
    SessionRow.is_hidden s = 0 /\
    SessionRow.total_candidates s = Z.of_nat (List.length rs) /\
    List.length (results_of d' sid) = List.length rs /\
    In s (get_all_sessions false d') /\
    get_session_results sid d' =
      (rows <- mapM decode_row (results_of d' sid) ;; Ok (s, rows)).
Proof.
  intros P H.
  destruct (save_session_row _ _ _ _ _ _ _ H)
    as (s & S1 & S2 & S3 & S4 & S5 & S6 & S7 & S8 & S9 & S10).
  exists s. simpl in S3. injection S3 as S3.
  rewrite (bind_plain_text _ P) in S4. injection S4 as S4.
  repeat split; try assumption; symmetry; assumption.
Qed.

End MoreStore.

(* ================================================================== *)
(** * Further properties of the extractor and of the checks on names *)

Lemma prefix_app (u t : string) : prefix u (u ++ t) = true.
Proof.
  induction u as [|a u IH]; simpl; [apply prefix_empty|].
  destruct (ascii_dec a a) as [_|N]; [exact IH | contradiction].
Qed.

Lemma contains_app (sep pre t : string) :
  PyStr.contains sep (pre ++ sep ++ t)%string = true.
Proof.
  induction pre as [|c pre IH].
  - pose proof (prefix_app sep t) as P. simpl append.
    destruct (sep ++ t)%string; cbn [PyStr.contains]; rewrite P; reflexivity.
  - simpl. rewrite IH. apply orb_true_r.
Qed.

(** A separator that occurs gives [split] a second piece. *)
Lemma contains_split (a : ascii) (sep' s : string) :
  PyStr.contains (String a sep') s = true ->
  exists p q ps, PyStr.split_scan (String a sep') O s = (p, q :: ps).
Proof.
  induction s as [|c s IH]; intros H.
  - simpl in H. discriminate.
  - cbn [PyStr.contains] in H. cbn [PyStr.split_scan].
    destruct (prefix (String a sep') (String c s)).
    + destruct (PyStr.split_scan (String a sep') (String.length (String a sep') - 1) s)
        as [p ps]. eauto.
    + simpl in H. destruct (IH H) as (p & q & ps & E). rewrite E. eauto.
Qed.

Lemma split_skip (sep u t : string) :
  PyStr.split_scan sep (String.length u) (u ++ t)%string = PyStr.split_scan sep O t.
Proof. induction u as [|c u IH]; [reflexivity | exact IH]. Qed.

(** Splitting a text that starts with the separator. *)
Lemma split_at_sep (a : ascii) (sep' t : string) :
  PyStr.split_scan (String a sep') O (String a sep' ++ t)%string
  = (EmptyString,
     fst (PyStr.split_scan (String a sep') O t)
       :: snd (PyStr.split_scan (String a sep') O t)).
Proof.
  pose proof (prefix_app (String a sep') t) as P.
  cbn [append] in *. cbn [PyStr.split_scan]. rewrite P.
  cbn [String.length]. rewrite Nat.sub_succ, Nat.sub_0_r, split_skip.
  destruct (PyStr.split_scan (String a sep') O t); reflexivity.
Qed.

(** The separator is not found before the first occurrence of its first
    character. *)
Lemma split_past (a : ascii) (sep' pre t : string) :
  has_char a pre = false ->
  PyStr.split_scan (String a sep') O (pre ++ t)%string
  = ((pre ++ fst (PyStr.split_scan (String a sep') O t))%string,
     snd (PyStr.split_scan (String a sep') O t)).
Proof.
  induction pre as [|c pre IH]; intros H.
  - simpl. destruct (PyStr.split_scan (String a sep') O t); reflexivity.
  - simpl in H. apply orb_false_iff in H as [Hc H].
    cbn [append PyStr.split_scan prefix].
    destruct (ascii_dec a c) as [->|N].
    + rewrite Ascii.eqb_refl in Hc. discriminate.
    + rewrite (IH H). reflexivity.
Qed.

(** The first piece of a text whose first separator comes after [body]. *)
Lemma first_piece (a : ascii) (sep' body w : string) :
  has_char a body = false ->
  w = EmptyString \/ prefix (String a sep') w = true ->
  fst (PyStr.split_scan (String a sep') O (body ++ w)%string) = body.
Proof.
  intros H W. rewrite (split_past _ _ _ _ H). cbn [fst].
  rewrite <- (append_nil_r body) at 2. f_equal.
  destruct W as [->|P]; [reflexivity|].
  destruct w as [|c w]; [reflexivity|].
  cbn [PyStr.split_scan]. rewrite P.
  destruct (PyStr.split_scan _ _ w); reflexivity.
Qed.

Lemma split_scan_step (sep : string) (c : ascii) (s : string) :
  fst (PyStr.split_scan sep O (String c s))
  = if prefix sep (String c s) then EmptyString
    else String c (fst (PyStr.split_scan sep O s)).
Proof.
  cbn [PyStr.split_scan]. destruct (prefix sep (String c s)).
  - destruct (PyStr.split_scan sep (String.length sep - 1) s); reflexivity.
  - destruct (PyStr.split_scan sep O s); reflexivity.
Qed.

(** After the closing fence the scan for the tagged fence stops at once or
    reads the three backticks. *)
Lemma tagged_scan_of_close (post : string) :
  prefix "`" post = false ->
  let w := fst (PyStr.split_scan "```json" O ("```" ++ post)%string) in
  w = EmptyString \/ prefix "```" w = true.
Proof.
  intros P.
  assert (N : forall u, prefix (String "`" u) post = false).
  { intros u. destruct post as [|c post]; [reflexivity|].
    cbn [prefix] in *. destruct (ascii_dec "`" c); [|reflexivity].
    rewrite prefix_empty in P. discriminate. }
  cbn [append]. rewrite split_scan_step.
  destruct (prefix "```json" (String "`" (String "`" (String "`" post)))) eqn:E1.
  - left. reflexivity.
  - right.
    assert (E2 : prefix "```json" (String "`" (String "`" post)) = false).
    { cbn [prefix]. destruct (ascii_dec "`" "`"); [|contradiction].
      destruct (ascii_dec "`" "`"); [|contradiction]. apply N. }
    assert (E3 : prefix "```json" (String "`" post) = false).
    { cbn [prefix]. destruct (ascii_dec "`" "`"); [|contradiction]. apply N. }
    rewrite split_scan_step, E2, split_scan_step, E3.
    cbn [prefix]. destruct (ascii_dec "`" "`"); [|contradiction].
    apply prefix_empty.
Qed.

Lemma split_after (a : ascii) (sep' pre rest : string) :
  has_char a pre = false ->
  PyStr.split (String a sep') (pre ++ String a sep' ++ rest)%string
  = Ok ((pre ++ EmptyString)%string
          :: fst (PyStr.split_scan (String a sep') O rest)
          :: snd (PyStr.split_scan (String a sep') O rest)).
Proof.
  intros H. unfold PyStr.split.
  rewrite (split_past a sep' pre _ H), (split_at_sep a sep' rest). reflexivity.
Qed.

Lemma split_first (a : ascii) (sep' p : string) :
  (rs <- PyStr.split (String a sep') p ;; r <- PyStr.item rs 0 ;; Ok (PyStr.strip r))
  = Ok (PyStr.strip (fst (PyStr.split_scan (String a sep') O p))).
Proof.
  unfold PyStr.split. destruct (PyStr.split_scan (String a sep') O p). reflexivity.
Qed.

Lemma unfence_tagged_eq (pre rest : string) :
  has_char "`" pre = false ->
  unfence (pre ++ "```json" ++ rest)%string
  = Ok (PyStr.strip
          (fst (PyStr.split_scan "```" O
                  (fst (PyStr.split_scan "```json" O rest))))).
Proof.
  intros H. unfold unfence.
  rewrite contains_app, (split_after "`" "``json" pre rest H).
  cbn [bind PyStr.item nth_error]. apply (split_first "`" "``").
Qed.

Lemma unfence_plain_eq (pre rest : string) :
  has_char "`" pre = false ->
  PyStr.contains "```json" (pre ++ "```" ++ rest)%string = false ->
  unfence (pre ++ "```" ++ rest)%string
  = Ok (PyStr.strip
          (fst (PyStr.split_scan "```" O
                  (fst (PyStr.split_scan "```" O rest))))).
Proof.
  intros H C. unfold unfence.
  rewrite C, contains_app, (split_after "`" "``" pre rest H).
  cbn [bind PyStr.item nth_error]. apply (split_first "`" "``").
Qed.

Lemma contains_fence_json (s : string) :
  PyStr.contains "```" s = false -> PyStr.contains "```json" s = false.
Proof.
  induction s as [|c s IH]; intros H; [reflexivity|].
  cbn [PyStr.contains] in *. apply orb_false_iff in H as [P H].
  rewrite (IH H), orb_false_r.
  destruct (prefix "```json" (String c s)) eqn:E; [|reflexivity].
  rewrite <- P. clear - E.
  destruct s as [|c1 [|c2 s]]; cbn [prefix] in *;
    repeat match goal with
    | H : context [ascii_dec ?a ?b] |- _ => destruct (ascii_dec a b); try discriminate
    | |- context [ascii_dec ?a ?b] => destruct (ascii_dec a b); try contradiction
    end; try discriminate.
  symmetry. apply prefix_empty.
Qed.

(** X10.  Removing the fence never raises: whenever a fence is found the
    text has a piece after it ([split(...)[1]] exists), and that piece has
    a first piece.  A text without three backticks in a row is returned as
    it is. *)
Theorem unfence_never_raises (s : string) :
  (exists r, unfence s = Ok r) /\
  (PyStr.contains "```" s = false -> unfence s = Ok s).
Proof.
  split.
  - unfold unfence.
    destruct (PyStr.contains "```json" s) eqn:C1.
    + destruct (contains_split _ _ _ C1) as (p & q & ps & E).
      unfold PyStr.split at 1. rewrite E. cbn [PyStr.item nth_error bind].
      unfold PyStr.split. destruct (PyStr.split_scan "```" 0 q) as [p' ps'].
      cbn. eauto.
    + destruct (PyStr.contains "```" s) eqn:C2; [|eauto].
      destruct (contains_split _ _ _ C2) as (p & q & ps & E).
      unfold PyStr.split at 1. rewrite E. cbn [PyStr.item nth_error bind].
      unfold PyStr.split. destruct (PyStr.split_scan "```" 0 q) as [p' ps'].
      cbn. eauto.
  - intros C. unfold unfence.
    rewrite (contains_fence_json s C), C. reflexivity.
Qed.

(** X11.  What the fence removal extracts.  For a response made of a
    preamble, an opening fence, a body and either nothing more (the fence
    is left open) or a closing fence and a rest, where neither the preamble
    nor the body has a backtick: the result is the body, stripped.  With
    the tagged fence this holds when the rest does not start with a
    backtick; with the plain fence when the response has no tagged fence. *)
Theorem unfence_extracts_body (pre body close : string) :
  has_char "`" pre = false ->
  has_char "`" body = false ->
  (close = EmptyString \/
   exists post, close = ("```" ++ post)%string /\ prefix "`" post = false) ->
  unfence (pre ++ "```json" ++ body ++ close)%string = Ok (PyStr.strip body) /\
  (PyStr.contains "```json" (pre ++ "```" ++ body ++ close)%string = false ->
   unfence (pre ++ "```" ++ body ++ close)%string = Ok (PyStr.strip body)).
Proof.
  intros Hp Hb Hc.
  assert (W : close = EmptyString \/ prefix "```" close = true).
  { destruct Hc as [->|(post & -> & _)]; [left; reflexivity | right].
    apply (prefix_app "```" post). }
  split.
  - rewrite (unfence_tagged_eq pre (body ++ close)%string Hp). do 2 f_equal.
    rewrite (split_past "`" "``json" body close Hb). cbn [fst].
    apply (first_piece "`" "``" body _ Hb).
    destruct Hc as [->|(post & -> & P)]; [left; reflexivity|].
    apply (tagged_scan_of_close post P).
  - intros C.
    rewrite (unfence_plain_eq pre (body ++ close)%string Hp C). do 2 f_equal.
    rewrite (first_piece "`" "``" body close Hb W).
    rewrite <- (append_nil_r body) at 1.
    apply (first_piece "`" "``" body EmptyString Hb). left. reflexivity.
Qed.

Lemma unfence_extracts_body_witness :
  unfence ("Here you go:" ++ "```json" ++ " {} " ++ "```" ++ " bye")%string = Ok "{}" /\
  unfence ("x" ++ "```" ++ " [] " ++ EmptyString)%string = Ok "[]".
Proof.
  split.
  - apply (unfence_extracts_body "Here you go:" " {} " ("```" ++ " bye")%string); try reflexivity.
    right. exists " bye". split; reflexivity.
  - apply (unfence_extracts_body "x" " [] " EmptyString); try reflexivity.
    left. reflexivity.
Defined.

Lemma contains_char (a : ascii) (s : string) :
  PyStr.contains (String a EmptyString) s = has_char a s.
Proof.
  induction s as [|c s IH]; [reflexivity|].
  cbn [PyStr.contains has_char]. rewrite prefix_single, IH. reflexivity.
Qed.

Lemma rsplit1_none (sep : ascii) (s : string) :
  has_char sep s = false -> rsplit1 sep s = [s].
Proof.
  induction s as [|c s IH]; intros H; [reflexivity|].
  simpl in H. apply orb_false_iff in H as [Hc H].
  cbn [rsplit1]. rewrite (IH H), Hc. reflexivity.
Qed.

Lemma rsplit1_last (sep : ascii) (base ext : string) :
  has_char sep ext = false ->
  rsplit1 sep (base ++ String sep ext)%string = [base; ext].
Proof.
  intros H. induction base as [|c base IH].
  - cbn [append rsplit1]. rewrite (rsplit1_none _ _ H), Ascii.eqb_refl. reflexivity.
  - cbn [append rsplit1]. rewrite IH. reflexivity.
Qed.

Lemma has_char_split (a : ascii) (s : string) :
  has_char a s = true ->
  exists base ext, s = (base ++ String a ext)%string /\ has_char a ext = false.
Proof.
  induction s as [|c s IH]; intros H; [discriminate|].
  simpl in H. destruct (has_char a s) eqn:E.
  - destruct (IH eq_refl) as (base & ext & -> & He).
    exists (String c base), ext. split; [reflexivity | exact He].
  - rewrite orb_false_r in H. apply Ascii.eqb_eq in H. subst c.
    exists EmptyString, s. split; [reflexivity | exact E].
Qed.

Lemma has_char_app (a : ascii) (s t : string) :
  has_char a (s ++ t)%string = has_char a s || has_char a t.
Proof.
  induction s as [|c s IH]; [reflexivity|].
  simpl. rewrite IH. apply orb_assoc.
Qed.

Lemma allowed_file_ext (base ext : string) :
  has_char "." ext = false ->
  allowed_file (base ++ "." ++ ext)%string
  = Ok (existsb (String.eqb (lower ext)) ALLOWED_EXTENSIONS).
Proof.
  intros H. unfold allowed_file.
  change "." with (String "."%char EmptyString) at 1.
  rewrite contains_char, has_char_app. cbn [append has_char].
  rewrite Ascii.eqb_refl, orb_true_r.
  rewrite (rsplit1_last "." base ext H). reflexivity.
Qed.

Lemma in_allowed (ext : string) :
  existsb (String.eqb (lower ext)) ALLOWED_EXTENSIONS = true
  <-> In (lower ext) ALLOWED_EXTENSIONS.
Proof.
  rewrite existsb_exists. split.
  - intros (x & Hx & E). apply String.eqb_eq in E. subst x. exact Hx.
  - intros H. exists (lower ext). split; [exact H | apply String.eqb_refl].
Qed.

Lemma allowed_file_ok (filename : string) :
  exists b, allowed_file filename = Ok b.
Proof.
  destruct (has_char "." filename) eqn:E.
  - destruct (has_char_split _ _ E) as (base & ext & -> & He).
    pose proof (allowed_file_ext base ext He) as AE. cbn [append] in AE.
    rewrite AE. eauto.
  - unfold allowed_file. change "." with (String "."%char EmptyString).
    rewrite contains_char, E. eauto.
Qed.

(** X13.  [allowed_file] never raises and looks at the text after the last
    dot only, whatever its case: a name without a dot is refused, and a
    name is accepted exactly when what follows its last dot is, in lower
    case, one of [pdf], [docx], [doc], [txt]. *)
Theorem allowed_file_last_extension (filename : string) :
  (exists b, allowed_file filename = Ok b) /\
  (has_char "." filename = false -> allowed_file filename = Ok false) /\
  (forall base ext,
     filename = (base ++ "." ++ ext)%string -> has_char "." ext = false ->
     allowed_file filename
     = Ok (existsb (String.eqb (lower ext)) ALLOWED_EXTENSIONS)) /\
  (allowed_file filename = Ok true <->
   exists base ext,
     filename = (base ++ "." ++ ext)%string /\ has_char "." ext = false /\
     In (lower ext) ALLOWED_EXTENSIONS).
Proof.
  assert (N : has_char "." filename = false -> allowed_file filename = Ok false).
  { intros H. unfold allowed_file.
    change "." with (String "."%char EmptyString).
    rewrite contains_char, H. reflexivity. }
  split; [|split; [exact N|split]].
  - destruct (has_char "." filename) eqn:E.
    + destruct (has_char_split _ _ E) as (base & ext & -> & He).
      pose proof (allowed_file_ext base ext He) as AE. cbn [append] in AE.
      rewrite AE. eauto.
    + rewrite (N eq_refl). eauto.
  - intros base ext -> He. apply allowed_file_ext, He.
  - split.
    + intros H. destruct (has_char "." filename) eqn:E.
      * destruct (has_char_split _ _ E) as (base & ext & -> & He).
        exists base, ext. split; [reflexivity|]. split; [exact He|].
        pose proof (allowed_file_ext base ext He) as AE. cbn [append] in AE.
        rewrite AE in H.
        injection H as H. apply in_allowed, H.
      * rewrite (N eq_refl) in H. discriminate.
    + intros (base & ext & -> & He & Hin).
      rewrite (allowed_file_ext base ext He). f_equal. apply in_allowed, Hin.
Qed.

(** ** The title in the name of the download *)

Lemma filter_chars_has (keep : ascii -> bool) (c : ascii) (s : string) :
  has_char c (filter_chars keep s) = true ->
  keep c = true /\ has_char c s = true.
Proof.
  induction s as [|x s IH]; intros H; [discriminate|].
  simpl in H. simpl. destruct (keep x) eqn:K.
  - simpl in H. apply orb_true_iff in H as [H|H].
    + apply Ascii.eqb_eq in H. subst x. rewrite Ascii.eqb_refl. split; [exact K | reflexivity].
    + destruct (IH H) as [A B]. rewrite B. split; [exact A | apply orb_true_r].
  - destruct (IH H) as [A B]. rewrite B. split; [exact A | apply orb_true_r].
Qed.

Lemma filter_chars_all (keep : ascii -> bool) (s : string) :
  (forall c, has_char c s = true -> keep c = true) -> filter_chars keep s = s.
Proof.
  induction s as [|x s IH]; intros H; [reflexivity|].
  simpl. rewrite (H x) by (simpl; rewrite Ascii.eqb_refl; reflexivity).
  f_equal. apply IH. intros c Hc. apply H. simpl. rewrite Hc. apply orb_true_r.
Qed.

Lemma filter_chars_length (keep : ascii -> bool) (s : string) :
  (String.length (filter_chars keep s) <= String.length s)%nat.
Proof.
  induction s as [|x s IH]; simpl; [lia|]. destruct (keep x); simpl; lia.
Qed.

Lemma map_chars_length (f : ascii -> ascii) (s : string) :
  String.length (map_chars f s) = String.length s.
Proof. induction s; simpl; [reflexivity | rewrite IHs; reflexivity]. Qed.

Lemma map_chars_fixed (f : ascii -> ascii) (s : string) :
  (forall c, has_char c s = true -> f c = c) -> map_chars f s = s.
Proof.
  induction s as [|x s IH]; intros H; [reflexivity|].
  simpl. rewrite (H x) by (simpl; rewrite Ascii.eqb_refl; reflexivity).
  f_equal. apply IH. intros c Hc. apply H. simpl. rewrite Hc. apply orb_true_r.
Qed.

Lemma export_job_title_maps (s : string) :
  export_job_title s
  = filter_chars title_char
      (map_chars (fun c => if Ascii.eqb c (ascii_of_nat 92) then "_"%char else c)
        (map_chars (fun c => if Ascii.eqb c "/" then "_"%char else c)
          (map_chars (fun c => if Ascii.eqb c " " then "_"%char else c) s))).
Proof.
  unfold export_job_title, backslash, PyStr.chr.
  change "_" with (String "_"%char EmptyString).
  change " " with (String " "%char EmptyString).
  change "/" with (String "/"%char EmptyString).
  rewrite !replace_char. reflexivity.
Qed.

Lemma export_job_title_fixed (s : string) :
  (forall c, has_char c s = true -> title_char c = true) ->
  export_job_title s = s.
Proof.
  intros H. rewrite export_job_title_maps.
  assert (F : forall a, title_char a = false ->
              map_chars (fun c => if Ascii.eqb c a then "_"%char else c) s = s).
  { intros a Ha. apply map_chars_fixed. intros c Hc.
    destruct (Ascii.eqb_spec c a) as [->|_]; [|reflexivity].
    rewrite (H a Hc) in Ha. discriminate. }
  rewrite (F " "%char eq_refl), (F "/"%char eq_refl), (F (ascii_of_nat 92) eq_refl).
  apply filter_chars_all, H.
Qed.

(** X14.  The title that [export_session] puts in the name of the download
    is made of alphanumerics, underscores and hyphens only: it has no
    slash, backslash, dot or space, whatever the stored title; it is never
    longer than the stored title, a title already made of such characters
    is kept as it is, and cleaning twice changes nothing more. *)
Theorem export_job_title_safe (job_title : string) :
  let t := export_job_title job_title in
  (forall c, has_char c t = true -> title_char c = true) /\
  has_char "/" t = false /\
  has_char (ascii_of_nat 92) t = false /\
  has_char "." t = false /\
  has_char " " t = false /\
  (String.length t <= String.length job_title)%nat /\
  export_job_title t = t /\
  ((forall c, has_char c job_title = true -> title_char c = true) ->
   t = job_title).
Proof.
  intros t.
  assert (S : forall c, has_char c t = true -> title_char c = true).
  { intros c Hc. subst t. rewrite export_job_title_maps in Hc.
    apply filter_chars_has in Hc. apply Hc. }
  assert (N : forall c, title_char c = false -> has_char c t = false).
  { intros c Hc. destruct (has_char c t) eqn:E; [|reflexivity].
    rewrite (S c E) in Hc. discriminate. }
  split; [exact S|].
  split; [apply N; reflexivity|]. split; [apply N; reflexivity|].
  split; [apply N; reflexivity|]. split; [apply N; reflexivity|].
  split; [|split].
  - subst t. rewrite export_job_title_maps.
    etransitivity; [apply filter_chars_length|].
    rewrite !map_chars_length. lia.
  - apply export_job_title_fixed, S.
  - intros H. apply export_job_title_fixed, H.
Qed.

Lemma prefix_append (p a b : string) :
  prefix p a = true -> prefix p (a ++ b) = true.
Proof.
  revert a. induction p as [|c p IH]; intros a H; [apply prefix_empty|].
  destruct a as [|x a]; [discriminate|].
  cbn [append prefix] in *. destruct (ascii_dec c x); [apply IH, H | discriminate].
Qed.

Lemma path_join_absolute (a b : string) :
  prefix "/" a = true -> prefix "/" (path_join a b) = true.
Proof.
  intros H. unfold path_join.
  destruct (prefix "/" b) eqn:B; [exact B|].
  destruct ((String.length a =? 0)%nat || ends_with_slash a);
    apply prefix_append, H.
Qed.

(** X18.  The store of the application never takes the [/tmp] path that
    [ScreeningDatabase] keeps for Vercel: [app.py] passes the path next to
    the module, which is absolute and so is not the default name, and the
    environment variable is not looked at.  Only an object built with the
    default name looks at it. *)
Theorem app_db_path_ignores_vercel (vercel : option string) (here : string) :
  prefix "/" here = true ->
  app_db_path vercel here = path_join here "screening_history.db" /\
  app_db_path vercel here = app_db_path None here /\
  (forall c v, screening_db_path default_db_path (Some (String c v)) here
               = "/tmp/screening_history.db") /\
  screening_db_path default_db_path None here = app_db_path vercel here /\
  screening_db_path default_db_path (Some EmptyString) here = app_db_path vercel here.
Proof.
  intros H.
  assert (A : forall v, app_db_path v here = path_join here "screening_history.db").
  { intros v. unfold app_db_path, screening_db_path.
    destruct (String.eqb_spec (path_join here "screening_history.db") default_db_path)
      as [E|_]; [|reflexivity].
    pose proof (path_join_absolute here "screening_history.db" H) as P.
    rewrite E in P. discriminate. }
  rewrite !A. repeat split; reflexivity.
Qed.

Lemma app_db_path_ignores_vercel_witness :
  app_db_path (Some "1") "/var/task/backend"
  = "/var/task/backend/screening_history.db".
Proof.
  apply (app_db_path_ignores_vercel (Some "1") "/var/task/backend"). reflexivity.
Defined.

(** ** The fallback record *)

Lemma replace_scan_has (a : ascii) (old : string) (s : string) :
  forall skip,
    has_char a (PyStr.replace_scan old EmptyString skip s) = true ->
    has_char a s = true.
Proof.
  induction s as [|c s IH]; intros skip H; [destruct skip; discriminate|].
  cbn [PyStr.replace_scan] in H. simpl. destruct skip as [|k].
  - destruct (prefix old (String c s)).
    + cbn [append] in H. rewrite (IH _ H). apply orb_true_r.
    + simpl in H. apply orb_true_iff in H as [H|H].
      * rewrite H. reflexivity.
      * rewrite (IH _ H). apply orb_true_r.
  - rewrite (IH _ H). apply orb_true_r.
Qed.

Lemma replace_scan_length (old : string) (s : string) :
  forall skip,
    (String.length (PyStr.replace_scan old EmptyString skip s) <= String.length s)%nat.
Proof.
  induction s as [|c s IH]; intros skip; [destruct skip; simpl; lia|].
  cbn [PyStr.replace_scan]. destruct skip as [|k].
  - destruct (prefix old (String c s)); cbn [append String.length].
    + specialize (IH (String.length old - 1)%nat). lia.
    + specialize (IH O). lia.
  - specialize (IH k). simpl. lia.
Qed.

Lemma remove_has (a c : ascii) (old' s : string) :
  has_char a (PyStr.replace (String c old') EmptyString s) = true ->
  has_char a s = true.
Proof. apply replace_scan_has. Qed.

Lemma remove_length (c : ascii) (old' s : string) :
  (String.length (PyStr.replace (String c old') EmptyString s) <= String.length s)%nat.
Proof. apply replace_scan_length. Qed.

Lemma map_chars_has_not (f : ascii -> ascii) (a : ascii) (s : string) :
  (forall c, f c <> a) -> has_char a (map_chars f s) = false.
Proof.
  intros H. induction s as [|c s IH]; [reflexivity|].
  simpl. rewrite IH, orb_false_r. apply Ascii.eqb_neq, H.
Qed.

Lemma name_of_filename_is (filename : string) :
  name_of_filename filename
  = PyStr.replace ".txt" EmptyString
      (PyStr.replace ".docx" EmptyString
        (PyStr.replace ".pdf" EmptyString
          (map_chars underscore_to_space filename))).
Proof.
  unfold name_of_filename. do 3 f_equal.
  change "_" with (String "_"%char EmptyString).
  change " " with (String " "%char EmptyString).
  apply replace_char.
Qed.

Section FallbackShape.

Context {codec : JsonCodec}.

(** X17.  What the records of [parse_resume_with_ai] never hold.  The id
    never has a dot and is as long as the filename.  On the fallback path
    the name has no underscore and is not longer than the filename, and the
    summary is a prefix of the text of [min 300 (len text)] characters. *)
Theorem fallback_record_shape (text filename : string) (agent : Agent) :
  let r := parse_resume_with_ai text filename agent in
  has_char "." (Resume.id r) = false /\
  String.length (Resume.id r) = String.length filename /\
  (raises (resume_try text filename agent) ->
   exists name summary,
     Resume.name r = PStr name /\
     has_char "_" name = false /\
     (String.length name <= String.length filename)%nat /\
     Resume.summary r = PStr summary /\
     prefix summary text = true /\
     String.length summary = Nat.min 300 (String.length text)).
Proof.
  intros r. subst r. rewrite parse_resume_id, id_is_map.
  split; [|split].
  - apply map_chars_has_not. intros c. unfold dot_to_underscore.
    destruct (Ascii.eqb_spec c "."); [discriminate | assumption].
  - apply map_chars_length.
  - intros H. rewrite (parse_resume_fallback _ _ _ H).
    exists (name_of_filename filename), (PyStr.take 300 text).
    split; [reflexivity|]. split; [|split; [|split; [|split]]].
    + rewrite name_of_filename_is.
      destruct (has_char "_" _) eqn:E; [|reflexivity].
      apply remove_has, remove_has, remove_has in E.
      rewrite map_chars_has_not in E; [discriminate|].
      intros c. unfold underscore_to_space.
      destruct (Ascii.eqb_spec c "_"); [discriminate | assumption].
    + rewrite name_of_filename_is.
      etransitivity; [apply remove_length|].
      etransitivity; [apply remove_length|].
      etransitivity; [apply remove_length|].
      rewrite map_chars_length. lia.
    + unfold resume_fallback. simpl. rewrite fallback_summary. reflexivity.
    + apply take_prefix.
    + apply take_length.
Qed.

(** X12.  A fenced reply is decoded like its body.  [ask] hands to
    [json.loads] the stripped reply when it has no three backticks in a
    row, and the stripped body of the fence when the stripped reply is a
    preamble, a tagged fence, a body and a closing fence (or none), without
    a backtick in the preamble or the body. *)
Theorem ask_decodes_fenced_body (agent : Agent) (system user reply : string)
  (n : Z) :
  create agent {| req_model := model agent; req_system := system;
                  req_user := user; req_max_tokens := n |} = Ok (Some reply) ->
  (PyStr.contains "```" (PyStr.strip reply) = false ->
   ask agent system user n = json_loads (PyStr.strip reply)) /\
  (forall pre body close,
     PyStr.strip reply = (pre ++ "```json" ++ body ++ close)%string ->
     has_char "`" pre = false ->
     has_char "`" body = false ->
     (close = EmptyString \/
      exists post, close = ("```" ++ post)%string /\ prefix "`" post = false) ->
     ask agent system user n = json_loads (PyStr.strip body)).
Proof.
  intros C. unfold ask. rewrite C. cbn [bind content_strip]. split.
  - intros F.
    assert (U : unfence (PyStr.strip reply) = Ok (PyStr.strip reply)).
    { unfold unfence. rewrite (contains_fence_json _ F), F. reflexivity. }
    rewrite U. reflexivity.
  - intros pre body close S Hp Hb Hc. rewrite S.
    rewrite (unfence_tagged_eq pre (body ++ close)%string Hp). cbn [bind].
    do 2 f_equal.
    rewrite (split_past "`" "``json" body close Hb). cbn [fst].
    apply (first_piece "`" "``" body _ Hb).
    destruct Hc as [->|(post & -> & P)]; [left; reflexivity|].
    apply (tagged_scan_of_close post P).
Qed.

End FallbackShape.

(** ** The fallback, the name and the types *)

(** The extension [.doc] is none of the three that the fallback removes. *)
Lemma name_of_filename_keeps_doc (base : string) :
  has_char "." base = false ->
  name_of_filename (base ++ ".doc")
  = (map_chars underscore_to_space base ++ ".doc")%string.
Proof.
  intros H. unfold name_of_filename.
  assert (R : PyStr.replace "_" " " (base ++ ".doc")
              = (map_chars underscore_to_space base ++ ".doc")%string).
  { change "_" with (String "_"%char EmptyString) at 1.
    change " " with (String " "%char EmptyString) at 1.
    rewrite replace_char, map_chars_app. reflexivity. }
  rewrite R. rewrite <- has_dot_map in H.
  set (b := map_chars underscore_to_space base) in *.
  rewrite (replace_past "." "pdf" EmptyString b ".doc" H).
  change (PyStr.replace ".pdf" EmptyString ".doc") with ".doc".
  rewrite (replace_past "." "docx" EmptyString b ".doc" H).
  change (PyStr.replace ".docx" EmptyString ".doc") with ".doc".
  rewrite (replace_past "." "txt" EmptyString b ".doc" H).
  reflexivity.
Qed.

Lemma allowed_file_doc (base : string) : allowed_file (base ++ ".doc") = Ok true.
Proof.
  assert (H : has_char "." "doc" = false) by reflexivity.
  exact (allowed_file_ext base "doc" H).
Qed.

Section FallbackClaims.

Context {codec : JsonCodec}.

(** C1.  Whenever the [try] block of [parse_resume_with_ai] raises (the
    completion request, the reading of its content, the removal of the
    fence, [json.loads], or the access to the decoded value), the function
    does not raise and returns the fallback record: the id is the filename
    with every dot replaced by an underscore, email and phone are the empty
    string, skills, experience and education the empty list, and the
    summary is the first 300 characters of the text, a prefix of the text
    of [min 300 (len text)] characters.  The name is the filename with
    underscores replaced by spaces and the substrings [.pdf], [.docx] and
    [.txt] removed.  For a filename made of a base without a dot and one of
    these three extensions that is the base with underscores replaced by
    spaces: the extension is stripped, as the claim says.  For a base
    without a dot and the extension [.doc], which [allowed_file] accepts
    like the other three, the extension is not stripped: the claim fails
    there. *)
Theorem extract_candidate_fallback (text filename : string) (agent : Agent) :
  raises (resume_try text filename agent) ->
  let r := parse_resume_with_ai text filename agent in
  Resume.id r = PyStr.replace "." "_" filename /\
  Resume.name r = PStr (name_of_filename filename) /\
  Resume.email r = PStr EmptyString /\
  Resume.phone r = PStr EmptyString /\
  Resume.skills r = PList [] /\
  Resume.experience r = PList [] /\
  Resume.education r = PList [] /\
  Resume.summary r = PStr (PyStr.take 300 text) /\
  prefix (PyStr.take 300 text) text = true /\
  String.length (PyStr.take 300 text) = Nat.min 300 (String.length text) /\
  (forall base ext,
     filename = (base ++ ext)%string ->
     has_char "." base = false ->
     In ext [".pdf"; ".docx"; ".txt"] ->
     allowed_file filename = Ok true /\
     Resume.name r = PStr (map_chars underscore_to_space base)) /\
  (forall base,
     filename = (base ++ ".doc")%string ->
     has_char "." base = false ->
     allowed_file filename = Ok true /\
     Resume.name r = PStr (map_chars underscore_to_space base ++ ".doc")).
Proof.
  intros H r. subst r. rewrite (parse_resume_fallback _ _ _ H).
  unfold resume_fallback.
  cbn [Resume.id Resume.name Resume.email Resume.phone Resume.skills
       Resume.experience Resume.education Resume.summary].
  rewrite fallback_summary.
  split; [reflexivity|]. split; [reflexivity|]. split; [reflexivity|].
  split; [reflexivity|]. split; [reflexivity|]. split; [reflexivity|].
  split; [reflexivity|]. split; [reflexivity|].
  split; [apply take_prefix|]. split; [apply take_length|]. split.
  - intros base ext -> Hb He. split.
    + destruct He as [<-|[<-|[<-|[]]]].
      * exact (allowed_file_ext base "pdf" eq_refl).
      * exact (allowed_file_ext base "docx" eq_refl).
      * exact (allowed_file_ext base "txt" eq_refl).
    + f_equal. apply (name_of_filename_strips base ext Hb He).
  - intros base -> Hb. split; [apply allowed_file_doc|].
    f_equal. apply (name_of_filename_keeps_doc base Hb).
Qed.


End FallbackClaims.

(* ================================================================== *)
(** * Properties of the upload route *)

Section RouteFacts.

Context {codec : JsonCodec} {W E : Type} {host : Host W E}.

Lemma quiet_ret {A : Type} (a : A) : quiet (ret (W := W) (E := E) a).
Proof. intros st. split; [reflexivity | discriminate]. Qed.

Lemma quiet_early {A : Type} (s : string) :
  quiet (early (W := W) (E := E) (A := A) (Index (Text s))).
Proof.
  intros st. split; [reflexivity|]. intros p H. injection H as <-. eauto.
Qed.

Lemma quiet_on_world {A : Type} (op : W -> (A + E) * W) : quiet (on_world op).
Proof.
  intros st. unfold on_world. destruct (op (fst st)) as [[a|e] w'];
    (split; [reflexivity | discriminate]).
Qed.

Lemma quiet_of_except {A : Type} (m : except A) : quiet (of_except (W := W) (E := E) m).
Proof.
  intros st. unfold of_except. destruct m; (split; [reflexivity | discriminate]).
Qed.

Lemma quiet_rbind {A B : Type} (m : route W E A) (k : A -> route W E B) :
  quiet m -> (forall a, quiet (k a)) -> quiet (rbind m k).
Proof.
  intros Hm Hk st. unfold rbind. destruct (Hm st) as [S R].
  destruct (m st) as [[a|p|f] st'] eqn:M; simpl in *.
  - destruct (Hk a st') as [S' R']. split; [congruence | exact R'].
  - split; [exact S|]. intros p' H. injection H as <-. apply R. reflexivity.
  - split; [exact S | discriminate].
Qed.

Lemma quiet_if {A : Type} (b : bool) (m1 m2 : route W E A) :
  quiet m1 -> quiet m2 -> quiet (if b then m1 else m2).
Proof. destruct b; auto. Qed.

Lemma quiet_read_job_text (r : request) : quiet (read_job_text r).
Proof.
  unfold read_job_text.
  destruct (PyStr.strip _); [|apply quiet_ret].
  destruct (files_job_description r) as [job_file|]; [|apply quiet_ret].
  apply quiet_if; [|apply quiet_ret].
  apply quiet_rbind; [apply quiet_of_except|]. intros allowed.
  apply quiet_if; [apply quiet_early|].
  repeat (apply quiet_rbind; [apply quiet_on_world | intros ?]).
  apply quiet_ret.
Qed.

Lemma quiet_check_resumes (files : list FileStorage.t) : quiet (check_resumes (W := W) (E := E) files).
Proof.
  induction files as [|f files IH]; [apply quiet_ret|].
  cbn [check_resumes]. apply quiet_rbind; [apply quiet_of_except|].
  intros allowed. apply quiet_if; [apply quiet_early | exact IH].
Qed.

Lemma outside_ret {A : Type} (a : A) : outside (ret (W := W) (E := E) a).
Proof. intros st. repeat split; discriminate. Qed.

Lemma outside_on_world {A : Type} (op : W -> (A + E) * W) : outside (on_world op).
Proof.
  intros st. unfold on_world. destruct (op (fst st)) as [[a|e] w']; simpl.
  - repeat split; discriminate.
  - repeat split; try discriminate. intros f H. injection H as <-. eauto.
Qed.

Lemma on_world_next {A : Type} (op : W -> (A + E) * W) (st st' : W * db) (a : A) :
  on_world op st = (Next a, st') -> exists w w', op w = (inl a, w').
Proof.
  unfold on_world. intros H. exists (fst st).
  destruct (op (fst st)) as [[a'|e] w']; [|discriminate].
  injection H as -> _. eauto.
Qed.

Lemma outside_of_sum {A : Type} (m : A + E) : outside (of_sum (W := W) m).
Proof.
  intros st. unfold of_sum. destruct m as [a|e]; simpl.
  - repeat split; discriminate.
  - repeat split; try discriminate. intros f H. injection H as <-. eauto.
Qed.

Lemma outside_rbind {A B : Type} (m : route W E A) (k : A -> route W E B) :
  outside m -> (forall a, outside (k a)) -> outside (rbind m k).
Proof.
  intros Hm Hk st. unfold rbind. destruct (Hm st) as (S & R & T).
  destruct (m st) as [[a|p|f] st'] eqn:M; simpl in *.
  - destruct (Hk a st') as (S' & R' & T'). split; [congruence|]. split; assumption.
  - exfalso. apply (R p). reflexivity.
  - split; [exact S|]. split; [discriminate|].
    intros f' H. injection H as <-. apply T. reflexivity.
Qed.

Lemma outside_clean_up (files : list FileStorage.t) : outside (clean_up files).
Proof.
  induction files as [|f files IH]; [apply outside_ret|].
  cbn [clean_up]. apply outside_rbind; [|intros _; exact IH].
  intros st. destruct (path_exists _ (fst st)).
  - apply outside_on_world.
  - apply outside_ret.
Qed.

Lemma outside_parse_resumes (agent : ScreeningAgent E) (files : list FileStorage.t) :
  outside (parse_resumes agent files).
Proof.
  induction files as [|f files IH]; [apply outside_ret|].
  cbn [parse_resumes].
  apply outside_rbind; [apply outside_on_world | intros _].
  apply outside_rbind; [apply outside_on_world | intros text].
  apply outside_rbind; [exact IH | intros resumes]. apply outside_ret.
Qed.

(** One candidate per uploaded file, in the order of the upload, with the
    id of its file. *)
Lemma parse_resumes_ids (agent : ScreeningAgent E) (files : list FileStorage.t) :
  forall st resumes st',
    parse_resumes agent files st = (Next resumes, st') ->
    map Resume.id resumes = map candidate_id files.
Proof.
  induction files as [|f files IH]; intros st resumes st' H.
  - injection H as <- _. reflexivity.
  - cbn [parse_resumes] in H. unfold rbind at 1 in H.
    destruct (on_world (save f _) st) as [[u|p|x] st1]; try discriminate.
    unfold rbind at 1 in H.
    destruct (on_world (parse_file _) st1) as [[text|p|x] st2]; try discriminate.
    unfold rbind at 1 in H.
    destruct (parse_resumes agent files st2) as [[rest|p|x] st3] eqn:P;
      try discriminate.
    injection H as <- _. cbn [map]. f_equal.
    + apply parse_resume_id.
    + eapply IH, P.
Qed.

Lemma save_session_raise (now : Z) (jt co : pyval) (rs : list pydict)
  (d d' : db) (e : exn) :
  save_session now jt co rs d = (Raise e, d') -> d' = d.
Proof.
  intros H. destruct (save_session_cases now jt co rs d)
    as [(sid & d1 & _ & Q)|(e' & Q)]; rewrite Q in H; congruence.
Qed.

(** The outcomes of the [try] block: the store is as it was and the block
    returned an index page with a literal text or raised; or one
    [save_session] committed and the block returned the results page or the
    removal of an uploaded file raised. *)
Lemma upload_try_cases (r : request) (st st' : W * db) (res : result E (page E)) :
  upload_try r st = (res, st') ->
  (snd st' = snd st /\
   ((exists s, res = Return (Index (Text s))) \/ exists f, res = Throw f)) \/
  (exists rs jt sid,
     committed r (snd st) (snd st') rs jt sid /\
     (res = Next (Results rs jt sid) \/ exists e, res = Throw (Collaborator e))).
Proof.
  unfold upload_try. intros H. unfold rbind at 1 in H.
  destruct (quiet_read_job_text r st) as [S0 R0].
  destruct (read_job_text r st) as [[job_text|p|f] st0] eqn:J; cbn [fst snd] in *.
  2:{ injection H as <- <-. left. split; [exact S0|]. left.
      destruct (R0 p eq_refl) as [s ->]. eauto. }
  2:{ injection H as <- <-. left. split; [exact S0|]. right. eauto. }
  destruct job_text as [[|c t]|].
  1,3: injection H as <- <-; left; split; [exact S0 | left; eauto].
  destruct (files_resumes r) as [files|] eqn:F.
  2:{ injection H as <- <-. left. split; [exact S0 | left; eauto]. }
  destruct (match files with
            | [] => true
            | first :: _ => String.eqb (FileStorage.filename first) EmptyString
            end).
  { injection H as <- <-. left. split; [exact S0 | left; eauto]. }
  unfold rbind at 1 in H.
  destruct (quiet_check_resumes files st0) as [S1 R1].
  destruct (check_resumes files st0) as [[u|p|f] st1] eqn:C; cbn [fst snd] in *.
  2:{ injection H as <- <-. left. split; [congruence|]. left.
      destruct (R1 p eq_refl) as [s ->]. eauto. }
  2:{ injection H as <- <-. left. split; [congruence|]. right. eauto. }
  unfold rbind at 1 in H.
  destruct (outside_on_world new_agent st1) as (S2 & R2 & _).
  destruct (on_world new_agent st1) as [[agent|p|f] st2] eqn:A; cbn [fst snd] in *.
  2:{ exfalso. apply (R2 p). reflexivity. }
  2:{ injection H as <- <-. left. split; [congruence|]. right. eauto. }
  unfold rbind at 1 in H.
  destruct (outside_parse_resumes agent files st2) as (S3 & R3 & _).
  destruct (parse_resumes agent files st2) as [[resumes|p|f] st3] eqn:P;
    cbn [fst snd] in *.
  2:{ exfalso. apply (R3 p). reflexivity. }
  2:{ injection H as <- <-. left. split; [congruence|]. right. eauto. }
  unfold rbind at 1 in H.
  set (job := parse_job_description_with_ai (String c t) (chat agent)) in *.
  unfold of_sum at 1 in H.
  destruct (rank_resumes agent resumes job) as [rs|e] eqn:K.
  2:{ injection H as <- <-. left. split; [congruence|]. right. eauto. }
  unfold rbind at 1 in H. unfold db_save_session at 1 in H.
  destruct (save_session (clock (fst st3)) (JobDescription.title job)
              (JobDescription.company job) (map asdict rs) (snd st3))
    as [[sid|e] d4] eqn:V.
  2:{ injection H as <- <-. left. cbn [snd]. apply save_session_raise in V.
      split; [congruence|]. right. eauto. }
  unfold rbind at 1 in H.
  destruct (outside_clean_up files (fst st3, d4)) as (S5 & R5 & T5).
  destruct (clean_up files (fst st3, d4)) as [[u5|p|f] st5] eqn:L;
    cbn [fst snd] in *.
  2:{ exfalso. apply (R5 p). reflexivity. }
  - injection H as <- <-. right.
    exists rs, (JobDescription.title job), sid. split; [|left; reflexivity].
    exists agent, (String c t), files, resumes, (clock (fst st3)).
    cbn zeta. fold job. rewrite S5.
    replace (snd st) with (snd st3) by congruence.
    split; [exact (on_world_next _ _ _ _ A)|].
    split; [exact F|]. split; [eapply parse_resumes_ids, P|].
    split; [exact K|]. split; [reflexivity | exact V].
  - injection H as <- <-. right.
    exists rs, (JobDescription.title job), sid. split.
    + exists agent, (String c t), files, resumes, (clock (fst st3)).
      cbn zeta. fold job. rewrite S5.
      replace (snd st) with (snd st3) by congruence.
      split; [exact (on_world_next _ _ _ _ A)|].
    split; [exact F|]. split; [eapply parse_resumes_ids, P|].
      split; [exact K|]. split; [reflexivity | exact V].
    + right. destruct (T5 f eq_refl) as [e ->]. eauto.
Qed.

End RouteFacts.

Section RouteClaims.

Context {codec : JsonCodec} {W E : Type} {host : Host W E}.

Lemma read_job_text_pasted (r : request) (c : ascii) (t : string) :
  pasted_text r = String c t ->
  read_job_text r = ret (Some (String c t)).
Proof.
  unfold read_job_text, pasted_text. intros ->. reflexivity.
Qed.

Lemma pasted_nonempty (r : request) :
  pasted_text r <> EmptyString -> exists c t, pasted_text r = String c t.
Proof. destruct (pasted_text r) as [|c t]; [contradiction | eauto]. Qed.

Lemma check_resumes_pass (files : list FileStorage.t) (st : W * db) :
  Forall (fun g => allowed_file (FileStorage.filename g) = Ok true) files ->
  check_resumes (E := E) files st = (Next tt, st).
Proof.
  induction 1 as [|g files Hg _ IH]; [reflexivity|].
  cbn [check_resumes]. unfold rbind, of_except. rewrite Hg. exact IH.
Qed.





(** X20.  A pasted job description takes precedence: when the form field is
    not blank, the job file of the request is not looked at, whatever its
    name and type, and the text used is the field, stripped. *)
Theorem pasted_text_wins (r1 r2 : request) (st : W * db) :
  form_job_description_text r1 = form_job_description_text r2 ->
  files_resumes r1 = files_resumes r2 ->
  pasted_text r1 <> EmptyString ->
  upload_files r1 st = upload_files r2 st /\
  read_job_text r1 st = (Next (Some (pasted_text r1)), st).
Proof.
  intros F R P.
  assert (P2 : pasted_text r2 = pasted_text r1)
    by (unfold pasted_text; rewrite F; reflexivity).
  destruct (pasted_nonempty r1 P) as (c & t & T).
  split.
  - unfold upload_files, upload_try.
    rewrite (read_job_text_pasted r1 c t T).
    rewrite (read_job_text_pasted r2 c t) by congruence.
    rewrite R. reflexivity.
  - rewrite (read_job_text_pasted r1 c t T), T. reflexivity.
Qed.






(** X22.  When [upload_files] does not show the results page, nothing is
    stored, with one exception.  The store is as it was after every
    message of a check and after every failure, that of the scorer and
    that of [save_session] included; it has one more session only when
    [save_session] committed and the removal of an uploaded file then
    raised, and the page then reports that failure.  With a scorer that
    fails, the route always answers with the index page and stores
    nothing. *)
Theorem upload_failure_stores_nothing (r : request) (st : W * db) :
  let out := upload_files r st in
  let d := snd st in
  let d' := snd (snd out) in
  (d' = d \/ exists rs jt sid, committed r d d' rs jt sid) /\
  (forall m, fst out = Index m ->
     d' = d \/
     exists e rs jt sid,
       Index m = caught (Collaborator e) /\ committed r d d' rs jt sid) /\
  (forall s, fst out = Index (Text s) -> d' = d) /\
  (forall e, fst out = caught (Python e) -> d' = d) /\
  ((forall w agent w', new_agent w = (inl agent, w') ->
      forall resumes job, exists e, rank_resumes agent resumes job = inr e) ->
   d' = d /\ exists m, fst out = Index m).
Proof.
  intros out d d'. subst out d d'. unfold upload_files.
  destruct (upload_try r st) as [res st'] eqn:U.
  destruct (upload_try_cases _ _ _ _ U)
    as [(S & [(s & ->)|(f & ->)])|(rs & jt & sid & C & [->|(e & ->)])];
    cbn [fst snd].
  - split; [left; exact S|]. split; [intros; left; exact S|].
    split; [intros; exact S|]. split; [intros; exact S|].
    intros _. split; [exact S | eauto].
  - split; [left; exact S|]. split; [intros; left; exact S|].
    split; [intros; exact S|]. split; [intros; exact S|].
    intros _. split; [exact S|]. unfold caught.
    destruct (match f with Collaborator e => value_error e
              | Python e => is_value_error e end); eauto.
  - assert (N : ~ (forall w agent w', new_agent w = (inl agent, w') ->
                   forall resumes job, exists e,
                     rank_resumes agent resumes job = inr e)).
    { intros K.
      destruct C as (agent & job_text & files & resumes & now
                     & (w0 & w1 & A) & _ & _ & R & _).
      destruct (K w0 agent w1 A resumes
                  (parse_job_description_with_ai job_text (chat agent)))
        as [e R']. rewrite R' in R. discriminate. }
    split; [right; eauto|]. split; [discriminate|].
    split; [discriminate|]. split.
    + intros e H. unfold caught in H. destruct (is_value_error e); discriminate.
    + intros K. contradiction.
  - assert (N : ~ (forall w agent w', new_agent w = (inl agent, w') ->
                   forall resumes job, exists e,
                     rank_resumes agent resumes job = inr e)).
    { intros K.
      destruct C as (agent & job_text & files & resumes & now
                     & (w0 & w1 & A) & _ & _ & R & _).
      destruct (K w0 agent w1 A resumes
                  (parse_job_description_with_ai job_text (chat agent)))
        as [e' R']. rewrite R' in R. discriminate. }
    split; [right; eauto|]. split; [|split; [|split]].
    + intros m H. right. exists e, rs, jt, sid. split; [symmetry; exact H | exact C].
    + intros s H. unfold caught in H. destruct (value_error e); discriminate.
    + intros e' H. unfold caught in H.
      destruct (value_error e), (is_value_error e'); discriminate.
    + intros K. contradiction.
Qed.

End RouteClaims.


(* ================================================================== *)
(** * The further properties at concrete inputs *)

Lemma ask_decodes_fenced_body_witness :
  let reply := "Here it is: ```json {} ``` Bye." in
  let agent := agent_replying reply in
  create agent {| req_model := model agent; req_system := "system";
                  req_user := "user"; req_max_tokens := 100 |}
    = Ok (Some reply) /\
  ask (codec := mini_json) agent "system" "user" 100
    = json_loads (JsonCodec := mini_json) (PyStr.strip " {} ").
Proof.
  intros reply agent.
  destruct (ask_decodes_fenced_body (codec := mini_json) agent "system" "user"
              reply 100 eq_refl) as [_ H].
  split; [reflexivity|].
  apply (H "Here it is: " " {} " "``` Bye."); try reflexivity.
  right. exists " Bye.". split; reflexivity.
Defined.

Lemma pasted_text_wins_witness :
  let r2 := {| form_job_description_text := Some " Backend engineer ";
               files_job_description := None;
               files_resumes := files_resumes sample_request |} in
  let st := (@nil string, init_database) in
  pasted_text sample_request = "Backend engineer" /\
  upload_files (codec := mini_json) (host := sample_host) sample_request st
  = upload_files (codec := mini_json) (host := sample_host) r2 st.
Proof.
  intros r2 st. split; [reflexivity|].
  apply (pasted_text_wins (codec := mini_json) (host := sample_host)
           sample_request r2 st); try reflexivity.
  intros H. vm_compute in H. discriminate H.
Defined.

Lemma session_ids_never_reused_witness :
  let later := run (codec := mini_json) (sample_ops ++ [Delete 2; Clear]) in
  sessions later = [] /\
  fst (save_session (codec := mini_json) 300 (PStr "Designer") PNone [ann] later)
    = Ok 3 /\
  Forall (fun s => SessionRow.id s < 3)
    (sessions (run (codec := mini_json) sample_ops)).
Proof.
  intros later.
  assert (H : save_session (codec := mini_json) 300 (PStr "Designer") PNone [ann]
                (run (codec := mini_json) (sample_ops ++ [Delete 2; Clear]))
              = (Ok 3, snd (save_session (codec := mini_json) 300
                              (PStr "Designer") PNone [ann] later)))
    by (vm_compute; reflexivity).
  split; [vm_compute; reflexivity|]. split; [vm_compute; reflexivity|].
  apply Forall_forall. intros s Hs.
  exact (proj2 (proj2 (session_ids_never_reused (codec := mini_json) sample_ops
                         [Delete 2; Clear]))
           s 300 (PStr "Designer") PNone [ann] 3 _ Hs H).
Defined.

Lemma hide_unhide_round_trip_witness :
  let d := run (codec := mini_json) sample_ops in
  snd (unhide_session 2 (snd (hide_session 2 d))) = d /\
  snd (hide_session 1 (snd (unhide_session 1 d))) = d.
Proof.
  intros d. split.
  - apply (proj1 (hide_unhide_round_trip d 2)).
    intros s Hs Hi. vm_compute in Hs.
    destruct Hs as [<-|[<-|[]]]; [discriminate Hi | reflexivity].
  - apply (proj2 (hide_unhide_round_trip d 1)).
    intros s Hs Hi. vm_compute in Hs.
    destruct Hs as [<-|[<-|[]]]; [reflexivity | discriminate Hi].
Defined.

Lemma allowed_file_last_extension_witness :
  allowed_file "archive.tar.PDF" = Ok true /\
  allowed_file "cv.pdf.exe" = Ok false /\
  allowed_file "README" = Ok false.
Proof.
  split; [|split].
  - apply (proj1 (proj2 (proj2 (allowed_file_last_extension "archive.tar.PDF")))
             "archive.tar" "PDF"); reflexivity.
  - apply (proj1 (proj2 (proj2 (allowed_file_last_extension "cv.pdf.exe")))
             "cv.pdf" "exe"); reflexivity.
  - apply (proj1 (proj2 (allowed_file_last_extension "README"))). reflexivity.
Defined.

Lemma saved_session_read_back_witness :
  let d := run (codec := mini_json) sample_ops in
  let out :=
    save_session (codec := mini_json) 300 (PStr "Designer") PNone [ann; bob] d in
  let d' := snd out in
  plain_text PNone /\
  save_session (codec := mini_json) 300 (PStr "Designer") PNone [ann; bob]
    (run (codec := mini_json) sample_ops) = (Ok 3, d') /\
  exists s,
    sessions d' = sessions (run (codec := mini_json) sample_ops) ++ [s] /\
    SessionRow.id s = 3 /\
    SessionRow.job_title s = SText "Designer" /\
    SessionRow.company s = column_of PNone /\
    SessionRow.timestamp s = 300 /\
    SessionRow.is_hidden s = 0 /\
    SessionRow.total_candidates s = Z.of_nat (List.length [ann; bob]) /\
    List.length (results_of d' 3) = List.length [ann; bob] /\
    In s (get_all_sessions false d') /\
    get_session_results (codec := mini_json) 3 d' =
      (rows <- mapM (decode_row (codec := mini_json)) (results_of d' 3) ;;
       Ok (s, rows)).
Proof.
  intros d out d'.
  assert (P : plain_text PNone) by (left; reflexivity).
  assert (H : save_session (codec := mini_json) 300 (PStr "Designer") PNone
                [ann; bob] (run (codec := mini_json) sample_ops) = (Ok 3, d'))
    by (vm_compute; reflexivity).
  exact (conj P (conj H (saved_session_read_back (codec := mini_json) sample_ops
                           300 "Designer" PNone [ann; bob] 3 d' P H))).
Defined.

(** The failing input of C1: [jane_roe.doc] is an accepted upload, and the
    name of its fallback record keeps the extension. *)
Lemma extract_candidate_fallback_witness :
  let agent := agent_with (Raise APIError) in
  let r := parse_resume_with_ai (codec := mini_json) long_text "jane_roe.doc" agent in
  raises (resume_try (codec := mini_json) long_text "jane_roe.doc" agent) /\
  allowed_file "jane_roe.doc" = Ok true /\
  Resume.name r = PStr "jane roe.doc" /\
  Resume.id r = "jane_roe_doc" /\
  Resume.email r = PStr EmptyString /\
  Resume.phone r = PStr EmptyString /\
  Resume.skills r = PList [] /\
  Resume.experience r = PList [] /\
  Resume.education r = PList [] /\
  Resume.summary r = PStr (PyStr.take 300 long_text).
Proof.
  intros agent r.
  assert (H : raises (resume_try (codec := mini_json) long_text "jane_roe.doc" agent)).
  { exists APIError. vm_compute. reflexivity. }
  pose proof (extract_candidate_fallback (codec := mini_json) long_text
                "jane_roe.doc" agent H)
    as (W1 & _ & W3 & W4 & W5 & W6 & W7 & W8 & _ & _ & _ & W12).
  destruct (W12 "jane_roe" eq_refl eq_refl) as [A N].
  exact (conj H (conj A (conj N (conj W1 (conj W3 (conj W4 (conj W5 (conj W6
          (conj W7 W8))))))))).
Defined.

(** Where the extension is one of the three, the name is the one of the
    specification's example. *)
Example fallback_john_doe :
  let agent := agent_replying "I am sorry, I cannot read this resume." in
  let r := parse_resume_with_ai (codec := mini_json) long_text "john_doe.pdf" agent in
  Resume.id r = "john_doe_pdf" /\
  Resume.name r = PStr "john doe" /\
  Resume.summary r = PStr (PyStr.take 300 long_text).
Proof. vm_compute. repeat split. Qed.




